(* ===== verification/_CoqProject ===== *)
-Q . S2P
Prelude.v
JsValue.v
Effects.v
React.v
Collaborators.v
Props.v
Handlers.v
Typed.v
Overlay.v
Popconfirm.v
Lifecycle.v
Bounds.v
Host.v
Callbacks.v
Interaction.v
User.v
System.v
Spec.v
Usage.v
