(* ===== verification/Prelude.v ===== *)
(** * Verification of the Popconfirm component (components/popconfirm/index.tsx)

    ** The program

    [src/components/popconfirm/index.tsx] is one React function component,
    [Popconfirm].  It keeps one piece of state, the visibility of a
    confirmation popup ([React.useState(props.visible)]), resynchronises it
    with two effects ([useEffect] on [props.visible] and on
    [props.defaultVisible]), wraps the clicks on its two buttons in the
    handlers [onConfirm] and [onCancel], filters the visibility requests of
    the tooltip it delegates to in [onVisibleChange], and renders a
    [Tooltip] element whose overlay holds the message, the icon and the two
    buttons ([renderOverlay]).  The only writer of the state besides the
    effects is [settingVisible]; the host application observes the component
    through the element it renders and through the callbacks it passes as
    props ([onVisibleChange], [onConfirm], [onCancel]).

    ** The development, file by file (in dependency order)

    - [Prelude] (this file): what every other file shares: the scope
      [js_scope], the hint databases [popconfirm] and [js], small tactics,
      and lemmas on finite maps and lists that are about neither JavaScript
      nor React.
    - [JsValue]: the values the component manipulates.  A JavaScript value is
      the inductive [value]; an object is a finite map from property names to
      values ([gmap string value]).  Property read [o !!! k] ([undefined]
      when absent), the [in] operator ([has_key]), truthiness ([truthy]), the
      [||] operator ([js_or]), object spread ([spread], [assign]) and
      destructuring with a rest pattern ([rest_props]) are defined here, with
      the predicates that state TypeScript types ([optional], [is_boolean],
      ...).
    - [Effects]: what a handler or an effect does besides returning: the
      operations [op] (a state write [SetState], a call of a function
      [Call]), the interface [MCall] of the monads in which a function can
      be called, and the monad [action] that records the operations in
      order and stops at the first exception, where a function that is
      called returns.  Its laws, the projections of a trace ([writes],
      [calls]) and the guarded call [if (f) f.call(this, e)] are here.
    - [React]: the part of React the component relies on, modelled from
      React's documented behaviour: [createElement] with default props,
      children and the key as a string ([key_string]), the accessors of an
      element, the hook memory ([slot]), the
      monad [hooks] with [useState] and [useEffect], one render pass
      ([render]), the commit of effects ([run_all]) and the loop [settle]
      that renders again while the effects change the state (with fuel), and
      [dispatch] for an event handler.
    - [Collaborators]: what the component imports from the rest of the
      library, as interfaces (type classes) with the shipped instances:
      [ConfigConsumer] for [getPrefixCls], [LocaleReceiver] for the locale
      of the buttons, [HostFunctions] for render functions of the host, and
      [getRenderPropValue].
    - [Props]: the interfaces [PopconfirmProps] and [PopconfirmState] (lines
      11-27) as predicates ([PopconfirmProps_ok], [PopconfirmState_ok]),
      [Popconfirm.defaultProps] (lines 127-134, [defaultProps]) and the
      element React makes of [<Popconfirm>] with them.
    - [Handlers]: the closures of lines 49-81 under the source's names:
      [settingVisible], [onConfirm], [onCancel], [onVisibleChange], each a
      computation over the [props] and [setVisible] it closes over, in any
      monad that can call a function; [closure] names them as the
      collaborators call them, and [closure_body] is [closure] in
      [action].
    - [Typed]: the interface [PopconfirmProps] as a record of optional
      typed properties (each absent, [undefined] or given), its encoding
      to a props object and back, and the closures written on the record
      ([typed_closure]), where the mode is decided once and no call can
      fail.
    - [Overlay]: [renderOverlay] (lines 83-101), the element tree of the
      popup, with the vocabulary to reach its parts ([ok_button],
      [cancel_button], [label_of], ...).
    - [Popconfirm]: the component (lines 34-47 and 103-125): the effects
      [effect_visible] and [effect_defaultVisible], [prefixCls_of],
      [overlay], [tooltip_config], [tooltip], and [Popconfirm] itself, a
      computation in [hooks]; [rendered_overlay] is what the
      [LocaleReceiver] of the overlay shows.
    - [Lifecycle]: an instance of the component over time: [mount], new
      props and calls of its closures ([step]), the reachable instances
      ([reachable]), sessions ([run_events], [session], which return the
      last instance and everything the component did, in order), and the
      closed forms of React's cycle for this component.
    - [Bounds]: the cost of a trace ([cost]: state writes and calls of the
      host) and the budgets of an event and of a session.
    - [Host]: the host in the loop: a host is a state, the props it passes
      and its reaction to each call ([app]); [system_step] is an event
      followed by the reactions of the host and the render with its new
      props, [batched_step] the same with the two renders in one pass.
      [echo] is the host that controls the popup the documented way
      ([visible={open} onVisibleChange={setOpen}]), [deaf] one that ignores
      what it is told.
    - [Callbacks]: callbacks that run: the monad [hosted] of the
      computations that call into a host, where a call changes the state
      of the host and returns or throws ([hosted_call]); the closures of
      [Handlers] in that monad ([run_closure]); [hosted_invoke] and
      [hosted_step], an event on the popup of such a host; and the
      reference [replayed], a computation of [action] replayed to the host
      and cut at the first call that throws.
    - [Interaction]: the gestures of the user, read off the rendered tree: a
      click on a button ([click]) and a request of the tooltip ([request])
      become the events of [Lifecycle] through the [onClick] and
      [onVisibleChange] the elements were given.
    - [User]: what the user can do, given what is on the screen: the
      [Tooltip] shows the popup while [visible] is truthy
      ([Tooltip_shows]) and asks for the opposite when its trigger is
      activated ([Tooltip_toggle]), a [Button] reacts unless it is disabled
      or loading ([Button_click]); [user_event] makes the events of the
      gestures [Press] and [Toggle], [user_run] runs them.
    - [System]: user, component and host composed ([system_act],
      [system_user_run]), and the user against a host whose callbacks may
      throw ([hosted_act], [hosted_user_run]).
    - [Spec]: the abstract specification, a visibility machine without React
      ([spec_step], [spec_run], and [spec_calls] for what it tells the host
      over a run) over the view of the props ([view]), the machine in the
      hands of the user ([request_by], [spec_user_run]), and the
      refinement theorems.
    - [Usage]: the component as the host uses it: the element
      [<Popconfirm {...config}>] mounted ([mount_element]), rendered
      again for the next element with the same key ([update_element]) or
      replaced by a fresh instance under another key ([reconcile]),
      renders and gestures in sequence ([usage_step], [usage_run],
      [usage]), and the machine under such a usage ([spec_usage]).

    ** How the model corresponds to the code

    - Props are an object, not a record, because the code inspects them
      dynamically: ['visible' in props] is [has_key props "visible"],
      [props.visible] is [props !!! "visible"], [{...restProps}] is a map
      union.  The TypeScript interface is a predicate on such objects, and
      the theorems say which of them need it.
    - A handler is a computation in [action]: [setVisible(v)] is the
      operation [SetState 0 v] (slot 0 is the only state hook), a call of a
      prop is [Call f this args].  React applies the queued writes after the
      handler has returned; so does [dispatch].
    - A function of the host is opaque ([VFun (Host id)]): calling it is
      recorded, and what it does is a parameter: nothing in [action], a
      reaction of the host and possibly an exception in [hosted].  The
      code ignores what a callback returns, and so does the model.  A
      closure the component creates during a render is
      [VFun (Closure name)]; [closure_body] gives what it does, over the
      props of that render.
    - JSX is [createElement]: [<Button onClick={f} {...p}>label</Button>] is
      [createElement (Comp "Button") ∅ (assign {[ "onClick" := f ]} p)
      [label]].
    - Numbers are integers ([Z]); NaN and fractional numbers are not
      modelled.  Objects have no identity: [Object.is] on two objects is
      structural equality in the model.  The dependencies of the two effects
      are [boolean | undefined] for well-typed props, where the two notions
      agree.
    - Where the model is exact only for props of their TypeScript types:
      [{...okButtonProps}] copies the properties of a plain object and
      nothing of any other value ([spread]); a [prefixCls] that is not a
      string counts as absent ([as_string]); the key of an element is the
      string JavaScript makes of it for strings, numbers, booleans, [null]
      and objects, and is kept as it is for arrays and functions
      ([key_string]).  The elements of [Tooltip], [Button] and
      [LocaleReceiver] carry the props the component gives them: the
      default props of those components are not in the repository.

    ** What the theorems show

    - [Handlers]: for each handler the exact sequence of operations on every
      branch (controlled or not, callback given or not, disabled or not);
      the effect of [settingVisible] on the state; that no handler throws on
      well-typed props, and what happens on a callback that is not callable
      ([onConfirm_not_callable], [close_stops_on_error]); that state writes
      precede calls, and that no handler writes the state in controlled
      mode; that the closures mean the same in every monad: a morphism
      of monads that respects calls ([MCallMorphism]) maps each closure to
      itself ([closure_morph]).
    - [Overlay]: the labels of the buttons ([okText || locale.okText]), the
      handler wired to each button and how the button props of the host
      override it, the style of the buttons, the title by kind of value, and
      the shape and classes of the tree.
    - [Props]: default props keep the props well typed, and which props
      they set ([element_defaults]); a prop without a default is the prop
      the host wrote.
    - [Typed]: encoding and decoding of typed props are inverse
      ([props_roundtrip]); the objects that decode are exactly those that
      satisfy [PopconfirmProps_ok]; on encoded props the closures are the
      typed reference and never throw ([closure_body_typed]).
    - [Popconfirm]: a complete description of the props of the [Tooltip];
      one render pass (state shown, memory written, effects scheduled, in
      order); the labels the user reads under a locale provider; the custom
      class prefix, for every configuration context.
    - [Lifecycle]: the state after mounting, after new props and after each
      event, in closed form; the memory invariant and the type of the state
      in every reachable instance; that a controlled popup tracks its prop;
      that every event is handled, and that a handler that throws still
      commits the state it wrote; what a change of mode during the life of
      an instance does to the state ([mode_change]).
    - [Bounds]: an event settles within [passes] render passes, two state
      writes and two calls of the host; a session of [n] events within
      [2 (n + 1)] writes and [2 n] calls; for all props, typed or not.
    - [Host]: the popup controlled by the echoing host and the
      uncontrolled popup end every sequence of calls of their closures
      with the same visibility, and their hosts hear the same
      ([echo_equiv]); a host that does not listen keeps the popup as it
      shows it; rendering the popup between the handler and the render of
      the host, or batching the two, gives the same host, popup and
      operations ([batched_step_eq]).
    - [Callbacks]: against every host the closures are those of
      [Handlers] replayed to the host ([closure_replayed]), so the
      theorems of [Handlers] describe what happens up to the first
      exception; a click on a button in closed form, with the second
      callback called in the state the first has left the host in
      ([hosted_close_trace]); a host whose functions return is the host of [Host]
      ([hosted_step_quiet]); if [onVisibleChange] throws, [onConfirm] and
      [onCancel] are not called ([callback_throws_stops]); and whatever
      the callbacks do, a click on a button closes the uncontrolled popup
      ([hosted_click_closes]), because the state write is queued before
      the first call; a closure changes the host only by the calls it
      makes ([run_closure_delivers]).
    - [Interaction]: a click on a button closes the popup and tells the
      host, end to end from the tree to the state; a button whose [onClick]
      the host replaced does not reach the component; a request of the
      tooltip always goes through the component; what is on the screen
      after an event is the [Tooltip] for the props and the state of the
      instance ([shown_committed]).
    - [User]: in the hands of the user the uncontrolled popup is the
      two-state machine of the specification ([user_run_machine]): hidden
      by either button, toggled by the trigger unless disabled, and a
      hidden popup cannot be answered; opening and dismissing is a round
      trip ([toggle_twice]); whatever state the popup is in, at most one
      activation of the trigger of a popup that is not disabled shows it
      or hides it ([popup_reusable]).
    - [System]: for its user and its host the popup controlled by the
      echoing host is the uncontrolled popup ([echo_user_equiv]); the
      uncontrolled popup is the two-state machine for its user whatever
      the callbacks of the host do ([hosted_user_machine]).
    - [Spec]: each event of the component is a step of the visibility
      machine with the same notifications ([step_refines]), whole sessions
      always settle and refine runs of the machine, in the final state and
      in the calls the host received ([session_refines]), the visibility
      depends on the props only through their view ([visible_after_proper],
      a [Proper] instance for the equivalence [view_equiv]), and against a
      host whose callbacks may throw the state is still the state of the
      machine, and the calls a prefix of its notifications
      ([hosted_refines]); in both modes the popup in the hands of the user
      refines the machine in the hands of the user ([user_refines]).
    - [Usage]: what the host gets for what it wrote: the [Tooltip] of the
      mounted element (ref, child, trigger, placement, transition and
      visibility, [mount_element_tooltip]) and its popup (icon, title, type
      of the OK button, labels, [mount_element_popup]), with the defaults
      where the host wrote nothing; the default props are invisible to the
      machine ([view_Popconfirm_element]); and a whole usage, from the
      element the host writes through every later render and every gesture
      of the user to the calls the host receives, refines the machine
      ([usage_refines]).  The scenarios of the specification are evaluated
      there from the element to the calls.

    ** Bounds and fuel

    [settle] takes fuel because a component whose effects keep writing its
    state renders for ever.  For [Popconfirm] the effects of a second render
    pass never run (their dependencies are those of the first), so fuel 2
    ([passes]) is enough from any memory and any props: this is proved
    ([settle_Popconfirm_total]), not assumed; [step_total] extends it to
    every event on a reachable instance, and [session_total] to every
    session.

    ** Not modelled

    The [Tooltip] and [Button] components beyond what [User] says of them
    (positioning, the kinds of trigger, portals, animation, focus; a button
    stays clickable during the closing animation in the browser, not in the
    model) and the DOM: their code is not in the repository.  Partial
    locale entries merged over the default locale: neither the source nor
    the specification says how [LocaleReceiver] merges them.  A callback
    that renders or unmounts the popup before it returns, and a render
    function given as [title] that throws: both go through React's error
    handling and scheduler, of which only the cycle of [React] is
    modelled.  Effect cleanup: the component registers no cleanup and
    holds no resource, so unmounting an instance is dropping it (as
    [reconcile] does for an element with another key).  Asynchronous
    callbacks are calls that
    return, as far as the component is concerned.  Every line of the
    source but the imports and the export is the subject of a definition;
    what is left out is behaviour of the collaborators. *)

From stdpp Require Export base tactics option list strings gmap.

(** The scope of the JavaScript operators of the development. *)
Declare Scope js_scope.
Delimit Scope js_scope with js.

(** The facts the automation of every component may use ([auto with
    popconfirm]), and the equations that simplify JavaScript operators
    ([autorewrite with js]). *)
Create HintDb popconfirm discriminated.
Create Rewrite HintDb js.

(** ** Tactics *)

(** Case analysis on the boolean a [match] or [if] of the goal inspects. *)
Ltac case_bool :=
  match goal with
  | |- context [if ?b then _ else _] =>
      lazymatch type of b with bool => destruct b eqn:? end
  end.

(** ** Finite maps: which key wins *)

Section maps.
Context {K : Type} `{Countable K} {A : Type}.
Implicit Types (m over base : gmap K A) (k : K) (ks : list K).

(** The left operand of a union wins, key by key. *)
Lemma lookup_union_case over base k :
  (over ∪ base) !! k = match over !! k with Some v => Some v | None => base !! k end.
Proof.
  destruct (over !! k) as [v|] eqn:E.
  - by apply lookup_union_Some_l.
  - by apply lookup_union_r.
Qed.

(** Removing a list of keys removes exactly those keys. *)
Lemma lookup_foldr_delete m ks k :
  foldr delete m ks !! k = if decide (k ∈ ks) then None else m !! k.
Proof.
  induction ks as [|k' ks IH]; cbn [foldr].
  - destruct (decide (k ∈ [])) as [Hin|Hin]; [set_solver|done].
  - destruct (decide (k' = k)) as [->|Hne].
    + rewrite lookup_delete_eq. destruct (decide (k ∈ k :: ks)) as [Hin|Hin]; [done|set_solver].
    + rewrite lookup_delete_ne, IH by done.
      apply decide_ext. rewrite elem_of_cons.
      split; [by right|by intros [->|?]].
Qed.

End maps.

(** ** Lists *)

Section lists.
Context {A : Type}.

(** One-element lists differ exactly when their elements do. *)
Lemma singleton_neq_iff (a b : A) : [a] ≠ [b] ↔ a ≠ b.
Proof. split; intros H E; apply H; congruence. Qed.

End lists.
