(* ===== verification/JsValue.v ===== *)
(** * JavaScript values, objects and the operators the component uses

    The component is written in TypeScript but inspects its props
    dynamically (['visible' in props], [okText || locale.okText],
    [{...okButtonProps}]).  This file gives those operators their JavaScript
    meaning on an untyped universe of values, and states the TypeScript
    types of the props as boolean predicates on that universe. *)

From S2P Require Import Prelude.

#[local] Set Warnings "-register-all".

(** ** Values *)

(** A function value: a function of the host application, known only by an
    identity, or a closure the component created during a render, known by
    the name the source gives it. *)
Inductive func : Type :=
| Host (id : nat)
| Closure (name : string).

(** The type of a React element: a DOM tag ([<div>]) or a component
    ([<Button>]). *)
Inductive etype : Type :=
| Tag (name : string)
| Comp (name : string).

(** A JavaScript value.  [VElem] is a React element, with the [key] and
    [ref] React keeps beside its props. *)
Inductive value : Type :=
| VUndef
| VNull
| VBool (b : bool)
| VNum (n : Z)
| VStr (s : string)
| VFun (f : func)
| VArr (vs : list value)
| VObj (o : gmap string value)
| VElem (ty : etype) (key ref : value) (props : gmap string value).

(** An object is a finite map from property names to values.  (An abbreviation,
    so that the lemmas of finite maps apply without unfolding.) *)
Abbreviation obj := (gmap string value).

#[global] Instance func_eq_dec : EqDecision func.
Proof. solve_decision. Defined.

#[global] Instance etype_eq_dec : EqDecision etype.
Proof. solve_decision. Defined.

#[global] Instance value_eq_dec : EqDecision value.
Proof.
  refine (fix go (x y : value) {struct x} : Decision (x = y) :=
    let _ : EqDecision value := go in
    match x, y with
    | VUndef, VUndef => left _
    | VNull, VNull => left _
    | VBool a, VBool b => cast_if (decide (a = b))
    | VNum a, VNum b => cast_if (decide (a = b))
    | VStr a, VStr b => cast_if (decide (a = b))
    | VFun a, VFun b => cast_if (decide (a = b))
    | VArr a, VArr b => cast_if (decide (a = b))
    | VObj a, VObj b => cast_if (decide (a = b))
    | VElem t k r p, VElem t' k' r' p' =>
        cast_if_and4 (decide (t = t')) (decide (k = k')) (decide (r = r'))
          (decide (p = p'))
    | _, _ => right _
    end); abstract congruence.
Defined.

(** Reading a property that an object lacks gives [undefined]. *)
#[global] Instance value_inhabited : Inhabited value := populate VUndef.

(** ** Operators *)

(** [k in o]: own properties only.  (The prototype chain is not
    modelled: props objects are plain objects, and the keys the component
    tests, [visible] and [defaultVisible], are not properties of
    [Object.prototype].) *)
Definition has_key (o : obj) (k : string) : bool :=
  bool_decide (is_Some (o !! k)).

(** ToBoolean: [undefined], [null], [false], [0] and [""] are falsy, every
    other value is truthy. *)
Definition truthy (v : value) : bool :=
  match v with
  | VUndef | VNull => false
  | VBool b => b
  | VNum n => negb (n =? 0)%Z
  | VStr s => negb (String.eqb s "")
  | VFun _ | VArr _ | VObj _ | VElem _ _ _ _ => true
  end.

(** [a || b]: the left operand when it is truthy, else the right one. *)
Definition js_or (a b : value) : value :=
  if truthy a then a else b.

Notation "a || b" := (js_or a b) : js_scope.

(** The properties [{...v}] copies: those of a plain object; [undefined],
    [null], booleans, numbers and functions contribute none.  (A string or
    an array would contribute its indices and a React element its fields;
    the props the component spreads, [okButtonProps] and
    [cancelButtonProps], are plain objects or absent by their type, and for
    a value of another type the model copies nothing.) *)
Definition spread (v : value) : obj :=
  match v with
  | VObj o => o
  | _ => ∅
  end.

(** [{...base, ...v}]: the properties of [v] override those of [base]. *)
Definition assign (base : obj) (v : value) : obj :=
  spread v ∪ base.

(** [const { k1, ..., kn, ...rest } = o]: the object [rest]. *)
Definition rest_props (ks : list string) (o : obj) : obj :=
  foldr delete o ks.

(** ** TypeScript types as predicates *)

Definition is_undefined (v : value) : bool :=
  match v with VUndef => true | _ => false end.

Definition is_boolean (v : value) : bool :=
  match v with VBool _ => true | _ => false end.

Definition is_string (v : value) : bool :=
  match v with VStr _ => true | _ => false end.

Definition is_function (v : value) : bool :=
  match v with VFun _ => true | _ => false end.

Definition is_object (v : value) : bool :=
  match v with VObj _ => true | _ => false end.

(** [k?: T] on an object: the property is absent, [undefined], or a [T]. *)
Definition optional (T : value → bool) (o : obj) (k : string) : bool :=
  is_undefined (o !!! k) || T (o !!! k).

(** ** Lemmas *)

Section operators.
Implicit Types (o base : obj) (v a b : value) (k : string).

Lemma has_key_spec o k : has_key o k = true ↔ is_Some (o !! k).
Proof. unfold has_key. by rewrite bool_decide_eq_true. Qed.

Lemma has_key_false o k : has_key o k = false ↔ o !! k = None.
Proof.
  unfold has_key. by rewrite bool_decide_eq_false, eq_None_not_Some.
Qed.

Lemma has_key_Some o k v : o !! k = Some v → has_key o k = true.
Proof. intros E. apply has_key_spec. eauto. Qed.

(** A property that is not in the object reads as [undefined]. *)
Lemma get_absent o k : has_key o k = false → o !!! k = VUndef.
Proof.
  rewrite has_key_false. intros E. by rewrite lookup_total_alt, E.
Qed.

Lemma get_present o k v : o !! k = Some v → o !!! k = v.
Proof. intros E. by rewrite lookup_total_alt, E. Qed.

(** Two objects that agree on the presence of a key and on its value
    agree on the lookup. *)
Lemma lookup_agree o o' k :
  has_key o k = has_key o' k → o !!! k = o' !!! k → o !! k = o' !! k.
Proof.
  intros Hk Hv. destruct (o' !! k) as [v'|] eqn:E'.
  - rewrite (has_key_Some _ _ _ E'), has_key_spec in Hk. destruct Hk as [v E].
    by rewrite (get_present _ _ _ E), (get_present _ _ _ E') in Hv; subst.
  - apply has_key_false. rewrite Hk. by apply has_key_false.
Qed.

Lemma has_key_insert o k k' v :
  has_key (<[k:=v]> o) k' = bool_decide (k = k') || has_key o k'.
Proof.
  unfold has_key at 1. rewrite lookup_insert. destruct (decide (k = k')) as [->|Hne].
  - by rewrite !bool_decide_eq_true_2 by eauto.
  - by rewrite (bool_decide_eq_false_2 (k = k')).
Qed.

Lemma has_key_empty k : has_key ∅ k = false.
Proof. by apply has_key_false. Qed.

Lemma has_key_singleton k k' v :
  has_key ({[k := v]} : obj) k' = bool_decide (k = k').
Proof.
  by rewrite <- insert_empty, has_key_insert, has_key_empty, orb_false_r.
Qed.

(** *** [||] *)

Lemma js_or_truthy a b : truthy a = true → (a || b)%js = a.
Proof. unfold js_or. by intros ->. Qed.

Lemma js_or_falsy a b : truthy a = false → (a || b)%js = b.
Proof. unfold js_or. by intros ->. Qed.

Lemma truthy_js_or a b : truthy (a || b)%js = truthy a || truthy b.
Proof. unfold js_or. by destruct (truthy a) eqn:E; rewrite ?E. Qed.

(** *** Spread and rest *)

(** In [{...base, ...v}] a key of [v] wins; a key [v] lacks keeps the value
    it has in [base]. *)
Lemma lookup_assign base v k :
  assign base v !! k =
    match spread v !! k with Some x => Some x | None => base !! k end.
Proof. apply lookup_union_case. Qed.

Lemma get_assign base v k :
  assign base v !!! k =
    if has_key (spread v) k then spread v !!! k else base !!! k.
Proof.
  rewrite !lookup_total_alt, lookup_assign.
  destruct (spread v !! k) eqn:E.
  - by rewrite (has_key_Some _ _ _ E).
  - by rewrite (proj2 (has_key_false _ _) E).
Qed.

Lemma has_key_assign base v k :
  has_key (assign base v) k = has_key (spread v) k || has_key base k.
Proof.
  unfold has_key at 1. rewrite lookup_assign.
  destruct (spread v !! k) eqn:E.
  - rewrite (has_key_Some _ _ _ E). by apply bool_decide_eq_true_2.
  - by rewrite (proj2 (has_key_false _ _) E).
Qed.

(** Spreading a value that is not an object changes nothing. *)
Lemma assign_non_object base v : is_object v = false → assign base v = base.
Proof.
  intros Hv. unfold assign.
  destruct v; try discriminate; simpl; apply (left_id ∅ (∪)).
Qed.

(** The rest of a destructuring has every key but the named ones. *)
Lemma lookup_rest_props ks o k :
  rest_props ks o !! k = if decide (k ∈ ks) then None else o !! k.
Proof. apply lookup_foldr_delete. Qed.

Lemma get_rest_props ks o k : k ∉ ks → rest_props ks o !!! k = o !!! k.
Proof.
  intros Hk. by rewrite !lookup_total_alt, lookup_rest_props, decide_False.
Qed.

Lemma has_key_rest_props ks o k :
  has_key (rest_props ks o) k = bool_decide (k ∉ ks) && has_key o k.
Proof.
  unfold has_key at 1. rewrite lookup_rest_props.
  destruct (decide (k ∈ ks)) as [Hin|Hin].
  - rewrite (bool_decide_eq_false_2 (k ∉ ks)) by tauto.
    apply bool_decide_eq_false_2. by intros [? ?].
  - by rewrite (bool_decide_eq_true_2 (k ∉ ks)).
Qed.

(** *** Types *)

Lemma optional_absent T o k : has_key o k = false → optional T o k = true.
Proof. intros E. unfold optional. by rewrite get_absent. Qed.

Lemma optional_cases T o k :
  optional T o k = true → o !!! k = VUndef ∨ T (o !!! k) = true.
Proof.
  unfold optional. intros [E|E]%orb_true_iff; [left|by right].
  by destruct (o !!! k).
Qed.

(** The rest of a destructuring keeps the types of the props it keeps. *)
Lemma optional_rest_props T ks o k :
  k ∉ ks → optional T (rest_props ks o) k = optional T o k.
Proof. intros Hk. unfold optional. by rewrite get_rest_props. Qed.

(** A function is truthy: a presence check on a well-typed callback prop
    tests whether the callback was given. *)
Lemma is_function_truthy v : is_function v = true → truthy v = true.
Proof. by destruct v. Qed.

Lemma truthy_optional_function o k :
  optional is_function o k = true →
  truthy (o !!! k) = is_function (o !!! k).
Proof.
  intros [->|E]%optional_cases; [done|].
  by rewrite E, is_function_truthy.
Qed.

End operators.

#[export] Hint Rewrite has_key_insert has_key_singleton has_key_empty
  has_key_assign has_key_rest_props get_assign truthy_js_or : js.
