(* ===== verification/Effects.v ===== *)
(** * What a handler does: operations, traces and exceptions

    A handler or an effect of the component does two kinds of things besides
    computing: it writes the state of a hook ([setVisible(v)]) and it calls
    functions it was given as props ([props.onConfirm.call(this, e)]).
    Calling a value that is not a function throws a [TypeError], and a
    function that is called may throw.  The closures of the component are
    written against the interface [MCall] of the monads that know how to
    call a function.  The monad [action] is the one of a host whose
    functions return: it records the operations in the order they happen
    and stops at the first exception, keeping what was done before it. *)

From S2P Require Import Prelude JsValue.

(** ** Operations *)

(** [SetState i v] is the setter of the state hook in slot [i] called with
    [v]; [Call f this args] is [f.call(this, ...args)]. *)
Inductive op : Type :=
| SetState (slot : nat) (v : value)
| Call (f this : value) (args : list value).

(** The exception of calling [callee], which is not a function, and the
    exception [v] a function of the host threw. *)
Inductive error : Type :=
| NotCallable (callee : value)
| Thrown (v : value).

Inductive outcome (A : Type) : Type :=
| Ok (a : A)
| Throw (e : error).
Arguments Ok {A} a.
Arguments Throw {A} e.

#[global] Instance op_eq_dec : EqDecision op.
Proof. solve_decision. Defined.

#[global] Instance error_eq_dec : EqDecision error.
Proof. solve_decision. Defined.

#[global] Instance outcome_eq_dec `{EqDecision A} : EqDecision (outcome A).
Proof. solve_decision. Defined.

(** ** The monad *)

(** The operations performed, in order, and how the computation ended. *)
Definition action (A : Type) : Type := list op * outcome A.

#[global] Instance action_ret : MRet action := λ A a, ([], Ok a).

#[global] Instance action_bind : MBind action := λ A B k m,
  match m.2 with
  | Ok a => (m.1 ++ (k a).1, (k a).2)
  | Throw e => (m.1, Throw e)
  end.

Definition emit (o : op) : action unit := ([o], Ok ()).

Definition throw {A : Type} (e : error) : action A := ([], Throw e).

(** The trace of a computation, and whether it returned. *)
Definition trace {A : Type} (m : action A) : list op := m.1.

Definition returns {A : Type} (m : action A) : bool :=
  match m.2 with Ok _ => true | Throw _ => false end.

(** ** Calling a function *)

(** [f.call(this, ...args)], in a monad that knows what calling a function
    does. *)
Class MCall (M : Type → Type) : Type :=
  call : value → value → list value → M unit.
#[global] Hint Mode MCall ! : typeclass_instances.

(** In [action] the call of a function is recorded and returns. *)
#[global] Instance action_call : MCall action := λ f this args,
  if is_function f then emit (Call f this args) else throw (NotCallable f).

(** [if (c) { m }] *)
Definition when {M : Type → Type} `{!MRet M} (c : bool) (m : M unit) : M unit :=
  if c then m else mret ().

(** A way [φ] to run the computations of a monad [M] in a monad [N] that
    respects sequencing and calls, up to an equivalence of [N] that
    sequencing respects.  What is written against [MCall] means the same
    in [N] as its image by [φ]. *)
Class MCallMorphism {M N : Type → Type}
    `{!MRet M, !MBind M, !MCall M, !MRet N, !MBind N, !MCall N}
    {EqN : ∀ A, Equiv (N A)} (φ : ∀ A, M A → N A) : Prop := {
  morph_equivalence A :: Equivalence (≡@{N A});
  morph_bind_proper A B ::
    Proper (pointwise_relation A (≡) ==> (≡) ==> (≡))
      (mbind (M:=N) (A:=A) (B:=B));
  morph_ret A (x : A) : φ A (mret x) ≡ mret x;
  morph_bind A B (m : M A) (k : A → M B) :
    φ B (m ≫= k) ≡ φ A m ≫= λ x, φ B (k x);
  morph_call f this args : φ unit (call f this args) ≡ call f this args;
}.

(** ** Projections of a trace *)

(** The values written to slot [i], oldest first. *)
Definition writes (i : nat) (t : list op) : list value :=
  omap (λ o, match o with
             | SetState j v => if decide (i = j) then Some v else None
             | Call _ _ _ => None
             end) t.

Definition is_call (o : op) : bool :=
  match o with Call _ _ _ => true | SetState _ _ => false end.

(** The calls of functions, oldest first. *)
Definition calls (t : list op) : list op :=
  filter (λ o, is_call o) t.

(** The call a callback prop receives: one call if the prop is a function,
    none otherwise. *)
Definition callback_call (f this : value) (args : list value) : list op :=
  if is_function f then [Call f this args] else [].

(** The values on which the guarded call does not throw: the falsy ones
    and the functions. *)
Definition callable_or_falsy (f : value) : bool :=
  negb (truthy f) || is_function f.

(** How the guarded call ends. *)
Definition guarded_outcome (f : value) : outcome unit :=
  if callable_or_falsy f then Ok () else Throw (NotCallable f).

(** ** Laws *)

Section laws.
Context {A B C : Type}.
Implicit Types (m : action A) (k : A → action B) (h : B → action C).

Lemma bind_ret_l (a : A) k : mret a ≫= k = k a.
Proof. unfold mbind, action_bind, mret, action_ret. simpl. by destruct (k a). Qed.

Lemma bind_ret_r m : m ≫= mret = m.
Proof.
  destruct m as [t [a|e]]; unfold mbind, action_bind, mret, action_ret; simpl;
    by rewrite ?app_nil_r.
Qed.

Lemma bind_assoc m k h : (m ≫= k) ≫= h = m ≫= (λ a, k a ≫= h).
Proof.
  destruct m as [t [a|e]]; unfold mbind, action_bind; simpl; [|done].
  destruct (k a) as [t' [b|e]]; simpl; [|done].
  by rewrite app_assoc.
Qed.

(** Sequencing after a computation whose trace and result are known. *)
Lemma bind_ok (t : list op) (a : A) k :
  (t, Ok a) ≫= k = (t ++ (k a).1, (k a).2).
Proof. done. Qed.

Lemma bind_thrown (t : list op) (e : error) k :
  ((t, Throw e) : action A) ≫= k = (t, Throw e).
Proof. done. Qed.

(** An exception skips the rest. *)
Lemma bind_throw (e : error) k : throw e ≫= k = throw e.
Proof. done. Qed.

(** The trace of a sequence extends the trace of its first part. *)
Lemma trace_bind_prefix m k : trace m `prefix_of` trace (m ≫= k).
Proof.
  destruct m as [t [a|e]]; unfold trace, mbind, action_bind; simpl.
  - by apply prefix_app_r.
  - done.
Qed.

Lemma returns_bind m k :
  returns (m ≫= k) =
    match m.2 with Ok a => returns (k a) | Throw _ => false end.
Proof. unfold returns, mbind, action_bind. by destruct (m.2). Qed.

End laws.

Section projections.
Implicit Types (t u : list op) (i : nat).

Lemma writes_app i t u : writes i (t ++ u) = writes i t ++ writes i u.
Proof. apply omap_app. Qed.

Lemma calls_app t u : calls (t ++ u) = calls t ++ calls u.
Proof. apply filter_app. Qed.

Lemma writes_cons_set i v t : writes i (SetState i v :: t) = v :: writes i t.
Proof. unfold writes. simpl. by rewrite decide_True. Qed.

(** Writing the values [ws] to slot [i] writes [ws]. *)
Lemma writes_fmap_SetState i (ws : list value) :
  writes i (SetState i <$> ws) = ws.
Proof.
  induction ws as [|w ws IH]; [done|].
  by rewrite fmap_cons, writes_cons_set, IH.
Qed.

Lemma calls_fmap_SetState i (ws : list value) : calls (SetState i <$> ws) = [].
Proof. by induction ws. Qed.

(** A call writes nothing; a write calls nothing. *)
Lemma writes_calls i t : writes i (calls t) = [].
Proof.
  induction t as [|[j v|f this args] t IH]; [done|..]; unfold calls in *.
  - by rewrite filter_cons_False by (by intros []).
  - by rewrite filter_cons_True by done.
Qed.

(** The calls of a prefix are a prefix of the calls. *)
Lemma calls_prefix t u : t `prefix_of` u → calls t `prefix_of` calls u.
Proof. intros [k ->]. rewrite calls_app. by apply prefix_app_r. Qed.

(** The calls of a trace are calls. *)
Lemma calls_calls t : calls (calls t) = calls t.
Proof.
  induction t as [|[j v|f this args] t IH]; [done|..]; unfold calls in *.
  - by rewrite filter_cons_False by (by intros []).
  - rewrite !filter_cons_True by done. by f_equal.
Qed.

End projections.

#[export] Hint Rewrite @bind_ret_l @bind_ret_r @bind_assoc : js.

(** ** Morphisms *)

Section morphism.
Context {M N : Type → Type}.
Context `{!MRet M, !MBind M, !MCall M, !MRet N, !MBind N, !MCall N}.
Context {EqN : ∀ A, Equiv (N A)} (φ : ∀ A, M A → N A) `{!MCallMorphism φ}.

#[local] Instance when_proper :
  Proper (eq ==> (≡) ==> (≡)) (when (M:=N)).
Proof. intros c ? <- m m' Hm. by destruct c. Qed.

Lemma morph_when (c : bool) (m : M unit) :
  φ unit (when c m) ≡ when c (φ unit m).
Proof. destruct c; [done|]. apply morph_ret. Qed.

(** The guarded call [if (f) f.call(this, ...args)] means the same. *)
Lemma morph_when_call (f this : value) (args : list value) :
  φ unit (when (truthy f) (call f this args)) ≡
    when (truthy f) (call f this args).
Proof. by rewrite morph_when, morph_call. Qed.

End morphism.

(** ** The guarded call [if (f) f.call(this, ...args)] *)

Section guarded_call.
Implicit Types (f this : value) (args : list value).

(** The guarded call on every kind of prop: nothing for a falsy prop, the
    call for a function, an exception for any other truthy value. *)
Lemma when_call f this args :
  when (M:=action) (truthy f) (call f this args) =
    if is_function f then ([Call f this args], Ok ())
    else if truthy f then ([], Throw (NotCallable f))
    else ([], Ok ()).
Proof.
  unfold when, call, action_call.
  destruct (is_function f) eqn:Ef.
  - by rewrite is_function_truthy.
  - by destruct (truthy f).
Qed.

Lemma when_call_pair f this args :
  when (M:=action) (truthy f) (call f this args) =
    (callback_call f this args, guarded_outcome f).
Proof.
  rewrite when_call. unfold callback_call, guarded_outcome, callable_or_falsy.
  destruct (is_function f) eqn:Ef; [by rewrite orb_true_r|].
  by destruct (truthy f).
Qed.

Lemma trace_when_call f this args :
  trace (when (M:=action) (truthy f) (call f this args)) = callback_call f this args.
Proof. by rewrite when_call_pair. Qed.

(** The guarded call throws exactly on a truthy value that is no function. *)
Lemma returns_when_call f this args :
  returns (when (M:=action) (truthy f) (call f this args)) = callable_or_falsy f.
Proof.
  rewrite when_call_pair. unfold returns, guarded_outcome. simpl.
  by destruct (callable_or_falsy f).
Qed.

(** An optional function is callable or falsy. *)
Lemma optional_function_callable (o : obj) (k : string) :
  optional is_function o k = true → callable_or_falsy (o !!! k) = true.
Proof.
  intros H. unfold callable_or_falsy.
  by rewrite (truthy_optional_function _ _ H), orb_negb_l.
Qed.

(** A guarded state write always returns. *)
Lemma when_emit (c : bool) (o : op) :
  when (M:=action) c (emit o) = ((if c then [o] else []), Ok ()).
Proof. by destruct c. Qed.

Lemma calls_callback_call f this args :
  calls (callback_call f this args) = callback_call f this args.
Proof. unfold callback_call. by destruct (is_function f). Qed.

Lemma writes_callback_call i f this args :
  writes i (callback_call f this args) = [].
Proof. unfold callback_call. by destruct (is_function f). Qed.

End guarded_call.

#[export] Hint Rewrite trace_when_call returns_when_call calls_callback_call
  writes_callback_call writes_app calls_app : js.
