(* ===== verification/React.v ===== *)
(** * The part of React the component relies on

    [React.createElement], the hooks [useState] and [useEffect], and the
    cycle render / commit / run effects / re-render, as React documents
    them.  None of this is code of the repository: it is the contract the
    component is written against. *)

From stdpp Require Import pretty.
From S2P Require Import Prelude JsValue Effects.

(** ** Elements *)

(** The props [createElement] does not copy from its [config]. *)
Definition reserved_props : list string := ["key"; "ref"; "__self"; "__source"].

(** [type.defaultProps]: a default applies where the prop is [undefined],
    absent or not. *)
Definition resolveDefaultProps (defaults props : obj) : obj :=
  merge (λ d p,
    match p with
    | Some VUndef | None => match d with Some x => Some x | None => p end
    | Some v => Some v
    end) defaults props.

(** The [children] prop given by the children arguments: none leaves the
    prop alone, one is the prop, several are an array. *)
Definition children_prop (children : list value) (props : obj) : obj :=
  match children with
  | [] => props
  | [c] => <["children":=c]> props
  | cs => <["children":=VArr cs]> props
  end.

(** The key of an element is a string: [createElement] converts the key
    it is given (['' + config.key]).  Keys are strings and numbers
    ([React.Key]); the other primitive values and the objects have the
    strings JavaScript gives them.  An array or a function, whose string is
    made of its content or of its source text, is kept as it is. *)
Definition key_string (v : value) : value :=
  match v with
  | VStr s => VStr s
  | VNum n => VStr (pretty n)
  | VBool b => VStr (if b then "true" else "false")
  | VNull => VStr "null"
  | VUndef => VStr "undefined"
  | VObj _ | VElem _ _ _ _ => VStr "[object Object]"
  | VArr _ | VFun _ => v
  end.

(** [React.createElement(type, config, ...children)] for a type with the
    default props [defaults]: the key and the ref are set apart ([null]
    when they are not given, that is [undefined]), the other properties of
    [config] and the children are the props, and the defaults fill in the
    props that are [undefined]. *)
Definition createElement (ty : etype) (defaults config : obj)
    (children : list value) : value :=
  let key :=
    if is_undefined (config !!! "key") then VNull
    else key_string (config !!! "key") in
  let ref := if is_undefined (config !!! "ref") then VNull else config !!! "ref" in
  VElem ty key ref
    (resolveDefaultProps defaults
       (children_prop children (rest_props reserved_props config))).

(** The props of an element ([undefined] has none). *)
Definition props_of (el : value) : obj :=
  match el with
  | VElem _ _ _ props => props
  | _ => ∅
  end.

(** The children of an element as a list: none, the only child, or the
    elements of the array of children. *)
Definition children_of (el : value) : list value :=
  match props_of el !! "children" with
  | Some (VArr cs) => cs
  | Some c => [c]
  | None => []
  end.

(** The ref, the key and the type of an element. *)
Definition ref_of (el : value) : value :=
  match el with
  | VElem _ _ ref _ => ref
  | _ => VUndef
  end.

Definition key_of (el : value) : value :=
  match el with
  | VElem _ key _ _ => key
  | _ => VUndef
  end.

Definition type_of (el : value) : option etype :=
  match el with
  | VElem ty _ _ _ => Some ty
  | _ => None
  end.

#[global] Arguments createElement : simpl never.

(** ** Hooks *)

(** What React remembers of one hook call between two renders. *)
Inductive slot : Type :=
| StateSlot (v : value)
| EffectSlot (deps : list value).

#[global] Instance slot_eq_dec : EqDecision slot.
Proof. solve_decision. Defined.

(** The state of a render in progress: the memory of the previous render
    not yet consumed, the memory written so far, the effects scheduled so
    far (both in call order). *)
Record hook_state : Type := HookState {
  hs_old : list slot;
  hs_new : list slot;
  hs_effects : list (action unit);
}.

Definition hooks (A : Type) : Type := hook_state → A * hook_state.

#[global] Instance hooks_ret : MRet hooks := λ A a h, (a, h).

#[global] Instance hooks_bind : MBind hooks := λ A B k m h,
  let '(a, h') := m h in k a h'.

(** The setter of the state hook in slot [i]. *)
Definition state_setter (i : nat) (x : value) : action unit :=
  emit (SetState i x).

(** What a state hook reads from the memory [old] of the previous render
    that is left for it: the remembered state, or [init] when the component
    mounts. *)
Definition remembered (old : list slot) (init : value) : value :=
  match old with
  | StateSlot v :: _ => v
  | _ => init
  end.

(** Whether an effect with dependencies [deps] runs: when the component
    mounts, and when a dependency differs from the previous render's. *)
Definition effect_due (old : list slot) (deps : list value) : bool :=
  match old with
  | EffectSlot d :: _ => bool_decide (d ≠ deps)
  | _ => true
  end.

(** [const [v, setV] = React.useState(init)]. *)
Definition useState (init : value) : hooks (value * (value → action unit)) :=
  λ h,
    let i := length (hs_new h) in
    let v := remembered (hs_old h) init in
    ((v, state_setter i),
     {| hs_old := tail (hs_old h);
        hs_new := hs_new h ++ [StateSlot v];
        hs_effects := hs_effects h |}).

(** [React.useEffect(eff, deps)]. *)
Definition useEffect (eff : action unit) (deps : list value) : hooks unit :=
  λ h,
    ((),
     {| hs_old := tail (hs_old h);
        hs_new := hs_new h ++ [EffectSlot deps];
        hs_effects := if effect_due (hs_old h) deps
                      then hs_effects h ++ [eff] else hs_effects h |}).

(** A function component wrapped in [React.forwardRef]: from props and a
    ref to an element, using hooks. *)
Definition component : Type := obj → value → hooks value.

(** ** Render, commit, effects *)

(** One render pass over the memory [mem]: the element, the new memory and
    the effects to run. *)
Definition render (C : component) (props : obj) (ref : value)
    (mem : list slot) : value * list slot * list (action unit) :=
  let r := C props ref {| hs_old := mem; hs_new := []; hs_effects := [] |} in
  (r.1, hs_new r.2, hs_effects r.2).

(** The effects of one commit, run in the order they were scheduled. *)
Definition run_all (effs : list (action unit)) : action unit :=
  foldr (λ eff rest, eff ≫= λ _, rest) (mret ()) effs.

(** A queued state write reaches its slot; a call leaves the memory alone. *)
Definition apply_op (mem : list slot) (o : op) : list slot :=
  match o with
  | SetState i v =>
      match mem !! i with
      | Some (StateSlot _) => <[i:=StateSlot v]> mem
      | _ => mem
      end
  | Call _ _ _ => mem
  end.

Definition apply_ops (mem : list slot) (t : list op) : list slot :=
  foldl apply_op mem t.

(** What a component has done when it is at rest again: its memory, the
    elements it committed (oldest first), the operations of its effects or
    handler, and the exception that stopped it, if any. *)
Record settled : Type := Settled {
  s_memory : list slot;
  s_frames : list value;
  s_trace : list op;
  s_error : option error;
}.

(** Render, commit, run the effects, and render again while they changed
    the memory.  [None]: out of fuel. *)
Fixpoint settle (fuel : nat) (C : component) (props : obj) (ref : value)
    (mem : list slot) : option settled :=
  match fuel with
  | 0 => None
  | S fuel =>
      let '(el, mem1, effs) := render C props ref mem in
      let r := run_all effs in
      let mem2 := apply_ops mem1 (trace r) in
      match r.2 with
      | Throw e => Some (Settled mem2 [el] (trace r) (Some e))
      | Ok _ =>
          if decide (mem2 = mem1) then Some (Settled mem1 [el] (trace r) None)
          else
            rest ← settle fuel C props ref mem2;
            Some (Settled (s_memory rest) (el :: s_frames rest)
                    (trace r ++ s_trace rest) (s_error rest))
      end
  end.

(** An event: the handler runs to its end, then React applies the state
    writes it queued and re-renders if the memory changed. *)
Definition dispatch (fuel : nat) (C : component) (props : obj) (ref : value)
    (mem : list slot) (handler : action unit) : option settled :=
  let mem1 := apply_ops mem (trace handler) in
  let err := match handler.2 with Ok _ => None | Throw e => Some e end in
  if decide (mem1 = mem) then Some (Settled mem [] (trace handler) err)
  else
    rest ← settle fuel C props ref mem1;
    Some (Settled (s_memory rest) (s_frames rest)
            (trace handler ++ s_trace rest)
            (match err with Some e => Some e | None => s_error rest end)).

(** ** Lemmas *)

Section elements.
Implicit Types (defaults props config : obj) (k : string) (v : value).

(** A default applies exactly where the prop reads as [undefined]. *)
Lemma get_resolveDefaultProps defaults props k :
  resolveDefaultProps defaults props !!! k =
    if is_undefined (props !!! k) && has_key defaults k
    then defaults !!! k else props !!! k.
Proof.
  unfold resolveDefaultProps. rewrite !lookup_total_alt, lookup_merge.
  destruct (defaults !! k) as [d|] eqn:Ed, (props !! k) as [[]|] eqn:Ep; simpl;
    rewrite ?(has_key_Some _ _ _ Ed), ?(proj2 (has_key_false _ _) Ed); done.
Qed.

(** Resolving defaults adds the keys of the defaults and removes none. *)
Lemma has_key_resolveDefaultProps defaults props k :
  has_key (resolveDefaultProps defaults props) k =
    has_key defaults k || has_key props k.
Proof.
  unfold resolveDefaultProps, has_key. rewrite lookup_merge.
  destruct (defaults !! k) as [d|] eqn:Ed, (props !! k) as [[]|] eqn:Ep; simpl;
    by rewrite ?bool_decide_eq_true_2 by eauto.
Qed.

Lemma resolveDefaultProps_empty props : resolveDefaultProps ∅ props = props.
Proof.
  apply map_eq. intros k. unfold resolveDefaultProps.
  rewrite lookup_merge, lookup_empty. by destruct (props !! k) as [[]|].
Qed.

Lemma get_children_prop_ne children props k :
  k ≠ "children" → children_prop children props !!! k = props !!! k.
Proof.
  intros Hk. destruct children as [|c [|c' cs]]; simpl; [done|..];
    by rewrite lookup_total_insert_ne.
Qed.

(** A default of the right type keeps a prop in its type. *)
Lemma optional_resolveDefaultProps T defaults props k :
  optional T defaults k = true → optional T props k = true →
  optional T (resolveDefaultProps defaults props) k = true.
Proof.
  unfold optional. rewrite get_resolveDefaultProps. intros Hd Hp.
  by destruct (is_undefined (props !!! k) && has_key defaults k).
Qed.

Lemma optional_children_prop T children props k :
  k ≠ "children" →
  optional T (children_prop children props) k = optional T props k.
Proof. intros Hk. unfold optional. by rewrite get_children_prop_ne. Qed.

(** The props of an element made without default props are its config,
    less the reserved names, with the children it was given. *)
Lemma props_of_createElement ty config children :
  props_of (createElement ty ∅ config children) =
    children_prop children (rest_props reserved_props config).
Proof. unfold createElement. simpl. apply resolveDefaultProps_empty. Qed.

Lemma has_key_children_prop children props k :
  k ≠ "children" → has_key (children_prop children props) k = has_key props k.
Proof.
  intros Hk. destruct children as [|c [|c' cs]]; cbn [children_prop]; [done|..];
    by rewrite has_key_insert, (bool_decide_eq_false_2 ("children" = k)).
Qed.

(** An only child is the [children] prop itself. *)
Lemma get_children_prop_one c props :
  children_prop [c] props !!! "children" = c.
Proof. simpl. by rewrite lookup_total_insert_eq. Qed.

(** A prop of an element that is neither reserved nor [children] is the
    prop of its config. *)
Lemma get_createElement ty config children k :
  k ∉ reserved_props → k ≠ "children" →
  props_of (createElement ty ∅ config children) !!! k = config !!! k.
Proof.
  intros Hk Hc.
  by rewrite props_of_createElement, get_children_prop_ne, get_rest_props.
Qed.

Lemma get_createElement_plain ty config k :
  k ∉ reserved_props →
  props_of (createElement ty ∅ config []) !!! k = config !!! k.
Proof. intros Hk. rewrite props_of_createElement. by apply get_rest_props. Qed.

(** The label of an element with one child. *)
Lemma get_createElement_child ty config c :
  props_of (createElement ty ∅ config [c]) !!! "children" = c.
Proof. by rewrite props_of_createElement, get_children_prop_one. Qed.

(** Several children are found again in order. *)
Lemma children_of_createElement ty config c c' cs :
  children_of (createElement ty ∅ config (c :: c' :: cs)) = c :: c' :: cs.
Proof.
  unfold children_of. rewrite props_of_createElement. simpl.
  by rewrite lookup_insert_eq.
Qed.

(** The key of an element is the [key] of its config as a string, [null]
    if none. *)
Lemma key_of_createElement ty defaults config children :
  key_of (createElement ty defaults config children) =
    if is_undefined (config !!! "key") then VNull
    else key_string (config !!! "key").
Proof. done. Qed.

(** A number and the string of its digits are the same key. *)
Lemma key_string_num (n : Z) : key_string (VNum n) = key_string (VStr (pretty n)).
Proof. done. Qed.

(** Two numbers are the same key only if they are the same number. *)
Lemma key_string_num_inj (n m : Z) :
  key_string (VNum n) = key_string (VNum m) → n = m.
Proof. intros [= H]. by apply (inj pretty). Qed.

(** The ref of an element is the [ref] of its config, [null] if none. *)
Lemma ref_of_createElement ty defaults config children :
  ref_of (createElement ty defaults config children) =
    if is_undefined (config !!! "ref") then VNull else config !!! "ref".
Proof. done. Qed.

End elements.

(** Go down the tree of an element made by [createElement]: the children
    of an element with several children, and the one an index selects. *)
Ltac descend :=
  repeat (rewrite children_of_createElement; cbn [lookup_total list_lookup_total]).

Section memory.
Implicit Types (mem : list slot) (t u : list op) (i : nat) (v : value).

Lemma apply_ops_app mem t u :
  apply_ops mem (t ++ u) = apply_ops (apply_ops mem t) u.
Proof. apply foldl_app. Qed.

(** Calls never change the memory. *)
Lemma apply_ops_calls mem t : apply_ops mem (calls t) = mem.
Proof.
  revert mem. induction t as [|[i v|f this args] t IH]; intros mem; [done|..];
    unfold calls in *.
  - by rewrite filter_cons_False by (by intros []).
  - rewrite filter_cons_True by done. apply IH.
Qed.

(** The call a callback prop receives leaves the memory alone. *)
Lemma apply_ops_callback_call mem f this args :
  apply_ops mem (callback_call f this args) = mem.
Proof. rewrite <- calls_callback_call. apply apply_ops_calls. Qed.

End memory.

Section cycle.
Context (C : component) (props : obj) (ref : value).
Implicit Types (mem : list slot) (effs : list (action unit)) (t : list op).

Lemma run_all_app_ok t effs effs' :
  run_all effs = (t, Ok ()) →
  run_all (effs ++ effs') = (t ++ (run_all effs').1, (run_all effs').2).
Proof.
  revert t. induction effs as [|[t0 [[]|e]] effs IH]; intros t.
  - intros [= <-]. simpl. by destruct (run_all effs').
  - change (run_all (((t0, Ok ()) :: effs) ++ effs'))
      with ((t0, Ok ()) ≫= λ _ : unit, run_all (effs ++ effs')).
    change (run_all ((t0, Ok ()) :: effs))
      with ((t0, Ok ()) ≫= λ _ : unit, run_all effs).
    rewrite !bind_ok. destruct (run_all effs) as [t1 r1] eqn:E. simpl.
    intros [= <- ->]. rewrite (IH t1) by done. simpl. by rewrite app_assoc.
  - done.
Qed.

(** An effect that runs under a condition and returns. *)
Lemma run_all_if (b : bool) (eff : action unit) t :
  eff = (t, Ok ()) →
  run_all (if b then [eff] else []) = ((if b then t else []), Ok ()).
Proof. intros ->. destruct b; [|done]. simpl. by rewrite bind_ok, app_nil_r. Qed.

(** One turn of [settle]. *)
Lemma settle_S fuel mem :
  settle (S fuel) C props ref mem =
    let '(el, mem1, effs) := render C props ref mem in
    let r := run_all effs in
    let mem2 := apply_ops mem1 (trace r) in
    match r.2 with
    | Throw e => Some (Settled mem2 [el] (trace r) (Some e))
    | Ok _ =>
        if decide (mem2 = mem1) then Some (Settled mem1 [el] (trace r) None)
        else
          rest ← settle fuel C props ref mem2;
          Some (Settled (s_memory rest) (el :: s_frames rest)
                  (trace r ++ s_trace rest) (s_error rest))
    end.
Proof. done. Qed.

(** A first render whose effects leave the memory alone is the last. *)
Lemma settle_stable fuel mem el mem1 effs t :
  render C props ref mem = (el, mem1, effs) →
  run_all effs = (t, Ok ()) →
  apply_ops mem1 t = mem1 →
  settle (S fuel) C props ref mem = Some (Settled mem1 [el] t None).
Proof.
  intros Hr He Hm. rewrite settle_S, Hr, He. unfold trace. simpl.
  by rewrite decide_True.
Qed.

(** A render whose effects change the memory is followed by another. *)
Lemma settle_again fuel mem el mem1 effs t :
  render C props ref mem = (el, mem1, effs) →
  run_all effs = (t, Ok ()) →
  apply_ops mem1 t ≠ mem1 →
  settle (S fuel) C props ref mem =
    rest ← settle fuel C props ref (apply_ops mem1 t);
    Some (Settled (s_memory rest) (el :: s_frames rest) (t ++ s_trace rest)
            (s_error rest)).
Proof.
  intros Hr He Hm. rewrite settle_S, Hr, He. unfold trace. simpl.
  by rewrite decide_False.
Qed.

(** More fuel does not change a result. *)
Lemma settle_fuel_mono fuel mem s :
  settle fuel C props ref mem = Some s →
  settle (S fuel) C props ref mem = Some s.
Proof.
  revert mem s. induction fuel as [|fuel IH]; intros mem s; [done|].
  rewrite (settle_S (S fuel) mem), (settle_S fuel mem).
  destruct (render C props ref mem) as [[el mem1] effs]. cbv beta iota zeta.
  destruct ((run_all effs).2); [|done].
  case_decide; [done|].
  destruct (settle fuel C props ref _) as [rest|] eqn:E; [|done].
  by rewrite (IH _ _ E).
Qed.

End cycle.
