(* ===== verification/Collaborators.v ===== *)
(** * The collaborators of the component

    What [Popconfirm] imports from the rest of the library and from the
    host: the configuration context ([ConfigContext], for [getPrefixCls]),
    the locale receiver ([LocaleReceiver], for the labels of the buttons),
    [getRenderPropValue], and the functions the host passes as props.  Their
    code is not part of the component.  Each is an interface (a type class)
    with the instances the library ships, so that the component's theorems
    hold for every implementation and the witnesses run on the shipped
    ones. *)

From S2P Require Import Prelude JsValue Effects React.

(** ** Configuration context *)

(** [React.useContext(ConfigContext).getPrefixCls(suffixCls,
    customizePrefixCls)].  Every provider returns a custom prefix that is
    given and not empty. *)
Class ConfigConsumer : Type := {
  getPrefixCls : string → option string → string;
  getPrefixCls_custom suffix s :
    s ≠ "" → getPrefixCls suffix (Some s) = s;
}.

(** The value of a prop typed [string]: the string, if it is one.  (A
    value of another type, which the interface rules out, counts as
    absent; the [getPrefixCls] of the library would return a truthy one as
    it is.) *)
Definition as_string (v : value) : option string :=
  match v with
  | VStr s => Some s
  | _ => None
  end.

(** The context of a [ConfigProvider] whose prefix is [root]: the custom
    prefix if it is truthy, else [root-suffix]. *)
Definition provider_getPrefixCls (root suffix : string)
    (customizePrefixCls : option string) : string :=
  match customizePrefixCls with
  | Some s => if String.eqb s "" then root +:+ "-" +:+ suffix else s
  | None => root +:+ "-" +:+ suffix
  end.

Definition config_provider (root : string) : ConfigConsumer.
Proof.
  refine {| getPrefixCls := provider_getPrefixCls root |}.
  intros suffix s Hs. unfold provider_getPrefixCls.
  by destruct (String.eqb_spec s "").
Defined.

(** Without a provider the prefix is [ant]. *)
Definition default_config : ConfigConsumer := config_provider "ant".

(** ** Locale *)

(** The labels of the two buttons (interface [PopconfirmLocale]). *)
Record PopconfirmLocale : Type := {
  okText : string;
  cancelText : string;
}.

#[global] Instance PopconfirmLocale_eq_dec : EqDecision PopconfirmLocale.
Proof. solve_decision. Defined.

(** The locale as the object the component passes around. *)
Definition locale_obj (l : PopconfirmLocale) : obj :=
  {[ "okText" := VStr (okText l); "cancelText" := VStr (cancelText l) ]}.

(** [defaultLocale.Popconfirm] of [locale/default]. *)
Definition defaultLocale_Popconfirm : PopconfirmLocale :=
  {| okText := "OK"; cancelText := "Cancel" |}.

(** [LocaleReceiver]: the locale its child function is called with, from
    the component's name and the default locale it was given. *)
Class LocaleReceiver : Type := {
  getLocale : string → PopconfirmLocale → PopconfirmLocale;
}.

(** No [LocaleProvider] above the component: the default locale. *)
Definition no_locale_provider : LocaleReceiver :=
  {| getLocale := λ _ defaultLocale, defaultLocale |}.

(** A [LocaleProvider] whose table has the entry [l] for [name]. *)
Definition locale_provider (name : string) (l : PopconfirmLocale)
    : LocaleReceiver :=
  {| getLocale := λ componentName defaultLocale,
       if decide (componentName = name) then l else defaultLocale |}.

(** The locale an object stands for, if it has the two labels. *)
Definition locale_of (v : value) : option PopconfirmLocale :=
  match v with
  | VObj o =>
      match o !!! "okText", o !!! "cancelText" with
      | VStr ok, VStr cancel => Some {| okText := ok; cancelText := cancel |}
      | _, _ => None
      end
  | _ => None
  end.

(** What a [LocaleReceiver] element renders: its child function called
    with the locale for its [componentName], the [defaultLocale] standing
    in where there is no provider. *)
Definition render_LocaleReceiver `{!LocaleReceiver}
    (children : PopconfirmLocale → value) (el : value) : value :=
  match as_string (props_of el !!! "componentName"),
        locale_of (props_of el !!! "defaultLocale") with
  | Some componentName, Some defaultLocale =>
      children (getLocale componentName defaultLocale)
  | _, _ => VNull
  end.

(** ** Functions of the host *)

(** What a function returns when it is called with no argument during a
    render (a render function given as [title]). *)
Class HostFunctions : Type := {
  host_render : func → value;
}.

(** A host whose render functions render nothing. *)
Definition no_render : HostFunctions := {| host_render := λ _, VNull |}.

(** [getRenderPropValue(propValue)] of [_util/getRenderPropValue]: [null]
    for a falsy prop, the result of a render function, the prop itself
    otherwise. *)
Definition getRenderPropValue `{!HostFunctions} (propValue : value) : value :=
  if negb (truthy propValue) then VNull
  else
    match propValue with
    | VFun f => host_render f
    | _ => propValue
    end.

Lemma locale_of_obj l : locale_of (VObj (locale_obj l)) = Some l.
Proof. by destruct l. Qed.

Section render_prop.
Context `{!HostFunctions}.

Lemma getRenderPropValue_falsy v :
  truthy v = false → getRenderPropValue v = VNull.
Proof. unfold getRenderPropValue. by intros ->. Qed.

Lemma getRenderPropValue_function f :
  getRenderPropValue (VFun f) = host_render f.
Proof. done. Qed.

(** A truthy value that is not a function is rendered as it is. *)
Lemma getRenderPropValue_node v :
  truthy v = true → is_function v = false → getRenderPropValue v = v.
Proof. unfold getRenderPropValue. intros -> ?. by destruct v. Qed.

End render_prop.
