(* ===== verification/Props.v ===== *)
(** * The interfaces of the component and its default props

    [PopconfirmProps] and [PopconfirmState] (lines 11-27 of
    components/popconfirm/index.tsx) as predicates on untyped values, the
    object [Popconfirm.defaultProps] (lines 127-134), and the props the
    examples of the development use. *)

From S2P Require Import Prelude JsValue Effects React.

(** ** Interfaces (lines 11-27) *)

(** [interface PopconfirmProps extends AbstractTooltipProps]: the props the
    component reads, each with its type.  [title], [okText], [cancelText]
    and [icon] are [React.ReactNode] (or a render function, for [title]) and
    carry no constraint; [visible], [defaultVisible] and [prefixCls] are
    fields of [AbstractTooltipProps]. *)
Definition PopconfirmProps_fields : list (string * (value → bool)) :=
  [ ("disabled", is_boolean);
    ("onConfirm", is_function);
    ("onCancel", is_function);
    ("okType", is_string);
    ("okButtonProps", is_object);
    ("cancelButtonProps", is_object);
    ("onVisibleChange", is_function);
    ("visible", is_boolean);
    ("defaultVisible", is_boolean);
    ("prefixCls", is_string) ].

(** Every field is optional: a props object has the type when each field
    is absent, [undefined] or of its type. *)
Definition PopconfirmProps_ok (props : obj) : bool :=
  forallb (λ f, optional f.2 props f.1) PopconfirmProps_fields.

(** [interface PopconfirmState { visible?: boolean }]. *)
Definition PopconfirmState_ok (visible : value) : bool :=
  is_undefined visible || is_boolean visible.

(** [Popconfirm.defaultProps] (lines 127-134). *)
Definition defaultProps : obj :=
  {[ "transitionName" := VStr "zoom-big";
     "placement" := VStr "top";
     "trigger" := VStr "click";
     "okType" := VStr "primary";
     "icon" := createElement (Comp "ExclamationCircleFilled") ∅ ∅ [];
     "disabled" := VBool false ]}.

(** [<Popconfirm {...config}>children</Popconfirm>] in the host: the
    element React makes of it, with the default props resolved. *)
Definition Popconfirm_element (config : obj) (children : list value) : value :=
  createElement (Comp "Popconfirm") defaultProps config children.

(** A prop, or its default where the prop is [undefined]. *)
Definition or_default (v default : value) : value :=
  if is_undefined v then default else v.

(** The props that have a default. *)
Definition default_keys : list string :=
  ["transitionName"; "placement"; "trigger"; "okType"; "icon"; "disabled"].

(** Props for the examples: an uncontrolled popup whose host listens to
    the three callbacks, and the same popup controlled by the host. *)
Definition uncontrolled_props : obj :=
  {[ "title" := VStr "Sure?";
     "onConfirm" := VFun (Host 1);
     "onCancel" := VFun (Host 2);
     "onVisibleChange" := VFun (Host 3) ]}.

Definition controlled_props : obj :=
  <["visible":=VBool true]> uncontrolled_props.

(** A popup that starts open. *)
Definition open_props : obj :=
  <["defaultVisible":=VBool true]> uncontrolled_props.

(** ** Types of the props *)

Section typing.
Implicit Types (props : obj) (k : string) (T : value → bool).

(** A well-typed props object has each field in its type. *)
Lemma PopconfirmProps_ok_field props k T :
  PopconfirmProps_ok props = true → (k, T) ∈ PopconfirmProps_fields →
  optional T props k = true.
Proof.
  unfold PopconfirmProps_ok. rewrite forallb_forall.
  intros Hty Hin%list_elem_of_In. apply (Hty _ Hin).
Qed.

(** Props that keep every field in its type keep the type. *)
Lemma PopconfirmProps_ok_mono props props' :
  (∀ k T, (k, T) ∈ PopconfirmProps_fields →
          optional T props k = true → optional T props' k = true) →
  PopconfirmProps_ok props = true → PopconfirmProps_ok props' = true.
Proof.
  intros Hm Hty. apply forallb_forall. intros [k T] Hin%list_elem_of_In.
  apply Hm; [done|]. by apply PopconfirmProps_ok_field.
Qed.

(** No field of the interface is a reserved prop or [children]. *)
Lemma PopconfirmProps_fields_plain k T :
  (k, T) ∈ PopconfirmProps_fields → (k ∉ reserved_props) ∧ k ≠ "children".
Proof.
  unfold PopconfirmProps_fields. rewrite !elem_of_cons, elem_of_nil.
  intros H.
  repeat (destruct H as [[= -> ->]|H]; [split; [compute_done|done]|]). done.
Qed.

Variable props : obj.
Hypothesis Hty : PopconfirmProps_ok props = true.

Lemma props_ok_onVisibleChange :
  optional is_function props "onVisibleChange" = true.
Proof. apply PopconfirmProps_ok_field; [done|repeat constructor]. Qed.

Lemma props_ok_onConfirm : optional is_function props "onConfirm" = true.
Proof. apply PopconfirmProps_ok_field; [done|repeat constructor]. Qed.

Lemma props_ok_onCancel : optional is_function props "onCancel" = true.
Proof. apply PopconfirmProps_ok_field; [done|repeat constructor]. Qed.

Lemma props_ok_visible : optional is_boolean props "visible" = true.
Proof. apply PopconfirmProps_ok_field; [done|repeat constructor]. Qed.

Lemma props_ok_defaultVisible :
  optional is_boolean props "defaultVisible" = true.
Proof. apply PopconfirmProps_ok_field; [done|repeat constructor]. Qed.

End typing.

#[export] Hint Resolve props_ok_onVisibleChange props_ok_onConfirm
  props_ok_onCancel props_ok_visible props_ok_defaultVisible
  optional_function_callable : popconfirm.

(** ** The element the host creates *)

Section element.
Implicit Types (config : obj) (children : list value) (k : string).

(** Default props keep the props in their types: if what the host
    writes has the type [PopconfirmProps], so have the props the component
    is rendered with. *)
Theorem element_props_ok config children :
  PopconfirmProps_ok config = true →
  PopconfirmProps_ok (props_of (Popconfirm_element config children)) = true.
Proof.
  assert (PopconfirmProps_ok defaultProps = true) as Hd by (by vm_compute).
  apply PopconfirmProps_ok_mono. intros k T Hin Hk.
  destruct (PopconfirmProps_fields_plain k T Hin) as [Hr Hc].
  apply optional_resolveDefaultProps.
  - by apply PopconfirmProps_ok_field.
  - by rewrite optional_children_prop, optional_rest_props.
Qed.

Lemma element_props_ok_witness :
  PopconfirmProps_ok (props_of (Popconfirm_element open_props [VStr "Delete"]))
  = true.
Proof. apply element_props_ok. by vm_compute. Defined.

(** A prop of the element: the default where the host gives none. *)
Lemma get_Popconfirm_element config children k :
  k ∉ reserved_props → k ≠ "children" →
  props_of (Popconfirm_element config children) !!! k =
    if is_undefined (config !!! k) && has_key defaultProps k
    then defaultProps !!! k else config !!! k.
Proof.
  intros Hr Hc. unfold Popconfirm_element, createElement. cbn [props_of].
  by rewrite get_resolveDefaultProps, get_children_prop_ne, get_rest_props.
Qed.

Lemma has_key_Popconfirm_element config children k :
  k ∉ reserved_props → k ≠ "children" →
  has_key (props_of (Popconfirm_element config children)) k =
    has_key defaultProps k || has_key config k.
Proof.
  intros Hr Hc. unfold Popconfirm_element, createElement. cbn [props_of].
  by rewrite has_key_resolveDefaultProps, has_key_children_prop,
    has_key_rest_props, bool_decide_eq_true_2.
Qed.

(** C10.  A prop the host leaves out, or gives as [undefined], takes its
    default: the popup opens on a click, above its anchor, with the zoom
    transition; its OK button is primary, its icon the exclamation mark, and
    it is not disabled.  A prop the host gives is never replaced, and no
    other prop is added or changed: the defaults do not make the component
    controlled. *)
Theorem element_defaults config children :
  let props := props_of (Popconfirm_element config children) in
  props !!! "transitionName" =
    or_default (config !!! "transitionName") (VStr "zoom-big")
  ∧ props !!! "placement" = or_default (config !!! "placement") (VStr "top")
  ∧ props !!! "trigger" = or_default (config !!! "trigger") (VStr "click")
  ∧ props !!! "okType" = or_default (config !!! "okType") (VStr "primary")
  ∧ props !!! "icon" =
      or_default (config !!! "icon")
        (createElement (Comp "ExclamationCircleFilled") ∅ ∅ [])
  ∧ props !!! "disabled" = or_default (config !!! "disabled") (VBool false)
  ∧ ∀ k, k ∉ reserved_props → k ≠ "children" → k ∉ default_keys →
      props !!! k = config !!! k ∧ has_key props k = has_key config k.
Proof.
  cbv zeta. rewrite !get_Popconfirm_element by compute_done.
  unfold or_default.
  repeat (split; [by destruct (is_undefined _)|]).
  intros k Hr Hc Hk.
  rewrite get_Popconfirm_element, has_key_Popconfirm_element by done.
  assert (has_key defaultProps k = false) as ->; [|by rewrite andb_false_r].
  unfold defaultProps. autorewrite with js.
  repeat (rewrite bool_decide_eq_false_2;
          [|intros <-; apply Hk; compute_done]). done.
Qed.

(** A prop that has no default is the prop the host gave. *)
Lemma get_Popconfirm_element_plain config children k :
  k ∉ reserved_props → k ≠ "children" → has_key defaultProps k = false →
  props_of (Popconfirm_element config children) !!! k = config !!! k.
Proof.
  intros Hr Hc Hd. rewrite get_Popconfirm_element by done.
  by rewrite Hd, andb_false_r.
Qed.

Lemma has_key_Popconfirm_element_plain config children k :
  k ∉ reserved_props → k ≠ "children" → has_key defaultProps k = false →
  has_key (props_of (Popconfirm_element config children)) k =
    has_key config k.
Proof.
  intros Hr Hc Hd. rewrite has_key_Popconfirm_element by done. by rewrite Hd.
Qed.

Lemma lookup_Popconfirm_element_plain config children k :
  k ∉ reserved_props → k ≠ "children" → has_key defaultProps k = false →
  props_of (Popconfirm_element config children) !! k = config !! k.
Proof.
  intros Hr Hc Hd.
  by apply lookup_agree;
    [apply has_key_Popconfirm_element_plain|apply get_Popconfirm_element_plain].
Qed.

(** A prop that has a default. *)
Lemma get_Popconfirm_element_default config children k d :
  k ∉ reserved_props → k ≠ "children" → defaultProps !! k = Some d →
  props_of (Popconfirm_element config children) !!! k =
    or_default (config !!! k) d.
Proof.
  intros Hr Hc Hd. rewrite get_Popconfirm_element by done.
  rewrite (has_key_Some _ _ _ Hd), (get_present _ _ _ Hd), andb_true_r.
  done.
Qed.

(** The only child given to the element is its [children] prop. *)
Lemma children_Popconfirm_element config c :
  props_of (Popconfirm_element config [c]) !!! "children" = c.
Proof.
  unfold Popconfirm_element, createElement. cbn [props_of].
  rewrite get_resolveDefaultProps, get_children_prop_one.
  by destruct (is_undefined c).
Qed.

End element.
