(* ===== verification/Handlers.v ===== *)
(** * The action handlers

    The closures [settingVisible], [onConfirm], [onCancel] and
    [onVisibleChange] (lines 49-81 of components/popconfirm/index.tsx).  The
    source nests them in the component, where they close over [props] and
    [setVisible]; here they are defined in a section whose variables are
    those two, and take them as their first arguments once the section is
    closed.  They are written once, for every monad that can call a
    function ([MCall]); the theorems of this file are about the monad
    [action], where the functions of the host return, and give the
    operations of each handler on every branch, in order. *)

From S2P Require Import Prelude JsValue Effects React Props.

(** ** The closures (lines 49-81) *)

Section closures.
Context {M : Type → Type} `{!MRet M, !MBind M, !MCall M}.
Variable props : obj.
Variable setVisible : value → M unit.

(** [settingVisible(value, e)] (lines 49-57). *)
Definition settingVisible (vis e : value) : M unit :=
  _ ← when (negb (has_key props "visible")) (setVisible vis);
  when (truthy (props !!! "onVisibleChange"))
    (call (props !!! "onVisibleChange") (VObj props) [vis; e]).

(** [onConfirm(e)] (lines 59-65). *)
Definition onConfirm (e : value) : M unit :=
  _ ← settingVisible (VBool false) e;
  when (truthy (props !!! "onConfirm"))
    (call (props !!! "onConfirm") VUndef [e]).

(** [onCancel(e)] (lines 67-73). *)
Definition onCancel (e : value) : M unit :=
  _ ← settingVisible (VBool false) e;
  when (truthy (props !!! "onCancel"))
    (call (props !!! "onCancel") VUndef [e]).

(** [onVisibleChange(value)] (lines 75-81). *)
Definition onVisibleChange (vis : value) : M unit :=
  let disabled := props !!! "disabled" in
  if truthy disabled then mret ()
  else settingVisible vis VUndef.

(** The closure [name] of the render with [props], called with [args]:
    the three closures the component hands to its collaborators, by the
    names lines 59, 67 and 75 declare them with.  (No other name is a
    closure of the component: calling it does nothing.) *)
Definition closure (name : string) (args : list value) : M unit :=
  if decide (name = "onConfirm") then onConfirm (args !!! 0)
  else if decide (name = "onCancel") then onCancel (args !!! 0)
  else if decide (name = "onVisibleChange") then onVisibleChange (args !!! 0)
  else mret ().

End closures.

(** The setter of the component's only state hook. *)
Definition setVisible : value → action unit := state_setter 0.

(** What the closures an element refers to do when they are called, when
    the functions of the host return. *)
Definition closure_body (props : obj) (name : string) (args : list value)
    : action unit :=
  closure props setVisible name args.

(** ** Vocabulary of the specifications *)

(** The state write of [settingVisible]: none when [visible] is a prop. *)
Definition state_write (props : obj) (vis : value) : list op :=
  if has_key props "visible" then [] else [SetState 0 vis].

(** The call the callback prop [cb] receives, if it is a function. *)
Definition notify (props : obj) (cb : string) (this : value)
    (args : list value) : list op :=
  callback_call (props !!! cb) this args.

(** The state [visible] in the memory of the component: its first hook. *)
Definition visible_of (mem : list slot) : value :=
  match mem !! 0 with
  | Some (StateSlot v) => v
  | _ => VUndef
  end.

(** The memory of the component after a render: the state, then the
    dependencies of the two effects. *)
Definition Popconfirm_memory (mem : list slot) : bool :=
  match mem with
  | [StateSlot _; EffectSlot _; EffectSlot _] => true
  | _ => false
  end.

(** The shape of the trace of every closure: at most the state write of
    [settingVisible], then only calls. *)
Definition handler_shape (props : obj) (t : list op) : Prop :=
  ∃ ws cs, t = ws ++ cs
    ∧ (ws = [] ∨ ∃ vis, ws = state_write props vis)
    ∧ calls cs = cs.

(** ** The vocabulary: traces and memory *)

Section vocabulary.
Variable props : obj.
Implicit Types (vis e : value) (cb : string) (mem : list slot).

(** *** Projections of the traces *)

Lemma writes_state_write vis :
  writes 0 (state_write props vis) =
    if has_key props "visible" then [] else [vis].
Proof. unfold state_write. by destruct (has_key props "visible"). Qed.

Lemma calls_state_write vis : calls (state_write props vis) = [].
Proof. unfold state_write. by destruct (has_key props "visible"). Qed.

Lemma state_write_writes vis :
  SetState 0 <$> writes 0 (state_write props vis) = state_write props vis.
Proof. unfold state_write. by destruct (has_key props "visible"). Qed.

Lemma writes_notify cb this args : writes 0 (notify props cb this args) = [].
Proof. apply writes_callback_call. Qed.

Lemma calls_notify cb this args :
  calls (notify props cb this args) = notify props cb this args.
Proof. apply calls_callback_call. Qed.

Lemma calls_notify_app cb1 this1 args1 cb2 this2 args2 :
  calls (notify props cb1 this1 args1 ++ notify props cb2 this2 args2) =
  notify props cb1 this1 args1 ++ notify props cb2 this2 args2.
Proof. by rewrite calls_app, !calls_notify. Qed.

(** *** Effect on the memory *)

Lemma apply_ops_notify mem cb this args :
  apply_ops mem (notify props cb this args) = mem.
Proof. apply apply_ops_callback_call. Qed.

Lemma apply_ops_state_write mem vis :
  apply_ops mem (state_write props vis) =
    if has_key props "visible" then mem else apply_op mem (SetState 0 vis).
Proof. unfold state_write. by destruct (has_key props "visible"). Qed.

End vocabulary.

#[export] Hint Rewrite writes_state_write calls_state_write writes_notify
  calls_notify apply_ops_notify apply_ops_state_write : js.

(** *** The memory of the component *)

Lemma Popconfirm_memory_inv mem :
  Popconfirm_memory mem = true →
  ∃ v d1 d2, mem = [StateSlot v; EffectSlot d1; EffectSlot d2].
Proof.
  destruct mem as [|[v|] [|[|d1] [|[|d2] [|]]]]; try discriminate. eauto.
Qed.

Lemma visible_of_set mem v :
  Popconfirm_memory mem = true →
  visible_of (apply_op mem (SetState 0 v)) = v.
Proof. by intros (? & ? & ? & ->)%Popconfirm_memory_inv. Qed.

(** ** [settingVisible] *)

(** C4.  What [settingVisible] does to the state: when [visible] is a prop
    the state is left alone, otherwise it becomes the requested value,
    whatever the callback does (even if calling it throws). *)
Theorem settingVisible_memory props mem vis e :
  Popconfirm_memory mem = true →
  visible_of (apply_ops mem (trace (settingVisible props setVisible vis e))) =
    if has_key props "visible" then visible_of mem else vis.
Proof.
  intros Hm. unfold settingVisible, setVisible, state_setter, trace.
  rewrite when_emit, bind_ok, when_call_pair. cbn [fst].
  rewrite apply_ops_app, apply_ops_callback_call.
  destruct (has_key props "visible"); [done|]. by apply visible_of_set.
Qed.

Lemma settingVisible_memory_witness :
  visible_of (apply_ops [StateSlot (VBool true); EffectSlot []; EffectSlot []]
    (trace (settingVisible uncontrolled_props setVisible (VBool false) VNull)))
  = VBool false.
Proof.
  by rewrite (settingVisible_memory uncontrolled_props
    [StateSlot (VBool true); EffectSlot []; EffectSlot []]) by done.
Defined.

(** [settingVisible] on every branch: the state write (uncontrolled mode
    only), then the call of [onVisibleChange]; it throws only if that prop
    is truthy and no function. *)
Lemma settingVisible_pair props vis e :
  settingVisible props setVisible vis e =
    (state_write props vis ++
       notify props "onVisibleChange" (VObj props) [vis; e],
     guarded_outcome (props !!! "onVisibleChange")).
Proof.
  unfold settingVisible, setVisible, state_setter, state_write, notify.
  rewrite when_emit, bind_ok, when_call_pair. simpl.
  by destruct (has_key props "visible").
Qed.

(** The shape [onConfirm] and [onCancel] share: close, then call [cb].  If
    [onVisibleChange] is truthy and no function the handler stops there:
    the state write is recorded, the second callback is not called. *)
Lemma close_then_cases props cb e :
  (_ ← settingVisible props setVisible (VBool false) e;
   when (truthy (props !!! cb)) (call (props !!! cb) VUndef [e])) =
    if callable_or_falsy (props !!! "onVisibleChange")
    then (state_write props (VBool false) ++
            notify props "onVisibleChange" (VObj props) [VBool false; e] ++
            notify props cb VUndef [e],
          guarded_outcome (props !!! cb))
    else (state_write props (VBool false),
          Throw (NotCallable (props !!! "onVisibleChange"))).
Proof.
  rewrite settingVisible_pair. unfold guarded_outcome at 1.
  destruct (callable_or_falsy (props !!! "onVisibleChange")) eqn:E.
  - by rewrite bind_ok, when_call_pair, <- app_assoc.
  - rewrite bind_thrown. unfold notify, callback_call.
    apply orb_false_iff in E as [_ ->]. by rewrite app_nil_r.
Qed.

(** ** [onConfirm] and [onCancel] *)

(** C1.  [onConfirm(e)] closes the popup and then tells the host, in this
    order: the state write [setVisible(false)] (only when [visible] is not a
    prop), the call [props.onVisibleChange(false, e)] (only when that prop
    is given), the call [props.onConfirm.call(this, e)] (only when that
    prop is a function); it throws only if [props.onConfirm] is truthy and
    no function.  ([props.onVisibleChange] is absent, [undefined] or a
    function, as the interface says.) *)
Theorem onConfirm_trace props e :
  optional is_function props "onVisibleChange" = true →
  onConfirm props setVisible e =
    (state_write props (VBool false) ++
       notify props "onVisibleChange" (VObj props) [VBool false; e] ++
       notify props "onConfirm" VUndef [e],
     guarded_outcome (props !!! "onConfirm")).
Proof.
  intros H. unfold onConfirm.
  by rewrite close_then_cases, optional_function_callable.
Qed.

Lemma onConfirm_trace_witness :
  onConfirm uncontrolled_props setVisible (VStr "click") =
    ([SetState 0 (VBool false);
      Call (VFun (Host 3)) (VObj uncontrolled_props) [VBool false; VStr "click"];
      Call (VFun (Host 1)) VUndef [VStr "click"]],
     Ok ()).
Proof.
  rewrite (onConfirm_trace uncontrolled_props (VStr "click")) by (by vm_compute).
  by vm_compute.
Defined.

(** C2.  [onCancel(e)] does the same with [props.onCancel]: the state
    write, the call of [onVisibleChange] with [false] and the event, then
    the call of [props.onCancel] with the event, each only when the prop
    is a function; it throws only if [props.onCancel] is truthy and no
    function.  ([props.onVisibleChange] is absent, [undefined] or a
    function.) *)
Theorem onCancel_trace props e :
  optional is_function props "onVisibleChange" = true →
  onCancel props setVisible e =
    (state_write props (VBool false) ++
       notify props "onVisibleChange" (VObj props) [VBool false; e] ++
       notify props "onCancel" VUndef [e],
     guarded_outcome (props !!! "onCancel")).
Proof.
  intros H. unfold onCancel.
  by rewrite close_then_cases, optional_function_callable.
Qed.

Lemma onCancel_trace_witness :
  onCancel controlled_props setVisible (VStr "click") =
    ([Call (VFun (Host 3)) (VObj controlled_props) [VBool false; VStr "click"];
      Call (VFun (Host 2)) VUndef [VStr "click"]],
     Ok ()).
Proof.
  rewrite (onCancel_trace controlled_props (VStr "click")) by (by vm_compute).
  by vm_compute.
Defined.

(** C34.  If [props.onConfirm] is truthy and not a function, [onConfirm]
    throws a [TypeError] after it has closed the popup: the state write and
    the call of [onVisibleChange] are done.  ([props.onVisibleChange] is
    absent, [undefined] or a function.) *)
Theorem onConfirm_not_callable props e :
  optional is_function props "onVisibleChange" = true →
  truthy (props !!! "onConfirm") = true →
  is_function (props !!! "onConfirm") = false →
  onConfirm props setVisible e =
    (state_write props (VBool false) ++
       notify props "onVisibleChange" (VObj props) [VBool false; e],
     Throw (NotCallable (props !!! "onConfirm"))).
Proof.
  intros H Ht Hf. unfold onConfirm.
  rewrite close_then_cases, optional_function_callable by done.
  unfold guarded_outcome, callable_or_falsy, notify, callback_call.
  by rewrite Ht, Hf, !app_nil_r.
Qed.

Lemma onConfirm_not_callable_witness :
  onConfirm (<["onConfirm":=VStr "yes"]> uncontrolled_props) setVisible VNull =
    ([SetState 0 (VBool false);
      Call (VFun (Host 3)) (VObj (<["onConfirm":=VStr "yes"]> uncontrolled_props))
        [VBool false; VNull]],
     Throw (NotCallable (VStr "yes"))).
Proof.
  rewrite (onConfirm_not_callable (<["onConfirm":=VStr "yes"]> uncontrolled_props))
    by (by vm_compute).
  by vm_compute.
Defined.

(** [settingVisible] with a truthy [props.onVisibleChange] that is not a
    function: the state write is done, then the call throws. *)
Lemma settingVisible_throws props vis e :
  truthy (props !!! "onVisibleChange") = true →
  is_function (props !!! "onVisibleChange") = false →
  settingVisible props setVisible vis e =
    (state_write props vis, Throw (NotCallable (props !!! "onVisibleChange"))).
Proof.
  intros Ht Hf. unfold settingVisible, state_write, call, action_call.
  rewrite Ht, Hf.
  by destruct (has_key props "visible").
Qed.

(** If [props.onVisibleChange] is truthy and not a function, a click on
    either button throws inside [settingVisible]: the state write is done
    (when [visible] is not a prop), and neither [props.onConfirm] nor
    [props.onCancel] is called. *)
Theorem close_stops_on_error props e :
  truthy (props !!! "onVisibleChange") = true →
  is_function (props !!! "onVisibleChange") = false →
  onConfirm props setVisible e =
    (state_write props (VBool false),
     Throw (NotCallable (props !!! "onVisibleChange")))
  ∧ onCancel props setVisible e =
      (state_write props (VBool false),
       Throw (NotCallable (props !!! "onVisibleChange"))).
Proof.
  intros Ht Hf. unfold onConfirm, onCancel.
  by rewrite settingVisible_throws.
Qed.

Lemma close_stops_on_error_witness :
  onConfirm (<["onVisibleChange":=VNum 1]> uncontrolled_props) setVisible VNull =
    ([SetState 0 (VBool false)], Throw (NotCallable (VNum 1)))
  ∧ onCancel (<["onVisibleChange":=VNum 1]> uncontrolled_props) setVisible VNull =
      ([SetState 0 (VBool false)], Throw (NotCallable (VNum 1))).
Proof.
  exact (close_stops_on_error (<["onVisibleChange":=VNum 1]> uncontrolled_props)
           VNull eq_refl eq_refl).
Defined.

(** ** [onVisibleChange] *)

(** C3.  With [disabled] set, a visibility request of the tooltip is
    ignored: no state write, no call of [onVisibleChange], no exception. *)
Theorem onVisibleChange_disabled props vis :
  truthy (props !!! "disabled") = true →
  onVisibleChange props setVisible vis = ([], Ok ()).
Proof. intros H. unfold onVisibleChange. by rewrite H. Qed.

Lemma onVisibleChange_disabled_witness :
  onVisibleChange (<["disabled":=VBool true]> uncontrolled_props) setVisible
    (VBool true) = ([], Ok ()).
Proof. apply onVisibleChange_disabled. by vm_compute. Defined.

(** C6.  Without [disabled], a visibility request goes through
    [settingVisible] with no event: the state write (only when [visible] is
    not a prop), then [props.onVisibleChange(value, undefined)]. *)
Theorem onVisibleChange_enabled props vis :
  truthy (props !!! "disabled") = false →
  onVisibleChange props setVisible vis =
    (state_write props vis ++
       notify props "onVisibleChange" (VObj props) [vis; VUndef],
     guarded_outcome (props !!! "onVisibleChange")).
Proof.
  intros H. unfold onVisibleChange. rewrite H. apply settingVisible_pair.
Qed.

Lemma onVisibleChange_enabled_witness :
  onVisibleChange uncontrolled_props setVisible (VBool true) =
    ([SetState 0 (VBool true);
      Call (VFun (Host 3)) (VObj uncontrolled_props) [VBool true; VUndef]],
     Ok ()).
Proof.
  rewrite (onVisibleChange_enabled uncontrolled_props (VBool true))
    by (by vm_compute).
  by vm_compute.
Defined.

(** Both branches of [onVisibleChange] at once. *)
Lemma onVisibleChange_pair props vis :
  onVisibleChange props setVisible vis =
    if truthy (props !!! "disabled") then ([], Ok ())
    else (state_write props vis ++
            notify props "onVisibleChange" (VObj props) [vis; VUndef],
          guarded_outcome (props !!! "onVisibleChange")).
Proof.
  unfold onVisibleChange. destruct (truthy (props !!! "disabled")); [done|].
  apply settingVisible_pair.
Qed.

(** ** Every closure at once *)

Section shape.
Variable props : obj.

Lemma handler_shape_nil : handler_shape props [].
Proof. exists [], []. auto. Qed.

Lemma handler_shape_write vis cs :
  calls cs = cs → handler_shape props (state_write props vis ++ cs).
Proof. intros Hcs. exists (state_write props vis), cs. eauto. Qed.

Lemma close_then_shape cb e :
  handler_shape props (trace
    (_ ← settingVisible props setVisible (VBool false) e;
     when (truthy (props !!! cb)) (call (props !!! cb) VUndef [e]))).
Proof.
  rewrite close_then_cases.
  destruct (callable_or_falsy (props !!! "onVisibleChange")); simpl.
  - apply handler_shape_write, calls_notify_app.
  - rewrite <- (app_nil_r (state_write _ _)). by apply handler_shape_write.
Qed.

Lemma closure_body_shape name args :
  handler_shape props (trace (closure_body props name args)).
Proof.
  unfold closure_body, closure. repeat case_decide; try apply close_then_shape.
  - rewrite onVisibleChange_pair.
    destruct (truthy (props !!! "disabled")); simpl.
    + apply handler_shape_nil.
    + apply handler_shape_write, calls_notify.
  - apply handler_shape_nil.
Qed.

(** In a trace of that shape the writes come first. *)
Lemma handler_shape_order t :
  handler_shape props t → t = (SetState 0 <$> writes 0 t) ++ calls t.
Proof.
  intros (ws & cs & -> & Hws & Hcs).
  assert (writes 0 cs = []) as Hw by (rewrite <- Hcs; apply writes_calls).
  rewrite writes_app, calls_app, Hw, Hcs, app_nil_r.
  destruct Hws as [->|[vis ->]]; [done|].
  by rewrite state_write_writes, calls_state_write.
Qed.

(** When [visible] is a prop, a trace of that shape leaves the memory as
    it is. *)
Lemma handler_shape_controlled t mem :
  has_key props "visible" = true → handler_shape props t →
  apply_ops mem t = mem.
Proof.
  intros Hc (ws & cs & -> & Hws & Hcs).
  assert (ws = []) as ->.
  { destruct Hws as [->|[vis ->]]; [done|]. unfold state_write. by rewrite Hc. }
  rewrite <- Hcs. apply apply_ops_calls.
Qed.

(** A closure returns unless a callback prop it calls is truthy and no
    function. *)
Lemma closure_body_returns_iff name args :
  callable_or_falsy (props !!! "onVisibleChange") = true →
  callable_or_falsy (props !!! "onConfirm") = true →
  callable_or_falsy (props !!! "onCancel") = true →
  returns (closure_body props name args) = true.
Proof.
  intros Hv Hc Hx. unfold closure_body, closure, onConfirm, onCancel.
  repeat case_decide;
    rewrite ?close_then_cases, ?onVisibleChange_pair, ?Hv;
    try destruct (truthy (props !!! "disabled"));
    unfold returns, guarded_outcome; simpl; by rewrite ?Hv, ?Hc, ?Hx.
Qed.

End shape.

(** C33.  No closure of the component throws when the props have their
    TypeScript types. *)
Theorem closure_body_returns props name args :
  PopconfirmProps_ok props = true →
  returns (closure_body props name args) = true.
Proof.
  intros Hty. apply closure_body_returns_iff; auto with popconfirm.
Qed.

Lemma closure_body_returns_witness :
  returns (closure_body uncontrolled_props "onConfirm" [VStr "click"]) = true.
Proof. apply closure_body_returns. by vm_compute. Defined.

(** C36.  In every closure of the component the state is written before any
    callback is called: the trace is its state writes followed by its
    calls. *)
Theorem closure_writes_before_calls props name args :
  trace (closure_body props name args) =
    (SetState 0 <$> writes 0 (trace (closure_body props name args))) ++
    calls (trace (closure_body props name args)).
Proof. apply handler_shape_order with props, closure_body_shape. Qed.

(** When [visible] is a prop (controlled mode), no closure changes
    the state: the popup closes only when the host passes a new prop. *)
Theorem closure_body_controlled props name args mem :
  has_key props "visible" = true →
  apply_ops mem (trace (closure_body props name args)) = mem.
Proof.
  intros Hc. by apply handler_shape_controlled with props, closure_body_shape.
Qed.

Lemma closure_body_controlled_witness :
  apply_ops [StateSlot (VBool true); EffectSlot []; EffectSlot []]
    (trace (closure_body controlled_props "onConfirm" [VNull])) =
  [StateSlot (VBool true); EffectSlot []; EffectSlot []].
Proof. apply closure_body_controlled. by vm_compute. Defined.

(** ** The closures in two monads *)

(** The closures mean the same in every monad: run in [N] through a
    morphism, a closure of [M] is the closure of [N] over the image of
    [setVisible]. *)
Section morphism.
Context {M N : Type → Type}.
Context `{!MRet M, !MBind M, !MCall M, !MRet N, !MBind N, !MCall N}.
Context {EqN : ∀ A, Equiv (N A)} (φ : ∀ A, M A → N A) `{!MCallMorphism φ}.
Variable props : obj.
Variable setVisible : value → M unit.
Implicit Types (vis e : value) (cb name : string) (args : list value).

#[local] Existing Instance when_proper.

Lemma settingVisible_morph vis e :
  φ unit (settingVisible props setVisible vis e) ≡
    settingVisible props (λ v, φ unit (setVisible v)) vis e.
Proof.
  unfold settingVisible. rewrite (morph_bind (φ:=φ)).
  f_equiv; [intros []; apply (morph_when_call φ)|apply (morph_when φ)].
Qed.

Lemma onConfirm_morph e :
  φ unit (onConfirm props setVisible e) ≡
    onConfirm props (λ v, φ unit (setVisible v)) e.
Proof.
  unfold onConfirm. rewrite (morph_bind (φ:=φ)).
  f_equiv; [intros []; apply (morph_when_call φ)|apply settingVisible_morph].
Qed.

Lemma onCancel_morph e :
  φ unit (onCancel props setVisible e) ≡
    onCancel props (λ v, φ unit (setVisible v)) e.
Proof.
  unfold onCancel. rewrite (morph_bind (φ:=φ)).
  f_equiv; [intros []; apply (morph_when_call φ)|apply settingVisible_morph].
Qed.

Lemma onVisibleChange_morph vis :
  φ unit (onVisibleChange props setVisible vis) ≡
    onVisibleChange props (λ v, φ unit (setVisible v)) vis.
Proof.
  unfold onVisibleChange. destruct (truthy (props !!! "disabled"));
    [apply (morph_ret (φ:=φ))|apply settingVisible_morph].
Qed.

Lemma closure_morph name args :
  φ unit (closure props setVisible name args) ≡
    closure props (λ v, φ unit (setVisible v)) name args.
Proof.
  unfold closure. repeat case_decide;
    [apply onConfirm_morph|apply onCancel_morph|apply onVisibleChange_morph|
     apply (morph_ret (φ:=φ))].
Qed.

End morphism.
