(* ===== verification/Typed.v ===== *)
(** * The props, typed

    The component reads its props dynamically, and the rest of the
    development follows it: props are an untyped object.  This file gives
    the interface [PopconfirmProps] (lines 11-23 of
    components/popconfirm/index.tsx) as a record, each optional property
    with the three states JavaScript distinguishes (absent, [undefined],
    given), and relates the two: a typed props record encodes to an object
    and decodes back, the objects that decode are exactly the well-typed
    ones ([PopconfirmProps_ok]), and on an encoded record the handlers do
    what a reference written on the record does, without any exception. *)

From S2P Require Import Prelude JsValue Effects React Props Handlers.

(** ** Optional properties and the types of the interface *)

(** [k?: T]: the property is absent, present and [undefined], or given.
    ['k' in props] tells the first from the other two. *)
Inductive opt (A : Type) : Type :=
| Absent
| Undefined
| Given (a : A).
Arguments Absent {A}.
Arguments Undefined {A}.
Arguments Given {A} a.

#[global] Instance opt_eq_dec `{EqDecision A} : EqDecision (opt A).
Proof. solve_decision. Defined.

(** A TypeScript type of the interface: the values that have it
    ([js_type]), as a Rocq type with its injection into the values. *)
Class Typed (A : Type) : Type := {
  to_js : A → value;
  of_js : value → option A;
  js_type : value → bool;
  of_to_js a : of_js (to_js a) = Some a;
  to_of_js v a : of_js v = Some a → to_js a = v;
  of_js_type v : is_Some (of_js v) ↔ js_type v = true;
  to_js_defined a : is_undefined (to_js a) = false;
}.
#[global] Hint Mode Typed ! : typeclass_instances.

(** [boolean] *)
#[global, refine] Instance Typed_bool : Typed bool := {|
  to_js := VBool;
  of_js v := match v with VBool b => Some b | _ => None end;
  js_type := is_boolean;
|}.
Proof.
  - done.
  - by intros [] ? [= <-].
  - intros []; split; (done || by intros [? [=]] || by eexists).
  - done.
Defined.

(** A function type, [(e?) => void]. *)
#[global, refine] Instance Typed_func : Typed func := {|
  to_js := VFun;
  of_js v := match v with VFun f => Some f | _ => None end;
  js_type := is_function;
|}.
Proof.
  - done.
  - by intros [] ? [= <-].
  - intros []; split; (done || by intros [? [=]] || by eexists).
  - done.
Defined.

(** [string], and the string literal types ([ButtonType]). *)
#[global, refine] Instance Typed_string : Typed string := {|
  to_js := VStr;
  of_js v := match v with VStr s => Some s | _ => None end;
  js_type := is_string;
|}.
Proof.
  - done.
  - by intros [] ? [= <-].
  - intros []; split; (done || by intros [? [=]] || by eexists).
  - done.
Defined.

(** An object type ([NativeButtonProps]). *)
#[global, refine] Instance Typed_obj : Typed obj := {|
  to_js := VObj;
  of_js v := match v with VObj o => Some o | _ => None end;
  js_type := is_object;
|}.
Proof.
  - done.
  - by intros [] ? [= <-].
  - intros []; split; (done || by intros [? [=]] || by eexists).
  - done.
Defined.

(** What an optional property is in the object: nothing, or a value. *)
Definition raw `{Typed A} (o : opt A) : option value :=
  match o with
  | Absent => None
  | Undefined => Some VUndef
  | Given a => Some (to_js a)
  end.

(** Writing and reading an optional property of an object. *)
Definition put `{Typed A} (k : string) (o : opt A) (m : obj) : obj :=
  match raw o with
  | None => delete k m
  | Some v => <[k:=v]> m
  end.

Definition get `{Typed A} (k : string) (m : obj) : option (opt A) :=
  match m !! k with
  | None => Some Absent
  | Some v => if is_undefined v then Some Undefined else Given <$> of_js v
  end.

(** ** The interface (lines 11-23) *)

(** [interface PopconfirmProps extends AbstractTooltipProps]: the
    properties with a type the component depends on, and the others
    ([title], [okText], [cancelText] and [icon], which are [ReactNode]s, and
    the props of the tooltip the component only forwards) as they are. *)
Record PopconfirmProps : Type := {
  props_disabled : opt bool;
  props_onConfirm : opt func;
  props_onCancel : opt func;
  props_okType : opt string;
  props_okButtonProps : opt obj;
  props_cancelButtonProps : opt obj;
  props_onVisibleChange : opt func;
  props_visible : opt bool;
  props_defaultVisible : opt bool;
  props_prefixCls : opt string;
  props_rest : obj;
}.

(** The names of the typed properties. *)
Definition typed_keys : list string := PopconfirmProps_fields.*1.

(** The other properties are apart from the typed ones. *)
Definition apart (p : PopconfirmProps) : bool :=
  forallb (λ k, negb (has_key (props_rest p) k)) typed_keys.

(** The object a host passes for [p]. *)
Definition encode (p : PopconfirmProps) : obj :=
  put "disabled" (props_disabled p) (
  put "onConfirm" (props_onConfirm p) (
  put "onCancel" (props_onCancel p) (
  put "okType" (props_okType p) (
  put "okButtonProps" (props_okButtonProps p) (
  put "cancelButtonProps" (props_cancelButtonProps p) (
  put "onVisibleChange" (props_onVisibleChange p) (
  put "visible" (props_visible p) (
  put "defaultVisible" (props_defaultVisible p) (
  put "prefixCls" (props_prefixCls p) (props_rest p)))))))))).

(** The typed props an object stands for, if every typed property it has is
    of its type. *)
Definition decode (m : obj) : option PopconfirmProps :=
  disabled ← get "disabled" m;
  onConfirm ← get "onConfirm" m;
  onCancel ← get "onCancel" m;
  okType ← get "okType" m;
  okButtonProps ← get "okButtonProps" m;
  cancelButtonProps ← get "cancelButtonProps" m;
  onVisibleChange ← get "onVisibleChange" m;
  visible ← get "visible" m;
  defaultVisible ← get "defaultVisible" m;
  prefixCls ← get "prefixCls" m;
  Some {| props_disabled := disabled;
          props_onConfirm := onConfirm;
          props_onCancel := onCancel;
          props_okType := okType;
          props_okButtonProps := okButtonProps;
          props_cancelButtonProps := cancelButtonProps;
          props_onVisibleChange := onVisibleChange;
          props_visible := visible;
          props_defaultVisible := defaultVisible;
          props_prefixCls := prefixCls;
          props_rest := rest_props typed_keys m |}.

(** ** The handlers on typed props: a reference *)

(** Whether the host controls the visibility, decided once from the
    props. *)
Inductive mode : Type :=
| Controlled
| Uncontrolled.

Definition mode_of (p : PopconfirmProps) : mode :=
  match props_visible p with
  | Absent => Uncontrolled
  | _ => Controlled
  end.

(** The call of a callback, if the host gave one. *)
Definition tell_host (cb : opt func) (this : value) (args : list value)
    : list op :=
  match cb with
  | Given f => [Call (VFun f) this args]
  | _ => []
  end.

Definition typed_settingVisible (p : PopconfirmProps) (vis e : value)
    : list op :=
  match mode_of p with
  | Uncontrolled => [SetState 0 vis]
  | Controlled => []
  end ++ tell_host (props_onVisibleChange p) (VObj (encode p)) [vis; e].

(** What each closure does, on typed props. *)
Definition typed_closure (p : PopconfirmProps) (name : string)
    (args : list value) : list op :=
  if decide (name = "onConfirm")
  then typed_settingVisible p (VBool false) (args !!! 0)
       ++ tell_host (props_onConfirm p) VUndef [args !!! 0]
  else if decide (name = "onCancel")
  then typed_settingVisible p (VBool false) (args !!! 0)
       ++ tell_host (props_onCancel p) VUndef [args !!! 0]
  else if decide (name = "onVisibleChange")
  then match props_disabled p with
       | Given true => []
       | _ => typed_settingVisible p (args !!! 0) VUndef
       end
  else [].

(** The typed props of the example: an uncontrolled popup that starts
    open. *)
Definition typed_open : PopconfirmProps :=
  {| props_disabled := Absent;
     props_onConfirm := Given (Host 1);
     props_onCancel := Given (Host 2);
     props_okType := Absent;
     props_okButtonProps := Absent;
     props_cancelButtonProps := Absent;
     props_onVisibleChange := Given (Host 3);
     props_visible := Absent;
     props_defaultVisible := Given true;
     props_prefixCls := Absent;
     props_rest := {[ "title" := VStr "Sure?" ]} |}.

(** ** One property *)

Section property.
Context `{Typed A}.
Implicit Types (k : string) (o : opt A) (m : obj) (v : value).

Lemma raw_defined o v : raw o = Some v → v = VUndef ∨ is_undefined v = false.
Proof. destruct o; intros [= <-]; [by left|right; apply to_js_defined]. Qed.

Lemma lookup_put k k' o m :
  put k' o m !! k = if decide (k = k') then raw o else m !! k.
Proof.
  unfold put. case_decide as E; [subst k'|]; destruct (raw o).
  - by rewrite lookup_insert_eq.
  - by rewrite lookup_delete_eq.
  - by rewrite lookup_insert_ne.
  - by rewrite lookup_delete_ne.
Qed.

(** Reading a property only depends on that property. *)
Lemma get_lookup k m o : m !! k = raw o → get k m = Some o.
Proof.
  unfold get. intros ->. destruct o as [| |a]; simpl; [done..|].
  by rewrite to_js_defined, of_to_js.
Qed.

Lemma lookup_get k m o : get k m = Some o → m !! k = raw o.
Proof.
  unfold get. destruct (m !! k) as [v|]; [|by intros [= <-]].
  destruct v; simpl; try by intros [= <-].
  all: destruct (of_js _) as [a|] eqn:E; simpl; intros [= <-]; simpl;
    by rewrite (to_of_js _ _ E).
Qed.

Lemma get_put_eq k o m : get k (put k o m) = Some o.
Proof. apply get_lookup. by rewrite lookup_put, decide_True. Qed.

(** A property is read exactly when it has its type. *)
Lemma is_Some_get k m :
  is_Some (get (A:=A) k m) ↔ optional (js_type (A:=A)) m k = true.
Proof.
  unfold get, optional. rewrite lookup_total_alt.
  destruct (m !! k) as [v|]; simpl; [|by split; [|eexists]].
  destruct (is_undefined v); simpl; [by split; [|eexists]|].
  by rewrite <- of_js_type, fmap_is_Some.
Qed.

(** The value the component reads. *)
Lemma get_total k m o :
  get k m = Some o → m !!! k = default VUndef (raw o).
Proof. intros E%lookup_get. by rewrite lookup_total_alt, E. Qed.

Lemma get_has_key k m o :
  get k m = Some o → has_key m k = if o is Absent then false else true.
Proof.
  intros E%lookup_get. unfold has_key. rewrite E.
  by destruct o; [rewrite bool_decide_eq_false; intros [? [=]]|..].
Qed.

End property.

(** ** The record *)

Section record.
Implicit Types (p : PopconfirmProps) (m : obj) (k : string).

(** The ten typed properties, by name. *)
Lemma typed_keys_eq :
  typed_keys =
    ["disabled"; "onConfirm"; "onCancel"; "okType"; "okButtonProps";
     "cancelButtonProps"; "onVisibleChange"; "visible"; "defaultVisible";
     "prefixCls"].
Proof. done. Qed.

Lemma apart_lookup p k :
  apart p = true → k ∈ typed_keys → props_rest p !! k = None.
Proof.
  unfold apart. rewrite forallb_forall. intros Ha Hk%list_elem_of_In.
  specialize (Ha k Hk). apply negb_true_iff, bool_decide_eq_false in Ha.
  by apply eq_None_not_Some.
Qed.

(** The other properties of an encoded record are those of its rest. *)
Lemma lookup_encode_rest p k :
  k ∉ typed_keys → encode p !! k = props_rest p !! k.
Proof.
  intros Hk. unfold encode. rewrite !lookup_put.
  by rewrite !decide_False by (intros ->; apply Hk; compute_done).
Qed.

End record.

(** ** Round trips *)

(** A typed property of an encoded record: the [put] of that name wins. *)
Ltac encoded_field :=
  unfold encode; rewrite !lookup_put;
  repeat first [rewrite decide_True by done | rewrite decide_False by done];
  reflexivity.

(** An object that decodes: each typed property was read. *)
Ltac decoded :=
  unfold decode;
  repeat match goal with
         | |- (?g ≫= _) = _ → _ =>
             destruct g as [?|] eqn:?; cbn [mbind option_bind]; [|done]
         end;
  intros <-%(inj Some).

Section roundtrip.
Implicit Types (p : PopconfirmProps) (m : obj) (k : string).

Lemma rest_encode p :
  apart p = true → rest_props typed_keys (encode p) = props_rest p.
Proof.
  intros Ha. apply map_eq. intros k. rewrite lookup_rest_props.
  case_decide as Hk; [by rewrite apart_lookup|by apply lookup_encode_rest].
Qed.

(** Decoding keeps the other properties apart. *)
Lemma rest_props_apart m k :
  k ∈ typed_keys → has_key (rest_props typed_keys m) k = false.
Proof.
  intros Hk. rewrite has_key_rest_props.
  by rewrite (bool_decide_eq_false_2 (k ∉ typed_keys)) by tauto.
Qed.

Lemma decode_apart m p : decode m = Some p → apart p = true.
Proof.
  decoded. unfold apart.
  apply forallb_forall. intros k Hk%list_elem_of_In. cbn [props_rest].
  by rewrite rest_props_apart.
Qed.

Lemma decode_encode p : apart p = true → decode (encode p) = Some p.
Proof.
  intros Ha. unfold decode.
  repeat (erewrite get_lookup by encoded_field; cbn [mbind option_bind]).
  rewrite rest_encode by done. by destruct p.
Qed.

Lemma encode_decode m p : decode m = Some p → encode p = m.
Proof.
  decoded. apply map_eq. intros k. unfold encode. cbn [props_disabled props_onConfirm
    props_onCancel props_okType props_okButtonProps props_cancelButtonProps
    props_onVisibleChange props_visible props_defaultVisible props_prefixCls
    props_rest].
  rewrite !lookup_put.
  repeat (case_decide; [subst k; symmetry; by apply lookup_get|]).
  rewrite lookup_rest_props, decide_False; [done|].
  rewrite typed_keys_eq, !not_elem_of_cons.
  repeat split; auto using not_elem_of_nil.
Qed.

(** Typed props and props objects, there and back: a record whose
    other properties are apart from the typed ones decodes from its
    encoding, and an object that decodes is the encoding of what it decodes
    to, whose other properties are apart. *)
Theorem props_roundtrip :
  (∀ p, apart p = true → decode (encode p) = Some p)
  ∧ (∀ m p, decode m = Some p → encode p = m ∧ apart p = true).
Proof.
  split; [apply decode_encode|].
  intros m p Hd. split; [by apply encode_decode|by apply (decode_apart m)].
Qed.

(** The objects that decode are exactly the well-typed ones: every
    property of [PopconfirmProps] is absent, [undefined] or of its type
    if and only if the object stands for typed props. *)
Theorem PopconfirmProps_ok_decode m :
  PopconfirmProps_ok m = true ↔ is_Some (decode m).
Proof.
  split.
  - intros Hty. unfold decode.
    repeat match goal with
    | |- is_Some (@get ?A ?I ?k m ≫= _) =>
        let E := fresh in
        destruct (proj2 (is_Some_get (A:=A) k m)) as [? E];
          [apply (PopconfirmProps_ok_field m k js_type Hty); repeat constructor
          |rewrite E; cbn [mbind option_bind]]
    end.
    by eexists.
  - intros [p Hp]. revert Hp. decoded.
    repeat match goal with
    | H : get _ _ = Some _ |- _ => apply mk_is_Some, is_Some_get in H
    end.
    unfold PopconfirmProps_ok, PopconfirmProps_fields. cbn [forallb fst snd].
    by repeat (apply andb_true_iff; split).
Qed.

End roundtrip.

(** ** The handlers on encoded props *)

Section reference.
Variable p : PopconfirmProps.
Implicit Types (cb : string) (o : opt func) (this vis e : value).

(** A callback of an encoded record is called if it is given, and the
    guarded call of it never throws. *)
Lemma notify_encode cb o this args :
  encode p !! cb = raw o →
  notify (encode p) cb this args = tell_host o this args.
Proof.
  intros E. unfold notify, callback_call. rewrite lookup_total_alt, E.
  by destruct o.
Qed.

Lemma guarded_outcome_encode cb o :
  encode p !! cb = raw o → guarded_outcome (encode p !!! cb) = Ok ().
Proof.
  intros E. unfold guarded_outcome. rewrite lookup_total_alt, E.
  by destruct o.
Qed.

Lemma state_write_encode vis :
  state_write (encode p) vis =
    match mode_of p with Uncontrolled => [SetState 0 vis] | Controlled => [] end.
Proof.
  unfold state_write, mode_of.
  rewrite (get_has_key "visible" _ (props_visible p))
    by (apply get_lookup; encoded_field).
  by destruct (props_visible p).
Qed.

Lemma truthy_disabled_encode :
  truthy (encode p !!! "disabled") =
    if props_disabled p is Given true then true else false.
Proof.
  rewrite (get_total "disabled" _ (props_disabled p))
    by (apply get_lookup; encoded_field).
  by destruct (props_disabled p) as [| |[]].
Qed.

Lemma settingVisible_encode vis e :
  settingVisible (encode p) setVisible vis e =
    (typed_settingVisible p vis e, Ok ()).
Proof.
  rewrite settingVisible_pair, state_write_encode. unfold typed_settingVisible.
  by rewrite (notify_encode _ (props_onVisibleChange p)),
    (guarded_outcome_encode _ (props_onVisibleChange p)) by encoded_field.
Qed.

Lemma close_encode cb o e :
  encode p !! cb = raw o →
  (_ ← settingVisible (encode p) setVisible (VBool false) e;
   when (truthy (encode p !!! cb)) (call (encode p !!! cb) VUndef [e])) =
    (typed_settingVisible p (VBool false) e ++ tell_host o VUndef [e], Ok ()).
Proof.
  intros E. rewrite settingVisible_encode, bind_ok, when_call_pair.
  fold (notify (encode p) cb VUndef [e]).
  by rewrite (guarded_outcome_encode cb o E), (notify_encode cb o _ _ E).
Qed.

(** C26.  On typed props the handlers are the reference written on the
    record: each closure performs exactly the operations of
    [typed_closure], where the mode is decided from the record and the
    callbacks are called if they are given, and no closure throws. *)
Theorem closure_body_typed name args :
  closure_body (encode p) name args = (typed_closure p name args, Ok ()).
Proof.
  unfold closure_body, closure, typed_closure, onConfirm, onCancel.
  repeat case_decide; try (apply close_encode; encoded_field); [|done].
  rewrite onVisibleChange_pair, truthy_disabled_encode.
  rewrite <- settingVisible_pair, settingVisible_encode.
  by destruct (props_disabled p) as [| |[]].
Qed.

End reference.

(** ** The example *)

(** The typed props of the example are the props of the open popup. *)
Example encode_typed_open : encode typed_open = open_props.
Proof.
  apply map_eq. intros k. unfold encode. rewrite !lookup_put.
  repeat (case_decide; [subst k; by vm_compute|]).
  destruct (decide (k = "title")) as [->|]; [by vm_compute|].
  unfold open_props, uncontrolled_props, typed_open. cbn [props_rest].
  by rewrite !lookup_insert_ne, !lookup_singleton_ne.
Qed.

Example decode_open_props : decode open_props = Some typed_open.
Proof. rewrite <- encode_typed_open. by apply decode_encode. Qed.
