(* ===== verification/Overlay.v ===== *)
(** * The overlay renderer

    [renderOverlay] (lines 83-101 of components/popconfirm/index.tsx): the
    body of the popup, a message (icon and title) above a row of two
    buttons. *)

From S2P Require Import Prelude JsValue Effects React Collaborators.
From S2P Require Import Props.

(** ** [renderOverlay] (lines 83-101) *)

Section overlay.
Context `{!HostFunctions}.
Variable props : obj.

(** [renderOverlay(prefixCls, popconfirmLocale)] (lines 83-101). *)
Definition renderOverlay (prefixCls : string)
    (popconfirmLocale : PopconfirmLocale) : value :=
  let okButtonProps := props !!! "okButtonProps" in
  let cancelButtonProps := props !!! "cancelButtonProps" in
  let title := props !!! "title" in
  let cancelText_ := props !!! "cancelText" in
  let okText_ := props !!! "okText" in
  let okType := props !!! "okType" in
  let icon := props !!! "icon" in
  createElement (Tag "div") ∅
    {[ "className" := VStr (prefixCls +:+ "-inner-content") ]}
    [ createElement (Tag "div") ∅
        {[ "className" := VStr (prefixCls +:+ "-message") ]}
        [ icon;
          createElement (Tag "div") ∅
            {[ "className" := VStr (prefixCls +:+ "-message-title") ]}
            [ getRenderPropValue title ] ];
      createElement (Tag "div") ∅
        {[ "className" := VStr (prefixCls +:+ "-buttons") ]}
        [ createElement (Comp "Button") ∅
            (assign {[ "onClick" := VFun (Closure "onCancel");
                       "size" := VStr "small" ]}
               cancelButtonProps)
            [ (cancelText_ || VStr (cancelText popconfirmLocale))%js ];
          createElement (Comp "Button") ∅
            (assign {[ "onClick" := VFun (Closure "onConfirm");
                       "type" := okType;
                       "size" := VStr "small" ]}
               okButtonProps)
            [ (okText_ || VStr (okText popconfirmLocale))%js ] ] ].

End overlay.

(** ** Vocabulary: the parts of the overlay *)

(** The message (icon and title) and the row of buttons: the two children
    of the overlay. *)
Definition message (el : value) : value := children_of el !!! 0%nat.

Definition buttons (el : value) : value := children_of el !!! 1%nat.

Definition icon_of (el : value) : value := children_of (message el) !!! 0%nat.

Definition title_of (el : value) : value :=
  props_of (children_of (message el) !!! 1%nat) !!! "children".

Definition cancel_button (el : value) : value :=
  children_of (buttons el) !!! 0%nat.

Definition ok_button (el : value) : value :=
  children_of (buttons el) !!! 1%nat.

(** What a button shows: its only child. *)
Definition label_of (button : value) : value :=
  props_of button !!! "children".

(** The props the component gives each button before the overrides. *)
Definition cancel_base : obj :=
  {[ "onClick" := VFun (Closure "onCancel"); "size" := VStr "small" ]}.

Definition ok_base (props : obj) : obj :=
  {[ "onClick" := VFun (Closure "onConfirm");
     "type" := props !!! "okType";
     "size" := VStr "small" ]}.

(** Props of a popup whose host relabels and restyles the OK button. *)
Definition relabelled_props : obj :=
  <["okText":=VStr "Yes"]> (
  <["okButtonProps":=VObj {[ "danger" := VBool true;
                              "size" := VStr "large" ]}]>
    uncontrolled_props).

(** ** The buttons *)

(** C7.  The label of each button is the text given as a prop when that
    text is truthy, and the text of the locale otherwise ([cancelText ||
    popconfirmLocale.cancelText], [okText || popconfirmLocale.okText]); the
    button props given by the host cannot replace it. *)
Theorem renderOverlay_labels `{!HostFunctions} props prefixCls popconfirmLocale :
  label_of (cancel_button (renderOverlay props prefixCls popconfirmLocale)) =
    (props !!! "cancelText" || VStr (cancelText popconfirmLocale))%js
  ∧ label_of (ok_button (renderOverlay props prefixCls popconfirmLocale)) =
    (props !!! "okText" || VStr (okText popconfirmLocale))%js.
Proof.
  unfold label_of, cancel_button, ok_button, buttons, renderOverlay. descend.
  by rewrite !get_createElement_child.
Qed.

(** C8.  A click on the cancel button calls [onCancel] and a click on the
    OK button calls [onConfirm], unless the button props given by the host
    ([cancelButtonProps], [okButtonProps]) have an [onClick] of their own,
    which then replaces the handler of the component. *)
Theorem renderOverlay_onClick `{!HostFunctions} props prefixCls popconfirmLocale :
  props_of (cancel_button (renderOverlay props prefixCls popconfirmLocale))
    !!! "onClick" =
    (if has_key (spread (props !!! "cancelButtonProps")) "onClick"
     then spread (props !!! "cancelButtonProps") !!! "onClick"
     else VFun (Closure "onCancel"))
  ∧ props_of (ok_button (renderOverlay props prefixCls popconfirmLocale))
      !!! "onClick" =
    (if has_key (spread (props !!! "okButtonProps")) "onClick"
     then spread (props !!! "okButtonProps") !!! "onClick"
     else VFun (Closure "onConfirm")).
Proof.
  unfold cancel_button, ok_button, buttons, renderOverlay. descend.
  by rewrite !get_createElement, !get_assign by compute_done.
Qed.

(** ** The parts, one by one *)

Section parts.
Context `{!HostFunctions}.
Variable props : obj.
Variable prefixCls : string.
Variable popconfirmLocale : PopconfirmLocale.

Lemma message_renderOverlay :
  message (renderOverlay props prefixCls popconfirmLocale) =
    createElement (Tag "div") ∅
      {[ "className" := VStr (prefixCls +:+ "-message") ]}
      [ props !!! "icon";
        createElement (Tag "div") ∅
          {[ "className" := VStr (prefixCls +:+ "-message-title") ]}
          [ getRenderPropValue (props !!! "title") ] ].
Proof. unfold message, renderOverlay. by descend. Qed.

Lemma buttons_renderOverlay :
  children_of (buttons (renderOverlay props prefixCls popconfirmLocale)) =
    [ createElement (Comp "Button") ∅
        (assign cancel_base (props !!! "cancelButtonProps"))
        [ (props !!! "cancelText" || VStr (cancelText popconfirmLocale))%js ];
      createElement (Comp "Button") ∅
        (assign (ok_base props) (props !!! "okButtonProps"))
        [ (props !!! "okText" || VStr (okText popconfirmLocale))%js ] ].
Proof.
  unfold buttons, renderOverlay. by descend.
Qed.

(** The icon and the title of the message. *)
Lemma icon_of_renderOverlay :
  icon_of (renderOverlay props prefixCls popconfirmLocale) = props !!! "icon".
Proof.
  unfold icon_of. rewrite message_renderOverlay.
  by rewrite children_of_createElement.
Qed.

Lemma title_of_renderOverlay :
  title_of (renderOverlay props prefixCls popconfirmLocale) =
    getRenderPropValue (props !!! "title").
Proof.
  unfold title_of. rewrite message_renderOverlay.
  rewrite children_of_createElement. cbn [lookup_total list_lookup_total].
  apply get_createElement_child.
Qed.

(** A prop of a button: the override if there is one, else the prop the
    component gives it. *)
Lemma get_cancel_button k :
  k ∉ reserved_props → k ≠ "children" →
  props_of (cancel_button (renderOverlay props prefixCls popconfirmLocale))
    !!! k =
    if has_key (spread (props !!! "cancelButtonProps")) k
    then spread (props !!! "cancelButtonProps") !!! k
    else cancel_base !!! k.
Proof.
  intros Hk Hc. unfold cancel_button. rewrite buttons_renderOverlay.
  cbn [lookup_total list_lookup_total].
  by rewrite get_createElement, get_assign.
Qed.

Lemma get_ok_button k :
  k ∉ reserved_props → k ≠ "children" →
  props_of (ok_button (renderOverlay props prefixCls popconfirmLocale)) !!! k =
    if has_key (spread (props !!! "okButtonProps")) k
    then spread (props !!! "okButtonProps") !!! k
    else ok_base props !!! k.
Proof.
  intros Hk Hc. unfold ok_button. rewrite buttons_renderOverlay.
  cbn [lookup_total list_lookup_total].
  by rewrite get_createElement, get_assign.
Qed.

End parts.

(** A button prop given by the host wins over the prop the component
    gives the button: every key of [cancelButtonProps] and of
    [okButtonProps] (but [children], [key] and [ref]) reaches its button
    with the host's value. *)
Theorem renderOverlay_override `{!HostFunctions} props prefixCls
    popconfirmLocale k v :
  k ∉ reserved_props → k ≠ "children" →
  (spread (props !!! "cancelButtonProps") !! k = Some v →
   props_of (cancel_button (renderOverlay props prefixCls popconfirmLocale))
     !!! k = v)
  ∧ (spread (props !!! "okButtonProps") !! k = Some v →
     props_of (ok_button (renderOverlay props prefixCls popconfirmLocale))
       !!! k = v).
Proof.
  intros Hk Hc. rewrite get_cancel_button, get_ok_button by done.
  split; intros Hv; by rewrite (has_key_Some _ _ _ Hv), (get_present _ _ _ Hv).
Qed.

Lemma renderOverlay_override_witness :
  props_of (ok_button (@renderOverlay no_render relabelled_props "ant-popover"
    defaultLocale_Popconfirm)) !!! "size" = VStr "large".
Proof.
  apply (@renderOverlay_override no_render relabelled_props "ant-popover"
           defaultLocale_Popconfirm "size" (VStr "large"));
    first [by vm_compute|compute_done].
Defined.

(** Without an override the OK button has the type [props.okType]
    and both buttons are small; the component gives the cancel button no
    type. *)
Theorem renderOverlay_style `{!HostFunctions} props prefixCls popconfirmLocale :
  has_key (spread (props !!! "okButtonProps")) "type" = false →
  has_key (spread (props !!! "okButtonProps")) "size" = false →
  has_key (spread (props !!! "cancelButtonProps")) "size" = false →
  props_of (ok_button (renderOverlay props prefixCls popconfirmLocale))
    !!! "type" = props !!! "okType"
  ∧ props_of (ok_button (renderOverlay props prefixCls popconfirmLocale))
      !!! "size" = VStr "small"
  ∧ props_of (cancel_button (renderOverlay props prefixCls popconfirmLocale))
      !!! "size" = VStr "small"
  ∧ props_of (cancel_button (renderOverlay props prefixCls popconfirmLocale))
      !!! "type" = spread (props !!! "cancelButtonProps") !!! "type".
Proof.
  intros Ht Hs Hc. rewrite !get_ok_button, !get_cancel_button by compute_done.
  rewrite Ht, Hs, Hc. repeat split; [done..|].
  destruct (has_key (spread (props !!! "cancelButtonProps")) "type") eqn:E;
    [done|]. by rewrite (get_absent _ _ E).
Qed.

Lemma renderOverlay_style_witness :
  props_of (ok_button (@renderOverlay no_render
    (<["okType":=VStr "danger"]> uncontrolled_props) "ant-popover"
    defaultLocale_Popconfirm)) !!! "type" =
  <["okType":=VStr "danger"]> uncontrolled_props !!! "okType".
Proof.
  refine (proj1 (@renderOverlay_style no_render
           (<["okType":=VStr "danger"]> uncontrolled_props) "ant-popover"
           defaultLocale_Popconfirm _ _ _)); by vm_compute.
Defined.

(** ** The message *)

(** The overlay is a [div] of class [prefixCls-inner-content] with
    two children: the message, a [div] of class [prefixCls-message] that
    holds the icon and the title in a [div] of class
    [prefixCls-message-title], and the row of buttons, a [div] of class
    [prefixCls-buttons] that holds two [Button]s, cancel first. *)
Theorem renderOverlay_structure `{!HostFunctions} props prefixCls
    popconfirmLocale :
  let el := renderOverlay props prefixCls popconfirmLocale in
  type_of el = Some (Tag "div")
  ∧ props_of el !!! "className" = VStr (prefixCls +:+ "-inner-content")
  ∧ length (children_of el) = 2
  ∧ type_of (message el) = Some (Tag "div")
  ∧ props_of (message el) !!! "className" = VStr (prefixCls +:+ "-message")
  ∧ length (children_of (message el)) = 2
  ∧ props_of (children_of (message el) !!! 1%nat) !!! "className" =
      VStr (prefixCls +:+ "-message-title")
  ∧ type_of (buttons el) = Some (Tag "div")
  ∧ props_of (buttons el) !!! "className" = VStr (prefixCls +:+ "-buttons")
  ∧ type_of <$> children_of (buttons el) =
      [Some (Comp "Button"); Some (Comp "Button")].
Proof.
  cbv zeta. rewrite message_renderOverlay, buttons_renderOverlay.
  unfold buttons, renderOverlay. descend.
  by rewrite !get_createElement by compute_done.
Qed.

(** The message shows the icon given as a prop and the title: the
    result of [title()] when the title is a function, nothing when it is
    falsy, and the title itself otherwise. *)
Theorem renderOverlay_title `{!HostFunctions} props prefixCls popconfirmLocale :
  let el := renderOverlay props prefixCls popconfirmLocale in
  icon_of el = props !!! "icon"
  ∧ title_of el =
      match props !!! "title" with
      | VFun f => host_render f
      | t => if truthy t then t else VNull
      end.
Proof.
  cbv zeta. unfold icon_of, title_of. rewrite message_renderOverlay. descend.
  rewrite get_createElement_child. split; [done|].
  unfold getRenderPropValue.
  destruct (props !!! "title") as [| |[]|n|s| | | |]; simpl; try done;
    [by destruct (n =? 0)%Z|by destruct (String.eqb s "")].
Qed.
