(* ===== verification/Popconfirm.v ===== *)
(** * The component

    [Popconfirm] (lines 34-125 of components/popconfirm/index.tsx): the state
    hook and the two effects that keep it in step with the props (lines
    35-47), and the [Tooltip] element it returns (lines 103-124), whose
    overlay is rendered by [renderOverlay] and whose visibility requests go
    to [onVisibleChange]. *)

From S2P Require Import Prelude JsValue Effects React Collaborators.
From S2P Require Import Props Handlers Overlay.

(** ** The effects (lines 37-47) *)

Section effects.
Variable props : obj.
Variable setVisible : value → action unit.

(** First effect (lines 37-41), run when [props.visible] changes. *)
Definition effect_visible : action unit :=
  when (has_key props "visible") (setVisible (props !!! "visible")).

(** Second effect (lines 43-47), run when [props.defaultVisible] changes. *)
Definition effect_defaultVisible : action unit :=
  when (has_key props "defaultVisible") (setVisible (props !!! "defaultVisible")).

End effects.

(** ** The component (lines 34-125) *)

Section component.
Context `{!ConfigConsumer}.

(** The class prefix (lines 103-106): [getPrefixCls('popover',
    customizePrefixCls)] of the configuration context, for the
    [prefixCls?: string] of the interface. *)
Definition prefixCls_of (props : obj) : string :=
  let customizePrefixCls := props !!! "prefixCls" in
  getPrefixCls "popover" (as_string customizePrefixCls).

(** The child of the [LocaleReceiver] (line 110): the function that renders
    the overlay with the locale it is called with. *)
Definition overlay_child `{!HostFunctions} (props : obj)
    (popconfirmLocale : PopconfirmLocale) : value :=
  renderOverlay props (prefixCls_of props) popconfirmLocale.

(** The overlay (lines 108-112): a [LocaleReceiver] whose child is that
    function. *)
Definition overlay : value :=
  createElement (Comp "LocaleReceiver") ∅
    {[ "componentName" := VStr "Popconfirm";
       "defaultLocale" := VObj (locale_obj defaultLocale_Popconfirm) ]}
    [ VFun (Closure "renderOverlay") ].

(** The props of the [Tooltip] (lines 105 and 114-124): the rest of the
    props, then the six props the component sets itself. *)
Definition tooltip_config (props : obj) (ref visible : value) : obj :=
  let placement := props !!! "placement" in
  let restProps := rest_props ["prefixCls"; "placement"] props in
  let prefixCls := prefixCls_of props in
  <["ref":=ref]> (
  <["overlay":=overlay]> (
  <["visible":=visible]> (
  <["onVisibleChange":=VFun (Closure "onVisibleChange")]> (
  <["placement":=placement]> (
  <["prefixCls":=VStr prefixCls]> restProps))))).

(** The element the component returns (lines 114-124).  (The default
    props of [Tooltip] itself are not in the repository: the element has
    the props the component gives it and no other.) *)
Definition tooltip (props : obj) (ref visible : value) : value :=
  createElement (Comp "Tooltip") ∅ (tooltip_config props ref visible) [].

(** [Popconfirm], the function given to [React.forwardRef]. *)
Definition Popconfirm : component := λ props ref,
  '(visible, setVisible) ← useState (props !!! "visible");
  _ ← useEffect (effect_visible props setVisible) [props !!! "visible"];
  _ ← useEffect (effect_defaultVisible props setVisible)
        [props !!! "defaultVisible"];
  mret (tooltip props ref visible).

(** What the user sees in the popup: what the [LocaleReceiver] of the
    overlay renders. *)
Definition rendered_overlay `{!LocaleReceiver, !HostFunctions} (props : obj)
    : value :=
  render_LocaleReceiver (overlay_child props) overlay.

End component.

(** ** The [Tooltip] *)

Section tooltip.
Context `{!ConfigConsumer}.
Implicit Types (props : obj) (ref v : value) (k : string).

(** C9.  The [Tooltip] the component returns: its ref is the ref forwarded
    to the component; its [overlay] is the overlay of the component; its
    [visible] is the state; its [onVisibleChange] is the closure of the
    component, never the callback of the host; its [placement] is
    [props.placement] and its [prefixCls] the prefix of the configuration
    context; every other prop of the component reaches it unchanged. *)
Theorem tooltip_props props ref v k :
  ref_of (tooltip props ref v) = (if is_undefined ref then VNull else ref)
  ∧ props_of (tooltip props ref v) !!! k =
      if decide (k ∈ reserved_props) then VUndef
      else if decide (k = "overlay") then overlay
      else if decide (k = "visible") then v
      else if decide (k = "onVisibleChange")
           then VFun (Closure "onVisibleChange")
      else if decide (k = "placement") then props !!! "placement"
      else if decide (k = "prefixCls") then VStr (prefixCls_of props)
      else props !!! k.
Proof.
  unfold tooltip. rewrite ref_of_createElement, props_of_createElement.
  cbn [children_prop]. unfold tooltip_config. rewrite lookup_total_insert_eq. split; [done|].
  rewrite !lookup_total_alt, lookup_rest_props.
  case_decide as Hk; [done|].
  rewrite lookup_insert_ne by (intros <-; apply Hk; compute_done).
  repeat (case_decide; [subst; by rewrite ?lookup_insert_eq|
                        rewrite lookup_insert_ne by done]).
  rewrite lookup_rest_props, decide_False; [done|].
  rewrite !not_elem_of_cons. auto using not_elem_of_nil.
Qed.

(** The [Tooltip] is given the state as its [visible] prop. *)
Lemma tooltip_config_visible props ref v :
  tooltip_config props ref v !!! "visible" = v.
Proof.
  unfold tooltip_config.
  by rewrite lookup_total_insert_ne, lookup_total_insert_ne,
    lookup_total_insert_eq.
Qed.

Lemma get_tooltip_visible props ref v :
  props_of (tooltip props ref v) !!! "visible" = v.
Proof.
  unfold tooltip. rewrite get_createElement_plain by compute_done.
  apply tooltip_config_visible.
Qed.

(** The ref forwarded to the component is the ref of the [Tooltip]. *)
Lemma ref_of_tooltip props ref v :
  ref_of (tooltip props ref v) = if is_undefined ref then VNull else ref.
Proof.
  unfold tooltip, tooltip_config.
  by rewrite ref_of_createElement, lookup_total_insert_eq.
Qed.

(** The placement is read from the props and given back. *)
Lemma get_tooltip_placement props ref v :
  props_of (tooltip props ref v) !!! "placement" = props !!! "placement".
Proof.
  unfold tooltip, tooltip_config. rewrite get_createElement_plain by compute_done.
  do 4 rewrite lookup_total_insert_ne by done.
  apply lookup_total_insert_eq.
Qed.

(** A prop the component does not set itself reaches the [Tooltip] as the
    host gave it. *)
Lemma get_tooltip_passed props ref v k :
  k ∉ reserved_props →
  k ∉ ["overlay"; "visible"; "onVisibleChange"; "placement"; "prefixCls"] →
  props_of (tooltip props ref v) !!! k = props !!! k.
Proof.
  intros Hr Hk. unfold tooltip, tooltip_config.
  rewrite get_createElement_plain by done.
  rewrite lookup_total_insert_ne by (intros <-; apply Hr; compute_done).
  rewrite !lookup_total_insert_ne
    by (intros <-; apply Hk; repeat constructor).
  apply get_rest_props. intros Hin. apply Hk.
  repeat (apply elem_of_cons in Hin as [->|Hin]; [repeat constructor|]).
  by apply elem_of_nil in Hin.
Qed.

End tooltip.

(** ** The render *)

Section render.
Context `{!ConfigConsumer}.

Lemma effect_visible_pair props :
  effect_visible props setVisible =
    ((if has_key props "visible"
      then [SetState 0 (props !!! "visible")] else []), Ok ()).
Proof. apply when_emit. Qed.

Lemma effect_defaultVisible_pair props :
  effect_defaultVisible props setVisible =
    ((if has_key props "defaultVisible"
      then [SetState 0 (props !!! "defaultVisible")] else []), Ok ()).
Proof. apply when_emit. Qed.

(** C5.  One render pass of [Popconfirm] over the memory [mem]: the
    [Tooltip] it renders is given as [visible] the remembered state (or
    [props.visible] when the component mounts); the new memory holds that
    state and the dependencies [props.visible] and [props.defaultVisible];
    the first effect is scheduled iff [props.visible] changed, and the
    second, after it, iff [props.defaultVisible] changed. *)
Theorem render_Popconfirm props ref mem :
  let '(el, mem', effs) := render Popconfirm props ref mem in
  props_of el !!! "visible" = remembered mem (props !!! "visible")
  ∧ mem' = [StateSlot (remembered mem (props !!! "visible"));
            EffectSlot [props !!! "visible"];
            EffectSlot [props !!! "defaultVisible"]]
  ∧ effs =
      (if effect_due (tail mem) [props !!! "visible"]
       then [effect_visible props setVisible] else []) ++
      (if effect_due (tail (tail mem)) [props !!! "defaultVisible"]
       then [effect_defaultVisible props setVisible] else []).
Proof.
  unfold render, Popconfirm, mbind, hooks_bind, mret, hooks_ret, useState,
    useEffect.
  cbn -[tooltip effect_due]. rewrite get_tooltip_visible.
  by destruct (effect_due (tail mem) _), (effect_due (tail (tail mem)) _).
Qed.

(** The same pass as an equation, for the proofs about the life of an
    instance. *)
Lemma render_Popconfirm_eq props ref mem :
  render Popconfirm props ref mem =
    (tooltip props ref (remembered mem (props !!! "visible")),
     [StateSlot (remembered mem (props !!! "visible"));
      EffectSlot [props !!! "visible"];
      EffectSlot [props !!! "defaultVisible"]],
     (if effect_due (tail mem) [props !!! "visible"]
      then [effect_visible props setVisible] else []) ++
     (if effect_due (tail (tail mem)) [props !!! "defaultVisible"]
      then [effect_defaultVisible props setVisible] else [])).
Proof.
  unfold render, Popconfirm, mbind, hooks_bind, mret, hooks_ret, useState,
    useEffect.
  cbn -[tooltip effect_due].
  by destruct (effect_due (tail mem) _), (effect_due (tail (tail mem)) _).
Qed.

End render.

(** ** The overlay *)

Section overlay.
Context `{!ConfigConsumer, !LocaleReceiver, !HostFunctions}.
Implicit Types (props : obj) (s : string).

(** The [LocaleReceiver] is told the name of the component and the
    default locale. *)
Lemma overlay_props :
  props_of overlay !!! "componentName" = VStr "Popconfirm"
  ∧ props_of overlay !!! "defaultLocale" =
      VObj (locale_obj defaultLocale_Popconfirm).
Proof. split; by vm_compute. Qed.

(** What the popup shows is [renderOverlay] called with the prefix of the
    configuration context and with the locale the [LocaleReceiver] finds
    for the component name [Popconfirm], the default locale standing in
    where no provider has an entry. *)
Lemma rendered_overlay_eq props :
  rendered_overlay props =
    renderOverlay props (prefixCls_of props)
      (getLocale "Popconfirm" defaultLocale_Popconfirm).
Proof.
  unfold rendered_overlay, render_LocaleReceiver.
  destruct overlay_props as [-> ->]. by rewrite locale_of_obj.
Qed.

(** The labels the user reads: the text given as a prop ([okText],
    [cancelText]) when it is truthy, else the text of the locale the
    [LocaleReceiver] finds for [Popconfirm], which is the default locale
    ([OK], [Cancel]) where no provider has an entry. *)
Theorem rendered_overlay_labels props :
  label_of (cancel_button (rendered_overlay props)) =
    (props !!! "cancelText"
     || VStr (cancelText (getLocale "Popconfirm" defaultLocale_Popconfirm)))%js
  ∧ label_of (ok_button (rendered_overlay props)) =
    (props !!! "okText"
     || VStr (okText (getLocale "Popconfirm" defaultLocale_Popconfirm)))%js.
Proof.
  rewrite rendered_overlay_eq. unfold label_of, cancel_button, ok_button.
  rewrite buttons_renderOverlay. cbn [lookup_total list_lookup_total].
  by rewrite !get_createElement_child.
Qed.

(** A prefix given as a prop and not empty is the prefix of the popup,
    whatever the configuration context is. *)
Lemma prefixCls_of_custom props s :
  props !!! "prefixCls" = VStr s → s ≠ "" → prefixCls_of props = s.
Proof.
  intros Hp Hs. unfold prefixCls_of. rewrite Hp. by apply getPrefixCls_custom.
Qed.

(** A [prefixCls] given as a prop (and not empty) is used as it is,
    under every configuration context: it is the [prefixCls] of the
    [Tooltip] and the stem of the class of the overlay. *)
Theorem custom_prefix props ref v s :
  props !!! "prefixCls" = VStr s → s ≠ "" →
  props_of (tooltip props ref v) !!! "prefixCls" = VStr s
  ∧ props_of (rendered_overlay props) !!! "className" =
      VStr (s +:+ "-inner-content").
Proof.
  intros Hp Hs. split.
  - unfold tooltip, tooltip_config. rewrite get_createElement by compute_done.
    rewrite !lookup_total_insert_ne, lookup_total_insert_eq by done.
    by rewrite (prefixCls_of_custom props s).
  - rewrite rendered_overlay_eq. unfold renderOverlay.
    rewrite get_createElement, lookup_total_singleton by compute_done.
    by rewrite (prefixCls_of_custom props s).
Qed.

End overlay.

Lemma custom_prefix_witness :
  props_of (@tooltip default_config (<["prefixCls":=VStr "my-pop"]> open_props)
    VNull (VBool true)) !!! "prefixCls" = VStr "my-pop"
  ∧ props_of (@rendered_overlay default_config no_locale_provider no_render
      (<["prefixCls":=VStr "my-pop"]> open_props)) !!! "className" =
    VStr ("my-pop" +:+ "-inner-content").
Proof.
  apply (@custom_prefix default_config no_locale_provider no_render);
    [by vm_compute|done].
Defined.

(** The scenarios of the specification: with [okText="Yes"] and no locale
    provider the OK button reads [Yes]; with no [okText] and a provider
    whose entry is [OK] / [No] the buttons read [No] and [OK]. *)
Example label_explicit :
  label_of (ok_button (@rendered_overlay default_config no_locale_provider
    no_render (<["okText":=VStr "Yes"]> uncontrolled_props))) = VStr "Yes".
Proof. by vm_compute. Qed.

Example label_of_locale :
  let shown := @rendered_overlay default_config
    (locale_provider "Popconfirm" {| okText := "OK"; cancelText := "No" |})
    no_render uncontrolled_props in
  label_of (cancel_button shown) = VStr "No"
  ∧ label_of (ok_button shown) = VStr "OK".
Proof. by vm_compute. Qed.
