(* ===== verification/Lifecycle.v ===== *)
(** * An instance of the component over time

    The host mounts the component, renders it again with new props, and the
    collaborators it rendered ([Tooltip], the two [Button]s) call the
    closures they were given.  This file runs [Popconfirm] through React's
    cycle ([settle], [dispatch]) for each of these events, gives the result
    in closed form, and proves the invariants of the instances that can be
    reached. *)

From S2P Require Import Prelude JsValue Effects React Collaborators.
From S2P Require Import Props Handlers Overlay Popconfirm.

(** ** Vocabulary *)

(** The memory the component commits with [props] when its state is [v]. *)
Definition committed (props : obj) (v : value) : list slot :=
  [StateSlot v;
   EffectSlot [props !!! "visible"];
   EffectSlot [props !!! "defaultVisible"]].

(** The values the two effects write after a render with [props] over the
    memory [mem], in order. *)
Definition effect_writes (props : obj) (mem : list slot) : list value :=
  (if effect_due (tail mem) [props !!! "visible"] && has_key props "visible"
   then [props !!! "visible"] else []) ++
  (if effect_due (tail (tail mem)) [props !!! "defaultVisible"]
      && has_key props "defaultVisible"
   then [props !!! "defaultVisible"] else []).

(** The last of a list of writes, or the value that was there. *)
Definition last_write (v : value) (ws : list value) : value :=
  default v (last ws).

(** The state once the effects of a render with [props] over [mem] have
    been applied. *)
Definition next_visible (props : obj) (mem : list slot) : value :=
  last_write (remembered mem (props !!! "visible")) (effect_writes props mem).

(** The state after mounting: [props.defaultVisible] if that prop is given,
    else [props.visible]. *)
Definition initial_visible (props : obj) : value :=
  if has_key props "defaultVisible" then props !!! "defaultVisible"
  else props !!! "visible".

(** The state after a render with new props [props], when the previous
    render had the props [old] and the state was [v]: each effect runs only
    if its prop changed, and the effect of [defaultVisible] runs last. *)
Definition synced_visible (old props : obj) (v : value) : value :=
  if bool_decide (old !!! "defaultVisible" ≠ props !!! "defaultVisible")
     && has_key props "defaultVisible"
  then props !!! "defaultVisible"
  else if bool_decide (old !!! "visible" ≠ props !!! "visible")
          && has_key props "visible"
  then props !!! "visible"
  else v.

(** ** Instances and events *)

(** A mounted component: the props and ref of its last render, and its
    memory. *)
Record instance : Type := Instance {
  i_props : obj;
  i_ref : value;
  i_mem : list slot;
}.

(** What happens to an instance: the host renders it with new props, or a
    collaborator calls one of the closures of its last render. *)
Inductive event : Type :=
| NewProps (props : obj) (ref : value)
| Invoke (name : string) (args : list value).

(** Two render passes are enough for this component (see
    [settle_Popconfirm]). *)
Definition passes : nat := 2.

Section lifecycle.
Context `{!ConfigConsumer}.

(** The host mounts [<Popconfirm {...props} ref={ref} />]. *)
Definition mount (props : obj) (ref : value) : option (instance * settled) :=
  s ← settle passes Popconfirm props ref [];
  Some (Instance props ref (s_memory s), s).

(** One event on a mounted instance. *)
Definition step (i : instance) (ev : event) : option (instance * settled) :=
  match ev with
  | NewProps props ref =>
      s ← settle passes Popconfirm props ref (i_mem i);
      Some (Instance props ref (s_memory s), s)
  | Invoke name args =>
      s ← dispatch passes Popconfirm (i_props i) (i_ref i) (i_mem i)
             (closure_body (i_props i) name args);
      Some (Instance (i_props i) (i_ref i) (s_memory s), s)
  end.

(** The instances the host can reach by mounting and then by events, when
    every render and every event satisfies [allowed]. *)
Inductive reachable (allowed : event → Prop) : instance → Prop :=
| reachable_mount props ref i s :
    allowed (NewProps props ref) →
    mount props ref = Some (i, s) → reachable allowed i
| reachable_step i ev i' s :
    reachable allowed i → allowed ev →
    step i ev = Some (i', s) → reachable allowed i'.

(** A sequence of events, one after the other: the instance it leaves and
    the operations performed, in order. *)
Fixpoint run_events (i : instance) (evs : list event)
    : option (instance * list op) :=
  match evs with
  | [] => Some (i, [])
  | ev :: evs =>
      r ← step i ev;
      r' ← run_events r.1 evs;
      Some (r'.1, s_trace r.2 ++ r'.2)
  end.

(** A session: the component is mounted, then a sequence of events
    happens. *)
Definition session (props : obj) (ref : value) (evs : list event)
    : option (instance * list op) :=
  r ← mount props ref;
  r' ← run_events r.1 evs;
  Some (r'.1, s_trace r.2 ++ r'.2).

End lifecycle.

(** ** Examples *)

(** A popup that starts open ([defaultVisible]) under the default
    configuration, right after mounting. *)
Definition nowhere : instance * settled :=
  (Instance ∅ VUndef [], Settled [] [] [] None).

Definition mounted_open : instance * settled :=
  default nowhere (@mount default_config open_props VNull).

(** The same popup after the user clicked OK. *)
Definition confirmed : instance * settled :=
  default nowhere
    (@step default_config mounted_open.1 (Invoke "onConfirm" [VStr "click"])).

(** A controlled popup: mounted open, OK clicked, then closed by the host. *)
Definition controlled_session : list event :=
  [Invoke "onConfirm" [VStr "click"];
   NewProps (<["visible":=VBool false]> uncontrolled_props) VNull].

Definition controlled_closed : instance :=
  (default (nowhere.1, [])
     (@session default_config controlled_props VNull controlled_session)).1.

(** A controlled popup that is open, and what it becomes when the host
    adds [defaultVisible={false}] to its props. *)
Definition controlled_open : instance :=
  Instance controlled_props VNull (committed controlled_props (VBool true)).

Definition resynced_props : obj :=
  <["defaultVisible":=VBool false]> controlled_props.

(** The open popup rendered again with another title. *)
Definition retitled_props : obj := <["title":=VStr "Really?"]> open_props.

Definition retitled : instance * settled :=
  default nowhere
    (@step default_config mounted_open.1 (NewProps retitled_props VNull)).

(** The memory of an instance is the one its last render committed. *)
Definition instance_ok (i : instance) : Prop :=
  ∃ v, i_mem i = committed (i_props i) v.

(** The state an event leaves, from the state [v] of an instance whose
    props are [old]. *)
Definition visible_after (old : obj) (v : value) (ev : event) : value :=
  match ev with
  | NewProps props _ => synced_visible old props v
  | Invoke name args =>
      last_write v (writes 0 (trace (closure_body old name args)))
  end.

(** The events of a well-typed host and of the collaborators: props have
    their TypeScript types, and the tooltip requests a boolean. *)
Definition event_ok (ev : event) : Prop :=
  match ev with
  | NewProps props _ => PopconfirmProps_ok props = true
  | Invoke name args =>
      name = "onVisibleChange" → is_boolean (args !!! 0) = true
  end.

(** ** Effects and memory *)

Section memory.
Implicit Types (props : obj) (mem : list slot) (v : value) (ws : list value).

Lemma last_write_app v ws ws' :
  last_write v (ws ++ ws') = last_write (last_write v ws) ws'.
Proof.
  unfold last_write. destruct ws' as [|w ws' _] using rev_ind.
  - by rewrite app_nil_r.
  - by rewrite app_assoc, !last_snoc.
Qed.

(** State writes on a committed memory change its state and nothing
    else. *)
Lemma apply_op_committed props v o :
  apply_op (committed props v) o =
    committed props (last_write v (writes 0 [o])).
Proof. by destruct o as [[|[|[|i]]] x|f this args]. Qed.

Lemma apply_ops_committed props v t :
  apply_ops (committed props v) t = committed props (last_write v (writes 0 t)).
Proof.
  revert v. induction t as [|o t IH]; intros v; [done|].
  change (apply_ops (committed props v) (o :: t))
    with (apply_ops (apply_op (committed props v) o) t).
  rewrite apply_op_committed, IH.
  by rewrite <- last_write_app, <- writes_app.
Qed.

Lemma visible_of_committed props v : visible_of (committed props v) = v.
Proof. done. Qed.

Lemma committed_inj props v v' : committed props v = committed props v' → v = v'.
Proof. by intros [= ->]. Qed.

(** After a render the effects are not due again. *)
Lemma effect_due_committed props v :
  effect_due (tail (committed props v)) [props !!! "visible"] = false
  ∧ effect_due (tail (tail (committed props v))) [props !!! "defaultVisible"]
    = false.
Proof.
  split; simpl; apply bool_decide_eq_false_2; by intros [].
Qed.

Lemma effect_writes_committed props v : effect_writes props (committed props v) = [].
Proof.
  unfold effect_writes. by destruct (effect_due_committed props v) as [-> ->].
Qed.

End memory.

(** ** The cycle in closed form *)

Section cycle.
Context `{!ConfigConsumer}.
Implicit Types (props : obj) (mem : list slot) (ref v : value).

(** The effects of a render, run: they write [effect_writes] and return. *)
Lemma run_effects props mem :
  run_all
    ((if effect_due (tail mem) [props !!! "visible"]
      then [effect_visible props setVisible] else []) ++
     (if effect_due (tail (tail mem)) [props !!! "defaultVisible"]
      then [effect_defaultVisible props setVisible] else [])) =
  (SetState 0 <$> effect_writes props mem, Ok ()).
Proof.
  rewrite (run_all_app_ok _ _ _ (run_all_if _ _ _ (effect_visible_pair props))),
    (run_all_if _ _ _ (effect_defaultVisible_pair props)).
  unfold effect_writes. simpl.
  by destruct (effect_due (tail mem) _), (effect_due (tail (tail mem)) _),
    (has_key props "visible"), (has_key props "defaultVisible").
Qed.

(** A render over the memory a render with the same props committed. *)
Lemma settle_committed fuel props ref v :
  settle (S fuel) Popconfirm props ref (committed props v) =
    Some (Settled (committed props v) [tooltip props ref v] [] None).
Proof.
  eapply settle_stable.
  - apply render_Popconfirm_eq.
  - rewrite run_effects, effect_writes_committed. done.
  - done.
Qed.

(** [settle] in closed form: React renders the component once, or twice
    when the effects changed the state. *)
Lemma settle_Popconfirm_closed fuel props ref mem :
  settle (S (S fuel)) Popconfirm props ref mem =
    Some (Settled (committed props (next_visible props mem))
      (tooltip props ref (remembered mem (props !!! "visible")) ::
       if decide (next_visible props mem = remembered mem (props !!! "visible"))
       then [] else [tooltip props ref (next_visible props mem)])
      (SetState 0 <$> effect_writes props mem) None).
Proof.
  pose proof (render_Popconfirm_eq props ref mem) as Hr.
  pose proof (run_effects props mem) as He.
  fold (committed props (remembered mem (props !!! "visible"))) in Hr.
  assert (apply_ops (committed props (remembered mem (props !!! "visible")))
            (SetState 0 <$> effect_writes props mem) =
          committed props (next_visible props mem)) as Hm.
  { by rewrite apply_ops_committed, writes_fmap_SetState. }
  case_decide as Hv.
  - rewrite (settle_stable _ _ _ _ _ _ _ _ _ Hr He) by (by rewrite Hm, Hv).
    by rewrite Hv.
  - rewrite (settle_again _ _ _ _ _ _ _ _ _ Hr He)
      by (rewrite Hm; by intros ?%committed_inj).
    rewrite Hm, settle_committed. simpl. by rewrite app_nil_r.
Qed.

Lemma next_visible_mount props : next_visible props [] = initial_visible props.
Proof.
  unfold next_visible, effect_writes, initial_visible. simpl.
  by destruct (has_key props "visible"), (has_key props "defaultVisible").
Qed.

Lemma next_visible_committed old props v :
  next_visible props (committed old v) = synced_visible old props v.
Proof.
  unfold next_visible, effect_writes, synced_visible. simpl.
  rewrite !(bool_decide_ext _ _ (singleton_neq_iff _ _)).
  by destruct (bool_decide (old !!! "visible" ≠ _)),
    (bool_decide (old !!! "defaultVisible" ≠ _)),
    (has_key props "visible"), (has_key props "defaultVisible").
Qed.

(** An event handler on a committed memory: the writes reach the state,
    and the component renders once more if the state changed. *)
Lemma dispatch_Popconfirm props ref v (h : action unit) :
  dispatch passes Popconfirm props ref (committed props v) h =
    Some (Settled (committed props (last_write v (writes 0 (trace h))))
      (if decide (last_write v (writes 0 (trace h)) = v) then []
       else [tooltip props ref (last_write v (writes 0 (trace h)))])
      (trace h)
      (match h.2 with Ok _ => None | Throw e => Some e end)).
Proof.
  unfold dispatch. rewrite apply_ops_committed.
  destruct (decide (last_write v (writes 0 (trace h)) = v)) as [Hv|Hv].
  - rewrite decide_True by (by rewrite Hv). by rewrite Hv.
  - rewrite decide_False by (by intros ?%committed_inj).
    unfold passes. rewrite settle_committed. simpl.
    rewrite app_nil_r. by destruct (h.2).
Qed.

(** [mount] and [step] in closed form. *)
Lemma mount_closed props ref :
  mount props ref =
    Some (Instance props ref (committed props (initial_visible props)),
          Settled (committed props (initial_visible props))
            (tooltip props ref (props !!! "visible") ::
             if decide (initial_visible props = props !!! "visible")
             then [] else [tooltip props ref (initial_visible props)])
            (SetState 0 <$> effect_writes props []) None).
Proof.
  unfold mount, passes. rewrite settle_Popconfirm_closed. simpl.
  by rewrite next_visible_mount.
Qed.

Lemma step_closed i ev :
  instance_ok i →
  ∃ s, step i ev =
    Some (Instance
            (match ev with NewProps p _ => p | Invoke _ _ => i_props i end)
            (match ev with NewProps _ r => r | Invoke _ _ => i_ref i end)
            (committed
               (match ev with NewProps p _ => p | Invoke _ _ => i_props i end)
               (visible_after (i_props i) (visible_of (i_mem i)) ev)), s)
    ∧ s_trace s =
        match ev with
        | NewProps p _ => SetState 0 <$> effect_writes p (i_mem i)
        | Invoke name args => trace (closure_body (i_props i) name args)
        end.
Proof.
  intros [v Hi]. rewrite Hi, visible_of_committed.
  destruct ev as [props ref|name args]; unfold step, passes.
  - rewrite Hi, settle_Popconfirm_closed, next_visible_committed.
    cbn [mbind option_bind s_memory]. eauto.
  - fold passes. rewrite Hi, dispatch_Popconfirm.
    cbn [mbind option_bind s_memory]. eauto.
Qed.

(** New props, in closed form. *)
Lemma step_NewProps i props ref v :
  i_mem i = committed (i_props i) v →
  let v' := synced_visible (i_props i) props v in
  step i (NewProps props ref) =
    Some (Instance props ref (committed props v'),
          Settled (committed props v')
            (tooltip props ref v ::
             if decide (v' = v) then [] else [tooltip props ref v'])
            (SetState 0 <$> effect_writes props (i_mem i)) None).
Proof.
  intros Hi. cbv zeta. unfold step, passes.
  rewrite settle_Popconfirm_closed, Hi, next_visible_committed.
  done.
Qed.

(** A call of a closure, in closed form. *)
Lemma step_Invoke i name args v :
  i_mem i = committed (i_props i) v →
  let h := closure_body (i_props i) name args in
  let v' := last_write v (writes 0 (trace h)) in
  step i (Invoke name args) =
    Some (Instance (i_props i) (i_ref i) (committed (i_props i) v'),
          Settled (committed (i_props i) v')
            (if decide (v' = v) then [] else [tooltip (i_props i) (i_ref i) v'])
            (trace h)
            (match h.2 with Ok _ => None | Throw e => Some e end)).
Proof. intros Hi. cbv zeta. unfold step. by rewrite Hi, dispatch_Popconfirm. Qed.

End cycle.

(** ** What an event does to an instance *)

Section steps.
Context `{!ConfigConsumer}.
Implicit Types (i : instance) (ev : event) (props : obj).

Lemma mount_inv props ref i s :
  mount props ref = Some (i, s) →
  i = Instance props ref (committed props (initial_visible props)).
Proof. rewrite mount_closed. by intros [= <- _]. Qed.

Lemma mount_instance_ok props ref i s :
  mount props ref = Some (i, s) → instance_ok i.
Proof. intros ->%mount_inv. by eexists. Qed.

(** The props and the state after an event. *)
Lemma step_inv i ev i' s :
  instance_ok i → step i ev = Some (i', s) →
  i_props i' = match ev with NewProps p _ => p | Invoke _ _ => i_props i end
  ∧ i_mem i' = committed (i_props i')
                 (visible_after (i_props i) (visible_of (i_mem i)) ev).
Proof.
  intros Hi Hs. destruct (step_closed i ev Hi) as (s' & Hs' & _).
  rewrite Hs' in Hs. by injection Hs as <- _.
Qed.

Lemma step_instance_ok i ev i' s :
  instance_ok i → step i ev = Some (i', s) → instance_ok i'.
Proof. intros Hi Hs. destruct (step_inv _ _ _ _ Hi Hs) as [_ ?]. by eexists. Qed.

Lemma step_visible i ev i' s :
  instance_ok i → step i ev = Some (i', s) →
  visible_of (i_mem i') = visible_after (i_props i) (visible_of (i_mem i)) ev.
Proof. intros Hi Hs. by destruct (step_inv _ _ _ _ Hi Hs) as [_ ->]. Qed.

Lemma step_trace i ev i' s :
  instance_ok i → step i ev = Some (i', s) →
  s_trace s =
    match ev with
    | NewProps p _ => SetState 0 <$> effect_writes p (i_mem i)
    | Invoke name args => trace (closure_body (i_props i) name args)
    end.
Proof.
  intros Hi Hs. destruct (step_closed i ev Hi) as (s' & Hs' & Ht).
  rewrite Hs' in Hs. by injection Hs as _ <-.
Qed.

(** The instances of a session are reachable. *)
Lemma run_events_reachable allowed i evs i' t :
  reachable allowed i → Forall allowed evs →
  run_events i evs = Some (i', t) → reachable allowed i'.
Proof.
  intros Hi Hevs. revert i t Hi.
  induction Hevs as [|ev evs Hev _ IH]; intros i t Hi; simpl.
  - by intros [= <- _].
  - destruct (step i ev) as [[i1 s1]|] eqn:E; [|done]. simpl.
    destruct (run_events i1 evs) as [[i2 t2]|] eqn:E2; [|done]. simpl.
    intros [= <- _]. eapply IH; [|done]. by eapply reachable_step.
Qed.

Lemma session_reachable allowed props ref evs i t :
  allowed (NewProps props ref) → Forall allowed evs →
  session props ref evs = Some (i, t) → reachable allowed i.
Proof.
  intros Hp Hevs. unfold session.
  destruct (mount props ref) as [[i0 s0]|] eqn:E; [|done]. simpl.
  destruct (run_events i0 evs) as [[i1 t1]|] eqn:E1; [|done]. simpl.
  intros [= <- _]. eapply run_events_reachable; [|done..].
  by eapply reachable_mount.
Qed.

(** Sessions are total: no event of an instance fails to settle. *)
Lemma run_events_total i evs : instance_ok i → is_Some (run_events i evs).
Proof.
  revert i. induction evs as [|ev evs IH]; intros i Hi; cbn [run_events].
  - by eexists.
  - destruct (step_closed i ev Hi) as (s & -> & _). cbn.
    match goal with |- context [run_events ?j evs] =>
      by destruct (IH j) as [r' ->]; [eexists|eexists] end.
Qed.

Lemma session_total props ref evs : is_Some (session props ref evs).
Proof.
  unfold session. rewrite mount_closed. cbn.
  match goal with |- context [run_events ?j evs] =>
    by destruct (run_events_total j evs) as [r ->]; [eexists|eexists] end.
Qed.

(** The state writes of the closures. *)
Lemma writes_close props cb e :
  writes 0 (trace
    (_ ← settingVisible props setVisible (VBool false) e;
     when (truthy (props !!! cb)) (call (props !!! cb) VUndef [e]))) =
  if has_key props "visible" then [] else [VBool false].
Proof.
  rewrite close_then_cases.
  destruct (callable_or_falsy (props !!! "onVisibleChange")); unfold trace;
    simpl; by autorewrite with js; rewrite ?app_nil_r.
Qed.

Lemma writes_closure_body props name args :
  writes 0 (trace (closure_body props name args)) =
    if decide (name = "onConfirm" ∨ name = "onCancel")
    then if has_key props "visible" then [] else [VBool false]
    else if decide (name = "onVisibleChange")
    then if truthy (props !!! "disabled") || has_key props "visible"
         then [] else [args !!! 0]
    else [].
Proof.
  unfold closure_body, closure, onConfirm, onCancel.
  destruct (decide (name = "onConfirm")) as [->|?];
    [by rewrite writes_close, decide_True by auto|].
  destruct (decide (name = "onCancel")) as [->|?];
    [by rewrite writes_close, decide_True by auto|].
  destruct (decide (name = "onConfirm" ∨ name = "onCancel")) as [[?|?]|_];
    [done..|].
  case_decide; [|done].
  rewrite onVisibleChange_pair.
  destruct (truthy (props !!! "disabled")); [done|]. unfold trace. simpl.
  by autorewrite with js; rewrite ?app_nil_r.
Qed.

End steps.

(** ** Types *)

Section types.
Implicit Types (props old : obj) (v : value) (ev : event).

Lemma state_ok_prop props k :
  optional is_boolean props k = true → PopconfirmState_ok (props !!! k) = true.
Proof. done. Qed.

Lemma initial_visible_ok props :
  PopconfirmProps_ok props = true →
  PopconfirmState_ok (initial_visible props) = true.
Proof.
  intros Hty. unfold initial_visible.
  destruct (has_key props "defaultVisible");
    apply state_ok_prop; auto with popconfirm.
Qed.

Lemma synced_visible_ok old props v :
  PopconfirmProps_ok props = true → PopconfirmState_ok v = true →
  PopconfirmState_ok (synced_visible old props v) = true.
Proof.
  intros Hty Hv. unfold synced_visible.
  repeat case_bool; try done; apply state_ok_prop; auto with popconfirm.
Qed.

Lemma visible_after_ok old v ev :
  event_ok ev → PopconfirmState_ok v = true →
  PopconfirmState_ok (visible_after old v ev) = true.
Proof.
  destruct ev as [props ref|name args]; simpl; intros Hev Hv.
  - by apply synced_visible_ok.
  - rewrite writes_closure_body.
    repeat (case_decide || case_bool); try done.
    unfold last_write. simpl. unfold PopconfirmState_ok.
    by rewrite Hev, orb_true_r.
Qed.

End types.

(** ** Properties of the life cycle *)

Section properties.
Context `{!ConfigConsumer}.
Implicit Types (i : instance) (ev : event) (props : obj).

(** C30.  Two render passes are always enough: from any memory and any
    props, React comes to rest after rendering [Popconfirm] at most twice
    (the effects of the second pass never run). *)
Theorem settle_Popconfirm_total props ref mem :
  is_Some (settle passes Popconfirm props ref mem).
Proof. unfold passes. rewrite settle_Popconfirm_closed. eauto. Qed.

(** C20.  After mounting, the state is [props.defaultVisible] when that
    prop is given (even if [visible] is given too), and [props.visible]
    otherwise. *)
Theorem mount_visible props ref :
  ∃ i s, mount props ref = Some (i, s)
    ∧ i_props i = props ∧ visible_of (i_mem i) = initial_visible props.
Proof. rewrite mount_closed. by eexists _, _. Qed.

(** C40.  The first element committed when the component mounts shows
    [props.visible], not the default: [defaultVisible] reaches the state
    only through the effect, and the element of a second render. *)
Theorem mount_frames props ref :
  ∃ i s, mount props ref = Some (i, s)
    ∧ s_frames s =
        tooltip props ref (props !!! "visible") ::
        if decide (initial_visible props = props !!! "visible") then []
        else [tooltip props ref (initial_visible props)].
Proof. rewrite mount_closed. by eexists _, _. Qed.

(** Every reachable instance holds the memory its last render
    committed: the state, then the values of [props.visible] and
    [props.defaultVisible] of the current props. *)
Theorem reachable_instance_ok allowed i :
  reachable allowed i → instance_ok i.
Proof.
  induction 1; eauto using mount_instance_ok, step_instance_ok.
Qed.

(** Every event on a reachable instance is handled: the step
    function returns (React does not run out of render passes). *)
Theorem step_total allowed i ev :
  reachable allowed i → is_Some (step i ev).
Proof.
  intros Hi%reachable_instance_ok.
  destruct (step_closed i ev Hi) as (s & -> & _). eauto.
Qed.

(** C31.  For a well-typed host the state always has the type of
    [PopconfirmState.visible]: it is [undefined] or a boolean in every
    reachable instance. *)
Theorem reachable_state_ok i :
  reachable event_ok i → PopconfirmState_ok (visible_of (i_mem i)) = true.
Proof.
  induction 1 as [props ref i s Hev Hm|i ev i' s Hr IH Hev Hs].
  - apply mount_inv in Hm as ->. by apply initial_visible_ok.
  - rewrite (step_visible _ _ _ _ (reachable_instance_ok _ _ Hr) Hs).
    by apply visible_after_ok.
Qed.

(** In uncontrolled mode the popup is closed right after a click on
    either button: after [onConfirm] or [onCancel] the state is [false],
    whatever the callbacks are. *)
Theorem click_closes i name args i' s :
  instance_ok i → has_key (i_props i) "visible" = false →
  name = "onConfirm" ∨ name = "onCancel" →
  step i (Invoke name args) = Some (i', s) →
  visible_of (i_mem i') = VBool false.
Proof.
  intros Hi Hu Hn Hs. rewrite (step_visible _ _ _ _ Hi Hs). simpl.
  by rewrite writes_closure_body, decide_True, Hu.
Qed.

(** An exception in a handler does not undo its state write: when
    [props.onVisibleChange] is truthy and not a function, a click on OK in
    uncontrolled mode still settles, the popup is closed, the host has been
    called with nothing, and the event reports the [TypeError]. *)
Theorem throwing_click_closes i e :
  instance_ok i → has_key (i_props i) "visible" = false →
  truthy (i_props i !!! "onVisibleChange") = true →
  is_function (i_props i !!! "onVisibleChange") = false →
  ∃ i' s, step i (Invoke "onConfirm" [e]) = Some (i', s)
    ∧ visible_of (i_mem i') = VBool false
    ∧ calls (s_trace s) = []
    ∧ s_error s = Some (NotCallable (i_props i !!! "onVisibleChange")).
Proof.
  intros [v Hi] Hu Ht Hf. rewrite (step_Invoke _ _ _ _ Hi).
  eexists _, _. split; [done|].
  cbn [i_mem s_trace s_error]. rewrite visible_of_committed.
  unfold closure_body, closure. rewrite decide_True by done. unfold onConfirm.
  rewrite settingVisible_throws by done. unfold state_write. by rewrite Hu.
Qed.

(** With [disabled] set, a visibility request of the tooltip leaves
    the instance as it is, commits nothing and calls nothing. *)
Theorem disabled_ignored i args :
  instance_ok i → truthy (i_props i !!! "disabled") = true →
  step i (Invoke "onVisibleChange" args) =
    Some (i, Settled (i_mem i) [] [] None).
Proof.
  intros [v Hi] Hd. destruct i as [props ref mem]. simpl in *. subst mem.
  rewrite dispatch_Popconfirm.
  unfold closure_body, closure. simpl. rewrite onVisibleChange_pair, Hd.
  change (last_write v (writes 0 (trace ([], Ok ())))) with v.
  by rewrite decide_True.
Qed.

(** C22.  A controlled popup shows what the host says: if every render
    passes [visible] and none passes [defaultVisible], the state is
    [props.visible] in every reachable instance, whatever was clicked. *)
Theorem controlled_tracks_prop i :
  reachable (λ ev, match ev with
                   | NewProps p _ => has_key p "visible" = true
                                     ∧ has_key p "defaultVisible" = false
                   | Invoke _ _ => True
                   end) i →
  has_key (i_props i) "visible" = true
  ∧ has_key (i_props i) "defaultVisible" = false
  ∧ visible_of (i_mem i) = i_props i !!! "visible".
Proof.
  induction 1 as [props ref i s [Hv Hd] Hm|i ev i' s Hr (Hv & Hd & IH) Hev Hs].
  - apply mount_inv in Hm as ->. simpl. unfold initial_visible. by rewrite Hd.
  - pose proof (reachable_instance_ok _ _ Hr) as Hi.
    destruct (step_inv _ _ _ _ Hi Hs) as [Hp Hm]. rewrite Hm, Hp.
    destruct ev as [p r|name args]; simpl.
    + destruct Hev as [Hv' Hd']. repeat split; [done..|].
      unfold synced_visible. rewrite Hd', Hv', andb_false_r, andb_true_r, IH.
      by case_bool_decide as E.
    + repeat split; [done..|].
      rewrite writes_closure_body, Hv, orb_true_r. by repeat case_decide.
Qed.

(** C38.  New props whose [defaultVisible] differs from the previous
    render's reset the state to it, long after mounting and even when
    [visible] is given as well. *)
Theorem defaultVisible_resync i props ref :
  instance_ok i → has_key props "defaultVisible" = true →
  i_props i !!! "defaultVisible" ≠ props !!! "defaultVisible" →
  ∃ i' s, step i (NewProps props ref) = Some (i', s)
    ∧ visible_of (i_mem i') = props !!! "defaultVisible".
Proof.
  intros [v Hi] Hd Hne. rewrite (step_NewProps _ _ _ _ Hi). cbv zeta.
  eexists _, _. split; [done|]. cbn [i_mem]. rewrite visible_of_committed.
  unfold synced_visible. by rewrite Hd, bool_decide_eq_true_2.
Qed.

(** C39.  The mode may change during the life of an instance, and the
    component goes on: new props that take control ([visible] given where
    it was not) set the state to [props.visible], unless that is
    [undefined], in which case the state stays as it was; new props that
    drop control leave the state as it was.  ([defaultVisible] is as it
    was.) *)
Theorem mode_change i props ref :
  instance_ok i →
  has_key props "visible" = negb (has_key (i_props i) "visible") →
  props !!! "defaultVisible" = i_props i !!! "defaultVisible" →
  ∃ i' s, step i (NewProps props ref) = Some (i', s)
    ∧ visible_of (i_mem i') =
        if has_key props "visible" && negb (is_undefined (props !!! "visible"))
        then props !!! "visible" else visible_of (i_mem i).
Proof.
  intros [v Hi] Hk Hd. rewrite (step_NewProps _ _ _ _ Hi). cbv zeta.
  eexists _, _. split; [done|]. cbn [i_mem].
  rewrite Hi, !visible_of_committed. unfold synced_visible.
  rewrite Hd, (bool_decide_eq_false_2 (_ ≠ _)) by (by intros []).
  destruct (has_key props "visible"); [|by rewrite andb_false_r].
  rewrite (get_absent (i_props i) "visible") by (by apply negb_true_iff).
  rewrite !andb_true_r. case_bool_decide as E.
  - by destruct (props !!! "visible").
  - by rewrite <- E.
Qed.

(** New props that keep [visible] and [defaultVisible] as they were
    keep the state and run no effect. *)
Theorem rerender_keeps_state i props ref i' s :
  instance_ok i →
  props !!! "visible" = i_props i !!! "visible" →
  props !!! "defaultVisible" = i_props i !!! "defaultVisible" →
  step i (NewProps props ref) = Some (i', s) →
  visible_of (i_mem i') = visible_of (i_mem i) ∧ s_trace s = [].
Proof.
  intros Hi Hv Hd Hs. split.
  - rewrite (step_visible _ _ _ _ Hi Hs). simpl. unfold synced_visible.
    by rewrite Hv, Hd, !bool_decide_eq_false_2 by (by intros []).
  - rewrite (step_trace _ _ _ _ Hi Hs). destruct Hi as [v ->].
    unfold effect_writes. simpl. rewrite Hv, Hd.
    by rewrite !bool_decide_eq_false_2 by (by intros []).
Qed.

End properties.

(** ** The properties on the examples *)

Lemma mounted_open_eq :
  @mount default_config open_props VNull = Some (mounted_open.1, mounted_open.2).
Proof. by vm_compute. Qed.

Lemma confirmed_eq :
  @step default_config mounted_open.1 (Invoke "onConfirm" [VStr "click"]) =
    Some (confirmed.1, confirmed.2).
Proof. by vm_compute. Qed.

Lemma mounted_open_ok : instance_ok mounted_open.1.
Proof. by exists (VBool true). Qed.

Lemma mount_visible_witness :
  ∃ i s, @mount default_config open_props VNull = Some (i, s)
    ∧ i_props i = open_props
    ∧ visible_of (i_mem i) = initial_visible open_props.
Proof. exact (@mount_visible default_config open_props VNull). Defined.

Lemma mount_frames_witness :
  ∃ i s, @mount default_config open_props VNull = Some (i, s)
    ∧ s_frames s =
        @tooltip default_config open_props VNull (open_props !!! "visible") ::
        if decide (initial_visible open_props = open_props !!! "visible")
        then []
        else [@tooltip default_config open_props VNull
                (initial_visible open_props)].
Proof. exact (@mount_frames default_config open_props VNull). Defined.

(** The two frames of the popup that starts open: the first one hidden. *)
Example mount_frames_open :
  s_frames mounted_open.2 =
    [@tooltip default_config open_props VNull VUndef;
     @tooltip default_config open_props VNull (VBool true)].
Proof. by vm_compute. Qed.

Lemma confirmed_reachable : @reachable default_config event_ok confirmed.1.
Proof.
  apply reachable_step with mounted_open.1 (Invoke "onConfirm" [VStr "click"])
    confirmed.2; [|by intros [=]|apply confirmed_eq].
  apply reachable_mount with open_props VNull mounted_open.2;
    [by vm_compute|apply mounted_open_eq].
Qed.

Lemma reachable_instance_ok_witness : instance_ok confirmed.1.
Proof.
  exact (@reachable_instance_ok default_config _ _ confirmed_reachable).
Defined.

Lemma step_total_witness :
  is_Some (@step default_config confirmed.1 (Invoke "onVisibleChange" [VBool true])).
Proof.
  exact (@step_total default_config _ _ _ confirmed_reachable).
Defined.

Lemma reachable_state_ok_witness :
  PopconfirmState_ok (visible_of (i_mem confirmed.1)) = true.
Proof.
  exact (@reachable_state_ok default_config _ confirmed_reachable).
Defined.

Lemma click_closes_witness : visible_of (i_mem confirmed.1) = VBool false.
Proof.
  apply (@click_closes default_config mounted_open.1 "onConfirm"
           [VStr "click"] confirmed.1 confirmed.2).
  - apply mounted_open_ok.
  - by vm_compute.
  - by left.
  - apply confirmed_eq.
Defined.

Lemma throwing_click_closes_witness :
  ∃ i' s,
    @step default_config
      (Instance (<["onVisibleChange":=VNum 1]> open_props) VNull
         (committed (<["onVisibleChange":=VNum 1]> open_props) (VBool true)))
      (Invoke "onConfirm" [VNull]) = Some (i', s)
    ∧ visible_of (i_mem i') = VBool false
    ∧ calls (s_trace s) = []
    ∧ s_error s =
        Some (NotCallable
                (<["onVisibleChange":=VNum 1]> open_props !!! "onVisibleChange")).
Proof.
  refine (@throwing_click_closes default_config
           (Instance (<["onVisibleChange":=VNum 1]> open_props) VNull
              (committed (<["onVisibleChange":=VNum 1]> open_props) (VBool true)))
           VNull _ _ _ _).
  - by eexists.
  - by vm_compute.
  - by vm_compute.
  - by vm_compute.
Defined.

Lemma disabled_ignored_witness :
  @step default_config
    (Instance (<["disabled":=VBool true]> open_props) VNull
       (committed (<["disabled":=VBool true]> open_props) (VBool true)))
    (Invoke "onVisibleChange" [VBool false]) =
  Some (Instance (<["disabled":=VBool true]> open_props) VNull
          (committed (<["disabled":=VBool true]> open_props) (VBool true)),
        Settled (committed (<["disabled":=VBool true]> open_props) (VBool true))
          [] [] None).
Proof.
  apply (@disabled_ignored default_config
           (Instance (<["disabled":=VBool true]> open_props) VNull
              (committed (<["disabled":=VBool true]> open_props) (VBool true)))).
  - by exists (VBool true).
  - by vm_compute.
Defined.

Lemma controlled_closed_reachable :
  @reachable default_config
    (λ ev, match ev with
           | NewProps p _ => has_key p "visible" = true
                             ∧ has_key p "defaultVisible" = false
           | Invoke _ _ => True
           end) controlled_closed.
Proof.
  apply session_reachable with controlled_props VNull controlled_session
    (default (nowhere.1, [])
       (@session default_config controlled_props VNull controlled_session)).2.
  - by vm_compute.
  - repeat constructor; by vm_compute.
  - by vm_compute.
Qed.

Lemma controlled_tracks_prop_witness :
  has_key (i_props controlled_closed) "visible" = true
  ∧ has_key (i_props controlled_closed) "defaultVisible" = false
  ∧ visible_of (i_mem controlled_closed) = i_props controlled_closed !!! "visible".
Proof.
  exact (@controlled_tracks_prop default_config _ controlled_closed_reachable).
Defined.

Lemma defaultVisible_resync_witness :
  ∃ i' s,
    @step default_config controlled_open (NewProps resynced_props VNull) =
      Some (i', s)
    ∧ visible_of (i_mem i') = resynced_props !!! "defaultVisible".
Proof.
  apply (@defaultVisible_resync default_config controlled_open
           resynced_props VNull).
  - by exists (VBool true).
  - by vm_compute.
  - by vm_compute.
Defined.

Lemma rerender_keeps_state_witness :
  visible_of (i_mem retitled.1) = visible_of (i_mem mounted_open.1)
  ∧ s_trace retitled.2 = [].
Proof.
  apply (@rerender_keeps_state default_config mounted_open.1
           retitled_props VNull retitled.1 retitled.2).
  - apply mounted_open_ok.
  - by vm_compute.
  - by vm_compute.
  - by vm_compute.
Defined.

Lemma mode_change_witness :
  ∃ i' s,
    @step default_config controlled_open (NewProps uncontrolled_props VNull) =
      Some (i', s)
    ∧ visible_of (i_mem i') =
        if has_key uncontrolled_props "visible"
           && negb (is_undefined (uncontrolled_props !!! "visible"))
        then uncontrolled_props !!! "visible"
        else visible_of (i_mem controlled_open).
Proof.
  refine (@mode_change default_config controlled_open uncontrolled_props VNull
            _ _ _); [by exists (VBool true)|by vm_compute..].
Defined.
