(* ===== verification/Bounds.v ===== *)
(** * What an event can cost

    The component has no loop of its own; the only loop is React's, which
    renders again while effects write the state ([settle]).  This file
    bounds what one event and what a whole session can cost: the number of
    render passes (at most [passes]), of state writes and of calls of the
    host's callbacks.  The bounds hold for every props object, well typed
    or not: a handler that throws has done less, never more. *)

From S2P Require Import Prelude JsValue Effects React Collaborators.
From S2P Require Import Props Handlers Overlay Popconfirm Lifecycle.

(** The cost of a trace: its state writes and its calls of the host. *)
Definition cost (t : list op) : nat * nat :=
  (length (writes 0 t), length (calls t)).

(** A cost within a budget of writes and calls. *)
Definition within (c budget : nat * nat) : Prop :=
  c.1 ≤ budget.1 ∧ c.2 ≤ budget.2.

(** The budget of [n] events after mounting: the two effects may write at
    the mount and at each new props, a handler writes at most once and calls
    at most two callbacks. *)
Definition session_budget (n : nat) : nat * nat := (2 * S n, 2 * n).

(** ** Traces *)

Section traces.
Implicit Types (props : obj) (t u : list op) (mem : list slot).

Lemma cost_app t u :
  cost (t ++ u) = ((cost t).1 + (cost u).1, (cost t).2 + (cost u).2).
Proof. unfold cost. by rewrite writes_app, calls_app, !length_app. Qed.

Lemma within_app t u a b a' b' :
  within (cost t) (a, b) → within (cost u) (a', b') →
  within (cost (t ++ u)) (a + a', b + b').
Proof. rewrite cost_app. unfold within. simpl. lia. Qed.

Lemma within_weaken c a b a' b' :
  within c (a, b) → a ≤ a' → b ≤ b' → within c (a', b').
Proof. unfold within. simpl. lia. Qed.

Lemma cost_state_write props vis : within (cost (state_write props vis)) (1, 0).
Proof. unfold state_write. by destruct (has_key props "visible"); compute; lia. Qed.

Lemma cost_notify props cb this args :
  within (cost (notify props cb this args)) (0, 1).
Proof.
  unfold notify, callback_call.
  by destruct (is_function (props !!! cb)); compute; lia.
Qed.

Lemma cost_effect_writes props mem :
  within (cost (SetState 0 <$> effect_writes props mem)) (2, 0).
Proof.
  unfold cost, within. rewrite writes_fmap_SetState, calls_fmap_SetState.
  unfold effect_writes. rewrite length_app. simpl.
  repeat match goal with |- context [if ?b then _ else _] => destruct b end;
    simpl; lia.
Qed.

(** Closing by a button: one write, two calls, whether or not it throws. *)
Lemma cost_close props cb e :
  within (cost (trace
    (_ ← settingVisible props setVisible (VBool false) e;
     when (truthy (props !!! cb)) (call (props !!! cb) VUndef [e])))) (1, 2).
Proof.
  rewrite close_then_cases.
  destruct (callable_or_falsy (props !!! "onVisibleChange")); cbn [trace fst].
  - apply (within_app _ _ 1 0 0 2); [apply cost_state_write|].
    apply (within_app _ _ 0 1 0 1); apply cost_notify.
  - eapply within_weaken; [apply cost_state_write|lia..].
Qed.

Lemma cost_closure_body props name args :
  within (cost (trace (closure_body props name args))) (1, 2).
Proof.
  unfold closure_body, closure. repeat case_decide; try apply cost_close.
  - rewrite onVisibleChange_pair.
    destruct (truthy (props !!! "disabled")); cbn [trace fst].
    + compute. lia.
    + apply (within_app _ _ 1 0 0 2); [apply cost_state_write|].
      eapply within_weaken; [apply cost_notify|lia..].
  - compute. lia.
Qed.

End traces.

(** ** Events and sessions *)

Section events.
Context `{!ConfigConsumer}.
Implicit Types (i : instance) (ev : event) (evs : list event).

(** One event: it settles within [passes] render passes, two state writes
    and two calls. *)
Lemma step_bounded i ev :
  instance_ok i →
  ∃ i' s, step i ev = Some (i', s)
    ∧ instance_ok i'
    ∧ length (s_frames s) ≤ passes
    ∧ within (cost (s_trace s)) (2, 2).
Proof.
  intros [v Hi]. destruct ev as [props ref|name args].
  - rewrite (step_NewProps _ _ _ _ Hi). cbv zeta. eexists _, _.
    split; [done|]. cbn [s_frames s_trace]. split; [by eexists|]. split.
    + case_decide; simpl; unfold passes; lia.
    + eapply within_weaken; [apply cost_effect_writes|lia..].
  - rewrite (step_Invoke _ _ _ _ Hi). cbv zeta. eexists _, _.
    split; [done|]. cbn [s_frames s_trace]. split; [by eexists|]. split.
    + case_decide; simpl; unfold passes; lia.
    + eapply within_weaken; [apply cost_closure_body|lia..].
Qed.

(** A sequence of events costs at most two writes and two calls each. *)
Lemma run_events_bounded i evs :
  instance_ok i →
  ∃ i' t, run_events i evs = Some (i', t)
    ∧ within (cost t) (2 * length evs, 2 * length evs).
Proof.
  revert i. induction evs as [|ev evs IH]; intros i Hi; cbn [run_events].
  - eexists _, _. split; [done|]. compute. lia.
  - destruct (step_bounded i ev Hi) as (i1 & s1 & -> & Hi1 & _ & Hc). cbn.
    destruct (IH i1 Hi1) as (i2 & t2 & -> & Hc2). cbn.
    eexists _, _. split; [done|].
    eapply within_weaken; [by apply within_app|simpl; lia..].
Qed.

(** C28.  No event makes the component render for ever or flood its host:
    every event on an instance settles within [passes] (two) render passes,
    with at most two state writes and at most two calls of the host's
    callbacks, whatever the props are. *)
Theorem step_bounds i ev :
  instance_ok i →
  ∃ i' s, step i ev = Some (i', s)
    ∧ length (s_frames s) ≤ passes
    ∧ within (cost (s_trace s)) (2, 2).
Proof.
  intros Hi. destruct (step_bounded i ev Hi) as (i' & s & ? & _ & ?). eauto.
Qed.

(** A session of [n] events after the mount always settles, and costs
    at most [2 (n + 1)] state writes and [2 n] calls of the host's
    callbacks, whatever the props and the events are. *)
Theorem session_bounds props ref evs :
  ∃ i t, session props ref evs = Some (i, t)
    ∧ within (cost t) (session_budget (length evs)).
Proof.
  unfold session. rewrite mount_closed. cbn.
  match goal with |- context [run_events ?j evs] =>
    destruct (run_events_bounded j evs) as (i & t & -> & Hc); [by eexists|] end.
  cbn. eexists _, _. split; [done|]. unfold session_budget.
  eapply within_weaken;
    [exact (within_app _ _ 2 0 _ _ (cost_effect_writes props []) Hc)|lia..].
Qed.

End events.

(** ** The bounds on the examples *)

Lemma step_bounds_witness :
  ∃ i' s,
    @step default_config mounted_open.1 (Invoke "onConfirm" [VStr "click"]) =
      Some (i', s)
    ∧ length (s_frames s) ≤ passes
    ∧ within (cost (s_trace s)) (2, 2).
Proof.
  exact (@step_bounds default_config mounted_open.1
           (Invoke "onConfirm" [VStr "click"]) mounted_open_ok).
Defined.

(** The bound on the calls is reached: a click on OK calls two callbacks. *)
Example calls_bound_reached :
  (cost (s_trace confirmed.2)).2 = 2.
Proof. by vm_compute. Qed.
