(* ===== verification/Host.v ===== *)
(** * The host in the loop

    In controlled mode the component does not write its state: it tells the
    host, and shows what the host passes as [visible] on the next render.
    What the user sees then depends on the host.  This file closes the
    loop: a host is a state, the props it renders the popup with, and its
    reaction to each call of a callback it passed; an event on the popup is
    followed by the reactions of the host and by a render with the props of
    its new state.  The host that echoes [onVisibleChange] into [visible]
    (the documented way to control the popup) is proved to give the user
    the uncontrolled popup; a host that does not listen keeps the popup as
    it is.  The callbacks of the hosts of this file return; [Callbacks]
    has the hosts whose callbacks may throw. *)

From S2P Require Import Prelude JsValue Effects React Collaborators.
From S2P Require Import Props Handlers Overlay Popconfirm Lifecycle.

(** ** Hosts *)

(** A host application around one popup. *)
Record app (St : Type) : Type := App {
  app_props : St → obj;
  app_on : St → op → St;
}.
Arguments App {St} _ _.
Arguments app_props {St} _ _.
Arguments app_on {St} _ _ _.

(** The host has received the calls of a trace, in order. *)
Definition deliver {St : Type} (a : app St) (s : St) (t : list op) : St :=
  foldl (app_on a) s (calls t).

(** What the host hears: the callbacks called and their arguments. *)
Definition heard (t : list op) : list (value * list value) :=
  omap (λ o, match o with
             | Call f _ args => Some (f, args)
             | SetState _ _ => None
             end) t.

Section loop.
Context `{!ConfigConsumer} {St : Type} (a : app St).

(** One event on the popup of a host: the closure runs and the popup
    settles, the host reacts to the calls it received, and renders the
    popup with the props of its new state. *)
Definition system_step (σ : St * instance) (ev : event)
    : option ((St * instance) * list op) :=
  r ← step σ.2 ev;
  let s' := deliver a σ.1 (s_trace r.2) in
  r' ← step r.1 (NewProps (app_props a s') (i_ref r.1));
  Some ((s', r'.1), s_trace r.2 ++ s_trace r'.2).

(** The same call of a closure as React batches it: the state writes the
    closure queued and the new props of the host are rendered in one
    pass. *)
Definition batched_step (σ : St * instance) (name : string)
    (args : list value) : option ((St * instance) * list op) :=
  let i := σ.2 in
  let h := closure_body (i_props i) name args in
  let s' := deliver a σ.1 (trace h) in
  r ← settle passes Popconfirm (app_props a s') (i_ref i)
         (apply_ops (i_mem i) (trace h));
  Some ((s', Instance (app_props a s') (i_ref i) (s_memory r)),
        trace h ++ s_trace r).

Fixpoint system_run (σ : St * instance) (evs : list event)
    : option ((St * instance) * list op) :=
  match evs with
  | [] => Some (σ, [])
  | ev :: evs =>
      r ← system_step σ ev;
      r' ← system_run r.1 evs;
      Some (r'.1, r.2 ++ r'.2)
  end.

End loop.

(** The host that controls the popup the documented way: it keeps the
    visibility in its state, passes it as [visible], and sets it to what
    [onVisibleChange] is called with. *)
Definition echo (base : obj) : app value :=
  App (λ v, <["visible":=v]> base)
      (λ v o,
         match o with
         | Call f _ (v' :: _) =>
             if decide (f = base !!! "onVisibleChange") then v' else v
         | _ => v
         end).

(** A host that passes the same props whatever it is told. *)
Definition deaf (props : obj) : app unit := App (λ _, props) (λ s _, s).

(** The popup of a host in state [s], at rest with the state [v]. *)
Definition popup_of {St : Type} (a : app St) (s : St) (ref v : value)
    : St * instance :=
  (s, Instance (app_props a s) ref (committed (app_props a s) v)).

(** The events of the collaborators: calls of the closures. *)
Definition invoked (ev : event) : Prop :=
  match ev with
  | Invoke _ _ => True
  | NewProps _ _ => False
  end.

(** A session of the example: the trigger is clicked, then OK, then OK
    again. *)
Definition echo_events : list event :=
  [Invoke "onVisibleChange" [VBool true];
   Invoke "onConfirm" [VStr "click"];
   Invoke "onConfirm" [VStr "click"]].

(** ** What the host hears *)

Section hearing.
Implicit Types (t u : list op) (props base : obj) (v e : value).

Lemma heard_app t u : heard (t ++ u) = heard t ++ heard u.
Proof. apply omap_app. Qed.

Lemma heard_fmap_SetState i (ws : list value) : heard (SetState i <$> ws) = [].
Proof. by induction ws. Qed.

Lemma heard_state_write props v : heard (state_write props v) = [].
Proof. unfold state_write. by destruct (has_key props "visible"). Qed.

(** The host hears a callback whatever [this] is. *)
Lemma heard_notify props props' cb this this' args :
  props !!! cb = props' !!! cb →
  heard (notify props cb this args) = heard (notify props' cb this' args).
Proof.
  intros E. unfold notify, callback_call. rewrite E.
  by destruct (is_function (props' !!! cb)).
Qed.

Lemma deliver_app {St} (a : app St) s t u :
  deliver a s (t ++ u) = deliver a (deliver a s t) u.
Proof. unfold deliver. by rewrite calls_app, foldl_app. Qed.

Lemma deliver_state_write {St} (a : app St) s props v :
  deliver a s (state_write props v) = s.
Proof. unfold deliver. by rewrite calls_state_write. Qed.

(** In controlled mode no closure writes the state. *)
Lemma writes_controlled props name args :
  has_key props "visible" = true →
  writes 0 (trace (closure_body props name args)) = [].
Proof.
  intros Hv. rewrite writes_closure_body, Hv, orb_true_r.
  by repeat case_decide.
Qed.

End hearing.

(** The popup of a host at rest is an instance at rest. *)
Lemma popup_of_ok {St : Type} (a : app St) (s : St) (ref v : value) :
  instance_ok (popup_of a s ref v).2.
Proof. by exists v. Qed.

(** ** Batching *)

Section batching.
Context `{!ConfigConsumer} {St : Type} (a : app St).
Implicit Types (s : St) (i : instance) (name : string) (args : list value).

(** Rendering the popup between the handler and the render of the
    host changes nothing: for every host, a call of a closure followed by
    the reactions of the host leaves the same host, the same popup and the
    same operations whether React renders the popup once with its new
    state and its new props, or first with its new state and then with its
    new props. *)
Theorem batched_step_eq s i name args :
  instance_ok i →
  batched_step a (s, i) name args = system_step a (s, i) (Invoke name args).
Proof.
  intros [v Hi]. unfold batched_step, system_step. cbn [fst snd].
  rewrite (step_Invoke i name args v Hi). cbv zeta.
  cbn [mbind option_bind fst snd s_trace i_ref].
  rewrite (step_NewProps (Instance _ _ (committed _ _)) _ _ _ eq_refl).
  rewrite Hi, apply_ops_committed. unfold passes.
  rewrite settle_Popconfirm_closed, next_visible_committed.
  by cbn [mbind option_bind fst snd s_trace s_memory i_props i_mem].
Qed.

End batching.

(** ** The echoing host *)

Section echo.
Context `{!ConfigConsumer}.
Variable base : obj.
Hypothesis Hu : has_key base "visible" = false.
Hypothesis Hf : is_function (base !!! "onVisibleChange") = true.
Hypothesis Hc : base !!! "onConfirm" ≠ base !!! "onVisibleChange".
Hypothesis Hx : base !!! "onCancel" ≠ base !!! "onVisibleChange".
Implicit Types (v w e : value) (name cb : string).

(** The props of the controlled popup agree with [base] but for
    [visible]. *)
Lemma echo_props_ne v k :
  k ≠ "visible" → app_props (echo base) v !!! k = base !!! k.
Proof. intros Hk. by apply lookup_total_insert_ne. Qed.

Lemma echo_props_visible v :
  has_key (app_props (echo base) v) "visible" = true
  ∧ app_props (echo base) v !!! "visible" = v.
Proof.
  split; [|by apply lookup_total_insert_eq].
  apply bool_decide_eq_true_2. simpl. rewrite lookup_insert_eq. by eexists.
Qed.

(** The host takes the value it is told, and nothing from the other
    callbacks. *)
Lemma deliver_echo_visible v w props vis e :
  props !!! "onVisibleChange" = base !!! "onVisibleChange" →
  deliver (echo base) v (notify props "onVisibleChange" w [vis; e]) = vis.
Proof.
  intros E. unfold deliver, notify, callback_call. rewrite E, Hf. simpl.
  by rewrite decide_True.
Qed.

Lemma deliver_echo_other v w props cb e :
  props !!! cb ≠ base !!! "onVisibleChange" →
  deliver (echo base) v (notify props cb w [e]) = v.
Proof.
  intros E. unfold deliver, notify, callback_call.
  destruct (is_function (props !!! cb)); [|done]. simpl.
  by rewrite decide_False.
Qed.

(** Closing by a button, heard by the echoing host. *)
Lemma deliver_echo_close v w cb e :
  cb ≠ "visible" → base !!! cb ≠ base !!! "onVisibleChange" →
  let props := app_props (echo base) w in
  deliver (echo base) v (trace
    (_ ← settingVisible props setVisible (VBool false) e;
     when (truthy (props !!! cb)) (call (props !!! cb) VUndef [e])))
  = VBool false.
Proof.
  intros Hk Hne props. subst props. rewrite close_then_cases.
  unfold callable_or_falsy. rewrite (echo_props_ne w "onVisibleChange"), Hf,
    orb_true_r by done.
  cbn [trace fst]. rewrite !deliver_app, deliver_state_write.
  rewrite deliver_echo_visible by (by apply echo_props_ne).
  apply deliver_echo_other. by rewrite echo_props_ne.
Qed.

(** What the host has set its state to after a closure of the controlled
    popup: what the uncontrolled popup sets its own state to. *)
Lemma deliver_echo_closure v w name args :
  deliver (echo base) v
    (trace (closure_body (app_props (echo base) w) name args))
  = visible_after base v (Invoke name args).
Proof.
  cbn [visible_after]. rewrite writes_closure_body, Hu.
  unfold closure_body, closure, onConfirm, onCancel.
  destruct (decide (name = "onConfirm")) as [->|?];
    [by rewrite deliver_echo_close, decide_True by auto|].
  destruct (decide (name = "onCancel")) as [->|?];
    [by rewrite deliver_echo_close, decide_True by auto|].
  rewrite (decide_False (P:=name = "onConfirm" ∨ name = "onCancel"))
    by (by intros [|]).
  case_decide; [|done].
  rewrite onVisibleChange_pair, (echo_props_ne w "disabled") by done.
  destruct (truthy (base !!! "disabled")); [done|]. cbn [trace fst orb].
  rewrite deliver_app, deliver_state_write.
  by apply deliver_echo_visible, echo_props_ne.
Qed.

(** The two popups tell the host the same. *)
Lemma heard_echo_close w cb e :
  cb ≠ "visible" →
  let props := app_props (echo base) w in
  heard (trace
    (_ ← settingVisible props setVisible (VBool false) e;
     when (truthy (props !!! cb)) (call (props !!! cb) VUndef [e])))
  = heard (trace
      (_ ← settingVisible base setVisible (VBool false) e;
       when (truthy (base !!! cb)) (call (base !!! cb) VUndef [e]))).
Proof.
  intros Hk props. subst props. rewrite !close_then_cases.
  unfold callable_or_falsy.
  rewrite (echo_props_ne w "onVisibleChange"), Hf, !orb_true_r by done.
  cbn [trace fst]. rewrite !heard_app, !heard_state_write.
  rewrite (heard_notify _ base "onVisibleChange" _ (VObj base))
    by (by apply echo_props_ne).
  by rewrite (heard_notify _ base cb _ VUndef) by (by apply echo_props_ne).
Qed.

Lemma heard_echo_closure w name args :
  heard (trace (closure_body (app_props (echo base) w) name args))
  = heard (trace (closure_body base name args)).
Proof.
  unfold closure_body, closure, onConfirm, onCancel.
  repeat case_decide; [by apply heard_echo_close..| |done].
  rewrite !onVisibleChange_pair, (echo_props_ne w "disabled") by done.
  destruct (truthy (base !!! "disabled")); [done|]. cbn [trace fst].
  rewrite !heard_app, !heard_state_write.
  by rewrite (heard_notify _ base "onVisibleChange" _ (VObj base))
    by (by apply echo_props_ne).
Qed.

(** In controlled mode a closure leaves the state to the host. *)
Lemma writes_echo_closure v w name args :
  last_write v
    (writes 0 (trace (closure_body (app_props (echo base) w) name args))) = v.
Proof.
  by rewrite writes_controlled by apply echo_props_visible.
Qed.

(** The popup takes the new value of the host when it is rendered. *)
Lemma synced_echo v w :
  synced_visible (app_props (echo base) v) (app_props (echo base) w) v = w.
Proof.
  unfold synced_visible.
  rewrite !(echo_props_ne _ "defaultVisible"), bool_decide_eq_false_2
    by (done || by intros []).
  rewrite !(proj2 (echo_props_visible _)), (proj1 (echo_props_visible w)).
  cbn [andb]. rewrite andb_true_r. by case_bool_decide.
Qed.

(** One event on the controlled popup: the host and the popup end with the
    visibility the uncontrolled popup ends with, and the host has heard the
    same. *)
Lemma echo_step ref v name args :
  let v' := visible_after base v (Invoke name args) in
  ∃ u, system_step (echo base) (popup_of (echo base) v ref v)
         (Invoke name args) = Some (popup_of (echo base) v' ref v', u)
    ∧ heard u = heard (trace (closure_body base name args)).
Proof.
  intros v'. unfold system_step, popup_of. cbn [fst snd].
  rewrite (step_Invoke (Instance _ _ (committed _ v)) name args v eq_refl). cbv zeta.
  cbn [mbind option_bind fst snd i_props i_ref i_mem s_trace].
  rewrite writes_echo_closure, deliver_echo_closure. fold v'.
  rewrite (step_NewProps (Instance _ _ (committed _ v)) _ ref v eq_refl). cbv zeta.
  cbn [mbind option_bind fst snd i_props i_mem s_trace]. rewrite synced_echo.
  eexists. split; [done|].
  by rewrite heard_app, heard_fmap_SetState, app_nil_r, heard_echo_closure.
Qed.

(** The same event on the uncontrolled popup. *)
Lemma plain_step ref v name args :
  ∃ s, step (Instance base ref (committed base v)) (Invoke name args) =
         Some (Instance base ref
                 (committed base (visible_after base v (Invoke name args))), s)
    ∧ s_trace s = trace (closure_body base name args).
Proof. rewrite (step_Invoke (Instance _ _ (committed _ v)) name args v eq_refl). by eexists. Qed.

(** Controlled by a host that echoes [onVisibleChange] into [visible],
    the popup is the uncontrolled popup: for every sequence of calls of
    its closures both settle, the host's value, the [visible] prop and the
    state of the controlled popup are the state of the uncontrolled one,
    and the host has heard the same callbacks with the same arguments. *)
Theorem echo_equiv ref v evs :
  Forall invoked evs →
  ∃ i t σ u,
    run_events (Instance base ref (committed base v)) evs = Some (i, t)
    ∧ system_run (echo base) (popup_of (echo base) v ref v) evs = Some (σ, u)
    ∧ σ = popup_of (echo base) (visible_of (i_mem i)) ref (visible_of (i_mem i))
    ∧ heard u = heard t.
Proof.
  intros Hevs. revert v.
  induction Hevs as [|[|name args] evs [] _ IH]; intros v;
    cbn [run_events system_run].
  - by eexists _, _, _, _.
  - destruct (plain_step ref v name args) as (s & -> & Hs).
    destruct (echo_step ref v name args) as (u & -> & Hu1).
    cbn [mbind option_bind fst snd].
    destruct (IH (visible_after base v (Invoke name args)))
      as (i & t & σ & u' & -> & -> & Hσ & Hu').
    cbn [mbind option_bind fst snd]. eexists _, _, _, _.
    repeat split; [done|]. by rewrite !heard_app, Hs, Hu1, Hu'.
Qed.

End echo.

(** ** A host that does not listen *)

Section deaf.
Context `{!ConfigConsumer}.
Implicit Types (props : obj) (v : value).

(** Controlled by a host that does not react, the popup stays as the
    host shows it: whatever closure is called, the host is told (the calls
    are those of the closure) and the popup is back at rest with the same
    state. *)
Theorem deaf_host_stays props ref name args :
  has_key props "visible" = true →
  ∃ u, system_step (deaf props)
         (popup_of (deaf props) () ref (props !!! "visible"))
         (Invoke name args)
       = Some (popup_of (deaf props) () ref (props !!! "visible"), u)
    ∧ calls u = calls (trace (closure_body props name args)).
Proof.
  intros Hv. unfold system_step, popup_of. cbn [fst snd app_props deaf].
  rewrite (step_Invoke (Instance _ _ (committed _ _)) name args _ eq_refl). cbv zeta.
  cbn [mbind option_bind fst snd i_props i_ref i_mem s_trace].
  rewrite writes_controlled by done. cbn [last_write last default].
  rewrite (step_NewProps (Instance _ _ (committed _ _)) _ ref _ eq_refl). cbv zeta.
  cbn [mbind option_bind fst snd i_props i_mem s_trace].
  unfold synced_visible.
  rewrite !bool_decide_eq_false_2 by (by intros []). cbn [andb].
  destruct (deliver _ _ _). eexists. split; [done|].
  by rewrite calls_app, calls_fmap_SetState, app_nil_r.
Qed.

End deaf.

(** ** The hosts on the examples *)

Lemma echo_equiv_witness :
  ∃ i t σ u,
    @run_events default_config
      (Instance uncontrolled_props VNull
         (committed uncontrolled_props (VBool false))) echo_events
      = Some (i, t)
    ∧ @system_run default_config value (echo uncontrolled_props)
        (popup_of (echo uncontrolled_props) (VBool false) VNull (VBool false))
        echo_events = Some (σ, u)
    ∧ σ = popup_of (echo uncontrolled_props) (visible_of (i_mem i)) VNull
            (visible_of (i_mem i))
    ∧ heard u = heard t.
Proof.
  refine (@echo_equiv default_config uncontrolled_props _ _ _ _ VNull
            (VBool false) echo_events _);
    [by vm_compute..|repeat constructor].
Defined.

Lemma batched_step_eq_witness :
  @batched_step default_config value (echo uncontrolled_props)
    (popup_of (echo uncontrolled_props) (VBool true) VNull (VBool true))
    "onConfirm" [VStr "click"] =
  @system_step default_config value (echo uncontrolled_props)
    (popup_of (echo uncontrolled_props) (VBool true) VNull (VBool true))
    (Invoke "onConfirm" [VStr "click"]).
Proof.
  exact (@batched_step_eq default_config value (echo uncontrolled_props)
           (VBool true)
           (popup_of (echo uncontrolled_props) (VBool true) VNull (VBool true)).2
           "onConfirm" [VStr "click"] (popup_of_ok _ _ _ _)).
Defined.

Lemma deaf_host_stays_witness :
  ∃ u, @system_step default_config unit (deaf controlled_props)
         (popup_of (deaf controlled_props) () VNull
            (controlled_props !!! "visible"))
         (Invoke "onConfirm" [VStr "click"])
       = Some (popup_of (deaf controlled_props) () VNull
                 (controlled_props !!! "visible"), u)
    ∧ calls u =
        calls (trace (closure_body controlled_props "onConfirm" [VStr "click"])).
Proof.
  refine (@deaf_host_stays default_config controlled_props VNull "onConfirm"
            [VStr "click"] _).
  by vm_compute.
Defined.

(** The session as the host hears it.  The closures do not check that the
    popup is shown: the second call of [onConfirm] reaches the host like the
    first. *)
Example echo_session_heard :
  (heard <$> (snd <$> @system_run default_config value (echo uncontrolled_props)
      (popup_of (echo uncontrolled_props) (VBool false) VNull (VBool false))
      echo_events)) =
  Some [(VFun (Host 3), [VBool true; VUndef]);
        (VFun (Host 3), [VBool false; VStr "click"]);
        (VFun (Host 1), [VStr "click"]);
        (VFun (Host 3), [VBool false; VStr "click"]);
        (VFun (Host 1), [VStr "click"])].
Proof. by vm_compute. Qed.
