(* ===== verification/Callbacks.v ===== *)
(** * Callbacks that run

    [Handlers] gives the closures in the monad [action], where a function
    of the host is called and returns.  A function of the host may also
    throw, after it has changed the state of the host.  This file runs the
    same closures in the monad [hosted] of the computations that call into
    a host: a host is the reactions of [Host] ([app]) and the calls on
    which it throws.  The closures run against a host are proved to be the
    closures of [Handlers] replayed to the host and cut at the first call
    that throws; so a host that never throws is the host of [Host], and
    whatever a host does the popup has queued its state write before the
    first callback runs. *)

From S2P Require Import Prelude JsValue Effects React Collaborators.
From S2P Require Import Props Handlers Overlay Popconfirm Lifecycle Host.

(** ** The monad of the computations that call into a host *)

(** From the state of the host: what the computation did and how it ended,
    and the state it leaves the host in. *)
Definition hosted (St A : Type) : Type := St → action A * St.

#[global] Instance hosted_ret {St : Type} : MRet (hosted St) :=
  λ A x s, (mret x, s).

#[global] Instance hosted_bind {St : Type} : MBind (hosted St) :=
  λ A B k m s,
    let r := m s in
    match r.1.2 with
    | Ok x => let r' := k x r.2 in ((r.1.1 ++ r'.1.1, r'.1.2), r'.2)
    | Throw e => ((r.1.1, Throw e), r.2)
    end.

(** An operation of the component itself: the host does not see it. *)
Definition quietly {St A : Type} (m : action A) : hosted St A := λ s, (m, s).

(** The setter of the state hook, as the closures run against a host see
    it. *)
Definition hosted_setVisible {St : Type} (v : value) : hosted St unit :=
  quietly (setVisible v).

(** Two computations are the same when they do the same from every state
    of the host. *)
#[global] Instance hosted_equiv {St A : Type} : Equiv (hosted St A) :=
  λ m m', ∀ s, m s = m' s.

Section host.
Context {St : Type} (a : app St) (throws : St → op → option value).

(** How the call [o] ends in the state [s] of the host. *)
Definition call_outcome (s : St) (o : op) : outcome unit :=
  match throws s o with
  | Some v => Throw (Thrown v)
  | None => Ok ()
  end.

(** [f.call(this, ...args)] against the host: a function runs, the host
    reacts, and the call returns or throws what the function throws. *)
Definition hosted_call : MCall (hosted St) := λ f this args s,
  if is_function f
  then let o := Call f this args in (([o], call_outcome s o), app_on a s o)
  else (throw (NotCallable f), s).

#[local] Existing Instance hosted_call.

(** The closure [name] of the render with [props], called with [args]
    against the host. *)
Definition run_closure (props : obj) (name : string) (args : list value)
    : hosted St unit :=
  closure props hosted_setVisible name args.

(** *** The reference: a trace replayed to the host *)

(** The operations of [t], in order, until a call throws: the operations
    done, the exception, and the state of the host. *)
Fixpoint replay (s : St) (t : list op) : list op * option value * St :=
  match t with
  | [] => ([], None, s)
  | SetState i v :: t =>
      let r := replay s t in (SetState i v :: r.1.1, r.1.2, r.2)
  | Call f this args :: t =>
      let o := Call f this args in
      match throws s o with
      | Some v => ([o], Some v, app_on a s o)
      | None => let r := replay (app_on a s o) t in (o :: r.1.1, r.1.2, r.2)
      end
  end.

(** A computation of [action] replayed to the host: it ends as it did
    unless a call threw first. *)
Definition replayed {A : Type} (m : action A) : hosted St A := λ s,
  let r := replay s (trace m) in
  ((r.1.1, match r.1.2 with Some v => Throw (Thrown v) | None => m.2 end), r.2).

(** A host whose functions return. *)
Definition quiet : Prop := ∀ s o, throws s o = None.

(** *** The popup of the host *)

Section popup.
Context `{!ConfigConsumer}.

(** A collaborator calls the closure [name] of the popup: the closure runs
    against the host, then React applies the state writes it queued and
    renders the popup again if its state changed. *)
Definition hosted_invoke (σ : St * instance) (name : string)
    (args : list value) : option ((St * instance) * settled) :=
  let i := σ.2 in
  let r := run_closure (i_props i) name args σ.1 in
  s ← dispatch passes Popconfirm (i_props i) (i_ref i) (i_mem i) r.1;
  Some ((r.2, Instance (i_props i) (i_ref i) (s_memory s)), s).

(** Then the host renders the popup with the props of its new state. *)
Definition hosted_step (σ : St * instance) (name : string)
    (args : list value) : option ((St * instance) * list op) :=
  r ← hosted_invoke σ name args;
  r' ← step r.1.2 (NewProps (app_props a r.1.1) (i_ref r.1.2));
  Some ((r.1.1, r'.1), s_trace r.2 ++ s_trace r'.2).

End popup.

End host.

(** ** Examples *)

(** A host that counts the calls it receives and whose [onVisibleChange]
    (the function 3 of [uncontrolled_props]) throws. *)
Definition counting : app nat := App (λ _, uncontrolled_props) (λ n _, S n).

Definition fussy (n : nat) (o : op) : option value :=
  match o with
  | Call (VFun (Host 3)) _ _ => Some (VStr "busy")
  | _ => None
  end.

Definition calm (n : nat) (o : op) : option value := None.

(** A host whose [onConfirm] (the function 1) throws once the host has
    received a call. *)
Definition touchy (n : nat) (o : op) : option value :=
  match o with
  | Call (VFun (Host 1)) _ _ => if n is 0 then None else Some (VStr "late")
  | _ => None
  end.

(** The open popup of that host. *)
Definition counted : nat * instance :=
  (0, Instance uncontrolled_props VNull
        (committed uncontrolled_props (VBool true))).

(** ** The monad *)

Section monad.
Context {St : Type}.

#[global] Instance hosted_equivalence {A : Type} :
  Equivalence (≡@{hosted St A}).
Proof.
  split; [by intros m s|by intros m m' H s|].
  intros m1 m2 m3 H1 H2 s. by rewrite H1.
Qed.

(** Sequencing respects the equivalence. *)
#[global] Instance hosted_bind_proper {A B : Type} :
  Proper (pointwise_relation A (≡) ==> (≡) ==> (≡))
    (mbind (M:=hosted St) (A:=A) (B:=B)).
Proof.
  intros k k' Hk m m' Hm s. unfold mbind, hosted_bind. rewrite (Hm s).
  destruct (m' s).1.2 as [x|e]; [|done]. by rewrite (Hk x).
Qed.

End monad.

(** ** Replaying a trace *)

Section replay.
Context {St : Type} (a : app St) (throws : St → op → option value).
Implicit Types (s : St) (t u : list op) (props : obj).

#[local] Hint Extern 0 (MCall (hosted _)) =>
  exact (hosted_call a throws) : typeclass_instances.

(** Replaying one trace after another: the second is replayed only if the
    first went through. *)
Lemma replay_app s t u :
  replay a throws s (t ++ u) =
    let r := replay a throws s t in
    match r.1.2 with
    | Some v => r
    | None =>
        let r' := replay a throws r.2 u in (r.1.1 ++ r'.1.1, r'.1.2, r'.2)
    end.
Proof.
  revert s. induction t as [|[i v|f this args] t IH]; intros s;
    cbn [replay Datatypes.app fst snd].
  - by destruct (replay a throws s u) as [[??]?].
  - rewrite IH. cbv zeta.
    by destruct (replay a throws s t) as [[t' [w|]] s'].
  - destruct (throws s (Call f this args)) as [w|]; [done|].
    rewrite IH. cbv zeta. cbn [fst snd].
    by destruct (replay a throws _ t) as [[t' [w|]] s'].
Qed.

(** State writes are not seen by the host. *)
Lemma replay_writes s (ws : list value) i :
  replay a throws s (SetState i <$> ws) = (SetState i <$> ws, None, s).
Proof.
  induction ws as [|w ws IH]; [done|]. cbn [fmap list_fmap replay].
  by rewrite IH.
Qed.

(** The state write of a closure is replayed as it is. *)
Lemma replay_state_write s props v t :
  replay a throws s (state_write props v ++ t) =
    let r := replay a throws s t in (state_write props v ++ r.1.1, r.1.2, r.2).
Proof.
  unfold state_write. destruct (has_key props "visible"); cbn [Datatypes.app];
    [by destruct (replay a throws s t) as [[??]?]|done].
Qed.

(** What was done is a prefix of what there was to do. *)
Lemma replay_prefix s t : (replay a throws s t).1.1 `prefix_of` t.
Proof.
  revert s. induction t as [|[i v|f this args] t IH]; intros s; cbn [replay];
    [done|by apply prefix_cons|].
  destruct (throws s _); cbn [fst]; [|by apply prefix_cons].
  by exists t.
Qed.

(** Only calls are cut: a replayed list of calls is a list of calls. *)
Lemma replay_calls s t :
  calls t = t → calls (replay a throws s t).1.1 = (replay a throws s t).1.1.
Proof.
  revert s. induction t as [|[i v|f this args] t IH]; intros s Ht; [done|..].
  - exfalso. assert (SetState i v ∈ calls (SetState i v :: t)) as Hin
      by (rewrite Ht; left).
    by apply list_elem_of_filter in Hin as [[] _].
  - injection Ht as Ht. cbn [replay]. destruct (throws s _); [done|].
    cbn [fst]. unfold calls in *. rewrite filter_cons_True by done.
    f_equal. by apply IH.
Qed.

(** A replay that met no exception did everything. *)
Lemma replay_complete s t t' s' :
  replay a throws s t = (t', None, s') → t' = t.
Proof.
  revert s t'. induction t as [|[i v|f this args] t IH]; intros s t';
    cbn [replay].
  - by intros [= <-].
  - destruct (replay a throws s t) as [[u r] s''] eqn:E. cbn [fst snd].
    intros [= <- -> ->]. f_equal. by apply (IH s).
  - destruct (throws s _); [done|].
    destruct (replay a throws _ t) as [[u r] s''] eqn:E. cbn [fst snd].
    intros [= <- -> ->]. f_equal. by apply (IH _ _ E).
Qed.

(** Against a host whose functions return, the whole trace is replayed,
    and the host has received its calls. *)
Lemma replay_quiet s t :
  quiet throws → replay a throws s t = (t, None, deliver a s t).
Proof.
  intros Hq. revert s.
  induction t as [|[i v|f this args] t IH]; intros s; cbn [replay]; [done|..].
  - by rewrite IH.
  - by rewrite Hq, IH.
Qed.

(** Whatever is thrown, the host is in the state its reactions to the
    calls it received leave it in: nothing else changes it. *)
Lemma replay_delivers s t :
  (replay a throws s t).2 = deliver a s (replay a throws s t).1.1.
Proof.
  revert s. induction t as [|[i v|f this args] t IH]; intros s; cbn [replay];
    [done|by rewrite IH|].
  destruct (throws s _); [done|]. cbn [fst snd]. by rewrite IH.
Qed.

(** *** [replayed] is a morphism of monads that knows the calls *)

Lemma replayed_ret {A : Type} (x : A) : replayed a throws (mret x) ≡ mret x.
Proof. done. Qed.

Lemma replayed_bind {A B : Type} (m : action A) (k : A → action B) :
  replayed a throws (m ≫= k) ≡
    replayed a throws m ≫= λ x, replayed a throws (k x).
Proof.
  intros s. unfold mbind at 2. unfold hosted_bind, replayed.
  destruct m as [t [x|e]].
  - rewrite bind_ok. cbn [trace fst snd]. rewrite replay_app. cbv zeta.
    by destruct (replay a throws s t) as [[t' [w|]] s'].
  - rewrite bind_thrown. cbn [trace fst snd].
    by destruct (replay a throws s t) as [[t' [w|]] s'].
Qed.

Lemma replayed_call f this args :
  replayed a throws (call f this args) ≡ call f this args.
Proof.
  intros s. unfold replayed, call, action_call, hosted_call, call_outcome.
  destruct (is_function f); [|done]. cbn [trace emit fst snd replay].
  by destruct (throws s _).
Qed.

(** The setter of the state hook is not a call: replayed, it is the
    setter the closures run against the host close over. *)
Lemma replayed_setVisible v :
  replayed a throws (setVisible v) ≡ hosted_setVisible v.
Proof. done. Qed.

(** [replayed] is a morphism from [action] to the computations that call
    into the host. *)
Lemma replayed_morphism : MCallMorphism (λ A, replayed a throws (A:=A)).
Proof.
  split; [apply _..|apply @replayed_ret|apply @replayed_bind|
          apply replayed_call].
Qed.

End replay.

(** ** The closures against a host *)

Section closures.
Context {St : Type} (a : app St) (throws : St → op → option value).
Implicit Types (s : St) (props : obj) (vis e v : value) (cb name : string).

#[local] Hint Extern 0 (MCall (hosted _)) =>
  exact (hosted_call a throws) : typeclass_instances.
#[local] Existing Instance replayed_morphism.

(** Every closure against the host is the closure of [Handlers], replayed
    to the host. *)
Lemma closure_replayed props name args :
  run_closure a throws props name args ≡
    replayed a throws (closure_body props name args).
Proof.
  symmetry.
  exact (closure_morph (λ A, replayed a throws (A:=A)) props setVisible
           name args).
Qed.

(** Against a host whose functions return, a closure does what it does in
    [action], and the host has received its calls. *)
Lemma run_closure_quiet props name args s :
  quiet throws →
  run_closure a throws props name args s =
    (closure_body props name args,
     deliver a s (trace (closure_body props name args))).
Proof.
  intros Hq. rewrite (closure_replayed props name args s). unfold replayed.
  rewrite replay_quiet by done. by destruct (closure_body props name args).
Qed.

(** A closure that returned against the host did all it does when the
    host returns. *)
Lemma run_closure_returned props name args s :
  (run_closure a throws props name args s).1.2 = Ok () →
  (run_closure a throws props name args s).1 = closure_body props name args.
Proof.
  rewrite (closure_replayed props name args s). unfold replayed, trace.
  cbn [fst snd].
  destruct (replay a throws s _) as [[t [w|]] s'] eqn:E; [done|].
  cbn [fst snd]. rewrite (replay_complete a throws s _ _ _ E).
  by destruct (closure_body props name args).
Qed.

(** A closure changes the host only by the calls it makes. *)
Lemma run_closure_delivers props name args s :
  (run_closure a throws props name args s).2 =
    deliver a s (trace (run_closure a throws props name args s).1).
Proof.
  rewrite (closure_replayed props name args s). apply replay_delivers.
Qed.

(** The state writes of a closure do not depend on the host: they are
    queued before the first callback runs. *)
Lemma writes_run_closure props name args s :
  writes 0 (trace (run_closure a throws props name args s).1) =
    writes 0 (trace (closure_body props name args)).
Proof.
  rewrite (closure_replayed props name args s). unfold replayed, trace.
  cbn [fst].
  rewrite (handler_shape_order props _ (closure_body_shape props name args))
    at 1.
  rewrite replay_app, replay_writes. cbv zeta. cbn [fst snd].
  rewrite writes_app, writes_fmap_SetState.
  rewrite <- (replay_calls a throws s _ (calls_calls _)), writes_calls.
  apply app_nil_r.
Qed.

End closures.

(** ** The popup of a host whose callbacks may throw *)

Section properties.
Context `{!ConfigConsumer} {St : Type}.
Context (a : app St) (throws : St → op → option value).
Implicit Types (s : St) (i : instance) (props : obj) (e v : value).
Implicit Types (cb name : string) (args : list value).

(** What a closure did against the host is a prefix of what it does when
    the host returns. *)
Lemma trace_run_closure_prefix props name args s :
  trace (run_closure a throws props name args s).1
    `prefix_of` trace (closure_body props name args).
Proof.
  rewrite (closure_replayed a throws props name args s). apply replay_prefix.
Qed.

(** A call of a closure on an instance at rest, in closed form. *)
Lemma hosted_invoke_closed s i name args v :
  i_mem i = committed (i_props i) v →
  let r := run_closure a throws (i_props i) name args s in
  let v' := last_write v
              (writes 0 (trace (closure_body (i_props i) name args))) in
  hosted_invoke a throws (s, i) name args =
    Some ((r.2, Instance (i_props i) (i_ref i) (committed (i_props i) v')),
          Settled (committed (i_props i) v')
            (if decide (v' = v) then [] else [tooltip (i_props i) (i_ref i) v'])
            (trace r.1)
            (match r.1.2 with Ok _ => None | Throw e => Some e end)).
Proof.
  intros Hi. cbv zeta. unfold hosted_invoke. cbn [fst snd].
  by rewrite Hi, dispatch_Popconfirm, writes_run_closure.
Qed.

(** A click on a button against the host: the closure of [Handlers] that
    closes and then calls [cb], replayed. *)
Lemma run_closure_close props cb e s :
  cb = "onConfirm" ∨ cb = "onCancel" →
  run_closure a throws props cb [e] s =
    replayed a throws
      (_ ← settingVisible props setVisible (VBool false) e;
       when (truthy (props !!! cb)) (call (props !!! cb) VUndef [e])) s.
Proof.
  intros Hcb. rewrite (closure_replayed a throws props cb [e] s).
  by destruct Hcb as [-> | ->].
Qed.

(** C19.  A click on a button against a host whose callbacks may throw,
    when the host listens with both callbacks: the state write is queued
    and [props.onVisibleChange(false, e)] is called; if it throws, the
    handler stops there and throws the same; if it returns,
    [props.onConfirm] (or [props.onCancel]) is called with the event, in
    the state the first call has left the host in, and what it throws, if
    anything, is what the handler throws.  The host has reacted to each
    call it received. *)
Theorem hosted_close_trace props cb e s :
  cb = "onConfirm" ∨ cb = "onCancel" →
  is_function (props !!! "onVisibleChange") = true →
  is_function (props !!! cb) = true →
  let told :=
    Call (props !!! "onVisibleChange") (VObj props) [VBool false; e] in
  let chosen := Call (props !!! cb) VUndef [e] in
  run_closure a throws props cb [e] s =
    match throws s told with
    | Some v =>
        ((state_write props (VBool false) ++ [told], Throw (Thrown v)),
         app_on a s told)
    | None =>
        ((state_write props (VBool false) ++ [told; chosen],
          call_outcome throws (app_on a s told) chosen),
         app_on a (app_on a s told) chosen)
    end.
Proof.
  intros Hcb Hf Hc told chosen. rewrite (run_closure_close _ _ _ _ Hcb).
  rewrite close_then_cases. unfold callable_or_falsy, guarded_outcome, replayed.
  rewrite Hf, orb_true_r. cbn [trace fst snd].
  rewrite replay_state_write. cbv zeta. unfold notify, callback_call.
  rewrite Hf, Hc. cbn [Datatypes.app replay]. fold told chosen.
  unfold callable_or_falsy, call_outcome. rewrite Hc, orb_true_r.
  destruct (throws s told); [done|].
  by destruct (throws (app_on a s told) chosen).
Qed.

(** C25.  If [props.onVisibleChange] throws when a button is clicked, the
    handler stops there: the state write is queued, [onVisibleChange] has
    been called and the host has reacted to it, and neither
    [props.onConfirm] nor [props.onCancel] is called. *)
Theorem callback_throws_stops props cb e s v :
  cb = "onConfirm" ∨ cb = "onCancel" →
  is_function (props !!! "onVisibleChange") = true →
  throws s (Call (props !!! "onVisibleChange") (VObj props) [VBool false; e])
    = Some v →
  run_closure a throws props cb [e] s =
    ((state_write props (VBool false) ++
        [Call (props !!! "onVisibleChange") (VObj props) [VBool false; e]],
      Throw (Thrown v)),
     app_on a s
       (Call (props !!! "onVisibleChange") (VObj props) [VBool false; e])).
Proof.
  intros Hcb Hf Ht. rewrite (run_closure_close _ _ _ _ Hcb), close_then_cases.
  unfold callable_or_falsy, replayed. rewrite Hf, orb_true_r.
  cbn [trace fst snd]. rewrite replay_state_write. cbv zeta.
  unfold notify, callback_call. rewrite !Hf.
  cbn [Datatypes.app replay]. by rewrite Ht.
Qed.

(** C24.  Whatever the host does in its callbacks, a click on a button of
    an uncontrolled popup closes it: the call is handled, the state is
    [false] afterwards, what the component did is a prefix of what it does
    when the callbacks return, and all of it if nothing was thrown. *)
Theorem hosted_click_closes s i name args :
  instance_ok i → has_key (i_props i) "visible" = false →
  name = "onConfirm" ∨ name = "onCancel" →
  ∃ s' i' r, hosted_invoke a throws (s, i) name args = Some ((s', i'), r)
    ∧ visible_of (i_mem i') = VBool false
    ∧ s_trace r `prefix_of` trace (closure_body (i_props i) name args)
    ∧ (s_error r = None →
       s_trace r = trace (closure_body (i_props i) name args)).
Proof.
  intros [v Hi] Hu Hn. rewrite (hosted_invoke_closed s i name args v Hi).
  cbv zeta. eexists _, _, _. split; [done|]. cbn [i_mem s_trace s_error].
  rewrite visible_of_committed, writes_closure_body, decide_True, Hu by done.
  split; [done|]. split; [apply trace_run_closure_prefix|].
  pose proof (run_closure_returned a throws (i_props i) name args s) as Hr.
  destruct (run_closure a throws (i_props i) name args s).1 as [t [[]|e]];
    [|done].
  intros _. by rewrite <- Hr.
Qed.

(** Against a host whose functions return, a call of a closure
    followed by the render of the host is the step of [Host]: the
    reactions of the host can be delivered once the closure has run. *)
Theorem hosted_step_quiet s i name args :
  quiet throws → instance_ok i →
  hosted_step a throws (s, i) name args =
    system_step a (s, i) (Invoke name args).
Proof.
  intros Hq [v Hi]. unfold hosted_step, system_step. cbn [fst snd].
  rewrite (hosted_invoke_closed s i name args v Hi),
    (step_Invoke i name args v Hi). cbv zeta.
  by rewrite run_closure_quiet.
Qed.

End properties.

(** ** The host whose [onVisibleChange] throws *)

Lemma counted_ok : instance_ok counted.2.
Proof. by exists (VBool true). Qed.

Lemma callback_throws_stops_witness :
  run_closure counting fussy uncontrolled_props "onConfirm" [VStr "click"] 0 =
    ((state_write uncontrolled_props (VBool false) ++
        [Call (uncontrolled_props !!! "onVisibleChange")
           (VObj uncontrolled_props) [VBool false; VStr "click"]],
      Throw (Thrown (VStr "busy"))),
     app_on counting 0
       (Call (uncontrolled_props !!! "onVisibleChange")
          (VObj uncontrolled_props) [VBool false; VStr "click"])).
Proof.
  refine (callback_throws_stops counting fussy uncontrolled_props "onConfirm"
            (VStr "click") 0 (VStr "busy") (or_introl eq_refl) _ _);
    by vm_compute.
Defined.

Lemma hosted_close_trace_witness :
  let told :=
    Call (uncontrolled_props !!! "onVisibleChange") (VObj uncontrolled_props)
      [VBool false; VStr "click"] in
  let chosen := Call (uncontrolled_props !!! "onConfirm") VUndef [VStr "click"] in
  run_closure counting touchy uncontrolled_props "onConfirm" [VStr "click"] 0 =
    match touchy 0 told with
    | Some v =>
        ((state_write uncontrolled_props (VBool false) ++ [told],
          Throw (Thrown v)),
         app_on counting 0 told)
    | None =>
        ((state_write uncontrolled_props (VBool false) ++ [told; chosen],
          call_outcome touchy (app_on counting 0 told) chosen),
         app_on counting (app_on counting 0 told) chosen)
    end.
Proof.
  refine (hosted_close_trace counting touchy uncontrolled_props "onConfirm"
            (VStr "click") 0 (or_introl eq_refl) _ _); by vm_compute.
Defined.

Lemma hosted_click_closes_witness :
  ∃ s' i' r,
    @hosted_invoke nat counting fussy default_config (0, counted.2)
      "onConfirm" [VStr "click"] = Some ((s', i'), r)
    ∧ visible_of (i_mem i') = VBool false
    ∧ s_trace r `prefix_of`
        trace (closure_body (i_props counted.2) "onConfirm" [VStr "click"])
    ∧ (s_error r = None →
       s_trace r =
         trace (closure_body (i_props counted.2) "onConfirm" [VStr "click"])).
Proof.
  refine (@hosted_click_closes default_config nat counting fussy 0 counted.2
            "onConfirm" [VStr "click"] counted_ok _ (or_introl eq_refl)).
  by vm_compute.
Defined.

Lemma hosted_step_quiet_witness :
  @hosted_step nat counting calm default_config (0, counted.2)
    "onConfirm" [VStr "click"] =
  @system_step default_config nat counting (0, counted.2)
    (Invoke "onConfirm" [VStr "click"]).
Proof.
  exact (@hosted_step_quiet default_config nat counting calm 0 counted.2
           "onConfirm" [VStr "click"] (λ _ _, eq_refl) counted_ok).
Defined.

(** The click on OK as the fussy host lives it: the popup closes, the host
    has received one call, [props.onConfirm] (the function 1) was not
    called, and the exception reaches React. *)
Example fussy_click :
  (λ r, (r.1.1, visible_of (i_mem r.1.2), s_trace r.2, s_error r.2)) <$>
    @hosted_invoke nat counting fussy default_config counted
      "onConfirm" [VStr "click"] =
  Some (1, VBool false,
        [SetState 0 (VBool false);
         Call (VFun (Host 3)) (VObj uncontrolled_props)
           [VBool false; VStr "click"]],
        Some (Thrown (VStr "busy"))).
Proof. by vm_compute. Qed.

(** The click on OK as the touchy host lives it: [props.onConfirm] is
    called once the host has reacted to [onVisibleChange], and throws
    because of that reaction; the popup is closed all the same. *)
Example touchy_click :
  (λ r, (r.1.1, visible_of (i_mem r.1.2), s_trace r.2, s_error r.2)) <$>
    @hosted_invoke nat counting touchy default_config counted
      "onConfirm" [VStr "click"] =
  Some (2, VBool false,
        [SetState 0 (VBool false);
         Call (VFun (Host 3)) (VObj uncontrolled_props)
           [VBool false; VStr "click"];
         Call (VFun (Host 1)) VUndef [VStr "click"]],
        Some (Thrown (VStr "late"))).
Proof. by vm_compute. Qed.

(** The same click when the host returns: both callbacks are called. *)
Example calm_click :
  (λ r, (r.1.1, visible_of (i_mem r.1.2), s_trace r.2, s_error r.2)) <$>
    @hosted_invoke nat counting calm default_config counted
      "onConfirm" [VStr "click"] =
  Some (2, VBool false,
        [SetState 0 (VBool false);
         Call (VFun (Host 3)) (VObj uncontrolled_props)
           [VBool false; VStr "click"];
         Call (VFun (Host 1)) VUndef [VStr "click"]],
        None).
Proof. by vm_compute. Qed.
