(* ===== verification/Interaction.v ===== *)
(** * The popup in use

    The collaborators the component renders call the closures it gave them:
    a [Button] calls its [onClick] when it is clicked, the [Tooltip] calls
    its [onVisibleChange] when the user asks to show or hide the popup.
    This file reads those closures off the rendered tree and follows a
    gesture of the user from the element it touches to the state it
    leaves. *)

From S2P Require Import Prelude JsValue Effects React Collaborators.
From S2P Require Import Props Handlers Overlay Popconfirm Lifecycle.

(** A collaborator calls the prop [v] it was given with [args]: a closure
    of the component is an event of the instance; a function of the host,
    or no function, does not involve the component. *)
Definition invoke (v : value) (args : list value) : option event :=
  match v with
  | VFun (Closure name) => Some (Invoke name args)
  | _ => None
  end.

(** The two buttons of the popup, the closure the component gives each as
    [onClick], and the prop by which the host overrides the props of each. *)
Inductive button : Type :=
| ButtonCancel
| ButtonOk.

Definition button_of (b : button) (el : value) : value :=
  match b with
  | ButtonCancel => cancel_button el
  | ButtonOk => ok_button el
  end.

Definition handler_name (b : button) : string :=
  match b with
  | ButtonCancel => "onCancel"
  | ButtonOk => "onConfirm"
  end.

Definition overrides (b : button) : string :=
  match b with
  | ButtonCancel => "cancelButtonProps"
  | ButtonOk => "okButtonProps"
  end.

Section gestures.
Context `{!ConfigConsumer, !LocaleReceiver, !HostFunctions}.

(** What the instance shows: the [Tooltip], and in it the popup. *)
Definition shown (i : instance) : value :=
  tooltip (i_props i) (i_ref i) (visible_of (i_mem i)).

Definition popup (i : instance) : value := rendered_overlay (i_props i).

(** A click on a button of the popup: the button calls [onClick(e)]. *)
Definition click (i : instance) (b : button) (e : value) : option event :=
  invoke (props_of (button_of b (popup i)) !!! "onClick") [e].

(** The user asks to show or hide the popup (a click on the trigger, a
    click outside): the tooltip calls [onVisibleChange(v)]. *)
Definition request (i : instance) (v : value) : option event :=
  invoke (props_of (shown i) !!! "onVisibleChange") [v].

(** A gesture handled: the event it is, if it is one, or nothing. *)
Definition gesture (i : instance) (ev : option event)
    : option (instance * settled) :=
  match ev with
  | Some ev => step i ev
  | None => Some (i, Settled (i_mem i) [] [] None)
  end.

End gestures.

(** An open popup whose host handles the clicks on OK itself. *)
Definition hijacked_props : obj :=
  <["okButtonProps":=VObj {[ "onClick" := VFun (Host 7) ]}]> open_props.

Definition hijacked : instance :=
  Instance hijacked_props VNull (committed hijacked_props (VBool true)).

(** ** From the tree to the closures *)

Section wiring.
Context `{!ConfigConsumer, !LocaleReceiver, !HostFunctions}.
Implicit Types (i : instance) (b : button) (e v : value).

Lemma click_eq i b e :
  click i b e =
    if has_key (spread (i_props i !!! overrides b)) "onClick"
    then invoke (spread (i_props i !!! overrides b) !!! "onClick") [e]
    else Some (Invoke (handler_name b) [e]).
Proof.
  unfold click, popup. rewrite rendered_overlay_eq.
  destruct b; cbn [button_of overrides handler_name];
    rewrite ?get_cancel_button, ?get_ok_button by compute_done;
    by destruct (has_key _ "onClick").
Qed.

Lemma request_eq i v : request i v = Some (Invoke "onVisibleChange" [v]).
Proof.
  unfold request, shown, tooltip, tooltip_config.
  rewrite get_createElement_plain by compute_done.
  rewrite !lookup_total_insert_ne by done. by rewrite lookup_total_insert_eq.
Qed.

Lemma closure_body_click props b e :
  closure_body props (handler_name b) [e] =
    (_ ← settingVisible props setVisible (VBool false) e;
     when (truthy (props !!! handler_name b))
       (call (props !!! handler_name b) VUndef [e])).
Proof. by destruct b. Qed.

End wiring.

(** ** What is on the screen *)

Section screen.
Context `{!ConfigConsumer}.
Implicit Types (i : instance) (ev : event).

(** C29.  What is on the screen is what the state says: the last element
    the component committed, at the mount and at every event, is the
    [Tooltip] for the props and the state of the instance; an event that
    commits nothing has left what the instance shows as it was. *)
Theorem shown_committed i ev :
  instance_ok i →
  ∃ i' s, step i ev = Some (i', s)
    ∧ (last (s_frames s) = Some (shown i')
       ∨ (s_frames s = [] ∧ shown i' = shown i)).
Proof.
  intros [v Hi]. destruct ev as [props ref|name args].
  - rewrite (step_NewProps _ _ _ _ Hi). eexists _, _. split; [done|].
    left. cbn [s_frames]. unfold shown. cbn [i_props i_ref i_mem].
    rewrite visible_of_committed. by case_decide as E; [rewrite E|].
  - rewrite (step_Invoke _ _ _ _ Hi). eexists _, _. split; [done|].
    cbn [s_frames]. unfold shown. cbn [i_props i_ref i_mem].
    rewrite Hi, !visible_of_committed.
    case_decide as E; [right; by rewrite E|by left].
Qed.

(** The same at the mount. *)
Lemma shown_mounted props ref i s :
  mount props ref = Some (i, s) → last (s_frames s) = Some (shown i).
Proof.
  rewrite mount_closed. intros [= <- <-]. cbn [s_frames]. unfold shown.
  cbn [i_props i_ref i_mem]. rewrite visible_of_committed.
  by case_decide as E; [rewrite E|].
Qed.

End screen.

(** ** Gestures *)

Section gestures.
Context `{!ConfigConsumer, !LocaleReceiver, !HostFunctions}.
Implicit Types (i : instance) (b : button) (e v : value).

(** C14.  A click on a button of the popup, when the host has not replaced
    the [onClick] of that button: in uncontrolled mode the popup is closed,
    and the host is told, by [onVisibleChange(false, e)] and then by
    [onConfirm(e)] (the OK button) or [onCancel(e)] (the cancel button),
    each once if it is given; nothing throws.  (The props are well typed
    and the instance is at rest.) *)
Theorem click_closes_popup i b e :
  instance_ok i → PopconfirmProps_ok (i_props i) = true →
  has_key (i_props i) "visible" = false →
  has_key (spread (i_props i !!! overrides b)) "onClick" = false →
  ∃ i' s, gesture i (click i b e) = Some (i', s)
    ∧ visible_of (i_mem i') = VBool false
    ∧ calls (s_trace s) =
        notify (i_props i) "onVisibleChange" (VObj (i_props i)) [VBool false; e]
        ++ notify (i_props i) (handler_name b) VUndef [e]
    ∧ s_error s = None.
Proof.
  intros [v Hi] Hty Hu Ho. rewrite click_eq, Ho. cbn [gesture].
  rewrite (step_Invoke _ _ _ _ Hi). cbv zeta. eexists _, _. split; [done|].
  cbn [i_mem s_trace s_error]. rewrite closure_body_click, close_then_cases.
  rewrite optional_function_callable by auto with popconfirm.
  unfold trace, guarded_outcome. cbn [fst snd]. autorewrite with js.
  rewrite Hu, optional_function_callable; [done|].
  destruct b; auto with popconfirm.
Qed.

(** C35.  A button whose [onClick] the host has replaced (by
    [okButtonProps] or [cancelButtonProps]) no longer reaches the
    component: a click on it leaves the popup as it is, open if it was
    open, and the component tells the host nothing. *)
Theorem click_overridden i b e f :
  spread (i_props i !!! overrides b) !! "onClick" = Some (VFun (Host f)) →
  gesture i (click i b e) = Some (i, Settled (i_mem i) [] [] None).
Proof.
  intros Ho. by rewrite click_eq, (has_key_Some _ _ _ Ho), (get_present _ _ _ Ho).
Qed.

(** A request of the tooltip always goes through [onVisibleChange] of
    the component, whatever the host passes as [onVisibleChange]: when
    [disabled] is set it changes nothing and is not reported; otherwise, in
    uncontrolled mode, the state becomes the requested value and the host
    is told by [onVisibleChange(value)] with no event. *)
Theorem request_handled i v :
  instance_ok i → PopconfirmProps_ok (i_props i) = true →
  has_key (i_props i) "visible" = false →
  ∃ i' s, gesture i (request i v) = Some (i', s)
    ∧ visible_of (i_mem i') =
        (if truthy (i_props i !!! "disabled") then visible_of (i_mem i) else v)
    ∧ s_trace s =
        (if truthy (i_props i !!! "disabled") then []
         else SetState 0 v ::
              notify (i_props i) "onVisibleChange" (VObj (i_props i)) [v; VUndef])
    ∧ s_error s = None.
Proof.
  intros [w Hi] Hty Hu. rewrite request_eq. cbn [gesture].
  rewrite (step_Invoke _ _ _ _ Hi). cbv zeta. eexists _, _. split; [done|].
  cbn [i_mem s_trace s_error]. unfold closure_body, closure. simpl.
  rewrite onVisibleChange_pair, Hi, visible_of_committed.
  destruct (truthy (i_props i !!! "disabled")); [done|].
  unfold trace, guarded_outcome, state_write. cbn [fst snd].
  rewrite Hu, optional_function_callable by auto with popconfirm.
  cbn [app]. by rewrite writes_cons_set, writes_notify.
Qed.

End gestures.

(** ** The gestures on the examples *)

Lemma click_closes_popup_witness :
  ∃ i' s,
    @gesture default_config mounted_open.1
      (@click default_config no_locale_provider no_render mounted_open.1
         ButtonOk (VStr "click")) = Some (i', s)
    ∧ visible_of (i_mem i') = VBool false
    ∧ calls (s_trace s) =
        notify (i_props mounted_open.1) "onVisibleChange"
          (VObj (i_props mounted_open.1)) [VBool false; VStr "click"]
        ++ notify (i_props mounted_open.1) (handler_name ButtonOk) VUndef
             [VStr "click"]
    ∧ s_error s = None.
Proof.
  apply (@click_closes_popup default_config no_locale_provider no_render
           mounted_open.1 ButtonOk (VStr "click"));
    [apply mounted_open_ok|by vm_compute..].
Defined.

Lemma shown_committed_witness :
  ∃ i' s,
    @step default_config mounted_open.1 (Invoke "onConfirm" [VStr "click"]) =
      Some (i', s)
    ∧ (last (s_frames s) = Some (@shown default_config i')
       ∨ (s_frames s = []
          ∧ @shown default_config i' = @shown default_config mounted_open.1)).
Proof.
  exact (@shown_committed default_config mounted_open.1
           (Invoke "onConfirm" [VStr "click"]) mounted_open_ok).
Defined.

Lemma click_overridden_witness :
  @gesture default_config hijacked
    (@click default_config no_locale_provider no_render hijacked ButtonOk
       (VStr "click")) =
  Some (hijacked, Settled (i_mem hijacked) [] [] None).
Proof.
  apply (@click_overridden default_config no_locale_provider no_render
           hijacked ButtonOk (VStr "click") 7).
  by vm_compute.
Defined.

Lemma request_handled_witness :
  ∃ i' s,
    @gesture default_config mounted_open.1
      (@request default_config mounted_open.1 (VBool false)) = Some (i', s)
    ∧ visible_of (i_mem i') =
        (if truthy (i_props mounted_open.1 !!! "disabled")
         then visible_of (i_mem mounted_open.1) else VBool false)
    ∧ s_trace s =
        (if truthy (i_props mounted_open.1 !!! "disabled") then []
         else SetState 0 (VBool false) ::
              notify (i_props mounted_open.1) "onVisibleChange"
                (VObj (i_props mounted_open.1)) [VBool false; VUndef])
    ∧ s_error s = None.
Proof.
  apply (@request_handled default_config mounted_open.1 (VBool false));
    [apply mounted_open_ok|by vm_compute..].
Defined.
