(* ===== verification/User.v ===== *)
(** * The user

    What the user can do depends on what is on the screen: the [Tooltip]
    shows the popup only while its [visible] prop is truthy, a [Button]
    that is disabled or loading does not react, and the trigger asks for the
    opposite of what is shown.  This file models that much of the two
    collaborators, derives the events of the component from the gestures of
    the user, and proves that the popup in the hands of the user is the
    two-state machine of the specification: hidden or shown, shown by the
    trigger, hidden by the trigger and by either button. *)

From S2P Require Import Prelude JsValue Effects React Collaborators.
From S2P Require Import Props Handlers Overlay Popconfirm Lifecycle.
From S2P Require Import Interaction.

(** ** The collaborators, as far as the user is concerned *)

(** [Tooltip]: the overlay is on the screen while [visible] is truthy. *)
Definition Tooltip_shows (el : value) : bool :=
  truthy (props_of el !!! "visible").

(** [Tooltip]: the trigger is activated, or the user clicks outside the
    overlay; the tooltip asks for the opposite of what it shows. *)
Definition Tooltip_toggle (el : value) : option event :=
  invoke (props_of el !!! "onVisibleChange") [VBool (negb (Tooltip_shows el))].

(** [Button]: a click calls [onClick(e)] unless the button is disabled or
    loading. *)
Definition Button_click (el e : value) : option event :=
  if truthy (props_of el !!! "disabled") || truthy (props_of el !!! "loading")
  then None
  else invoke (props_of el !!! "onClick") [e].

(** ** Gestures *)

(** The user presses a button of the popup, or activates the trigger (or
    clicks outside). *)
Inductive user : Type :=
| Press (b : button) (e : value)
| Toggle.

Section user.
Context `{!ConfigConsumer, !LocaleReceiver, !HostFunctions}.

(** The event a gesture is: a button can only be pressed while the popup
    is on the screen. *)
Definition user_event (i : instance) (u : user) : option event :=
  match u with
  | Press b e =>
      if Tooltip_shows (shown i) then Button_click (button_of b (popup i)) e
      else None
  | Toggle => Tooltip_toggle (shown i)
  end.

Definition act (i : instance) (u : user) : option (instance * settled) :=
  gesture i (user_event i u).

(** A sequence of gestures: the instance it leaves and what the component
    did, in order. *)
Fixpoint user_run (i : instance) (us : list user)
    : option (instance * list op) :=
  match us with
  | [] => Some (i, [])
  | u :: us =>
      r ← act i u;
      r' ← user_run r.1 us;
      Some (r'.1, s_trace r.2 ++ r'.2)
  end.

End user.

(** The host has left the button [b] as the component made it: it has not
    replaced its [onClick], nor disabled it. *)
Definition intact (props : obj) (b : button) : bool :=
  negb (has_key (spread (props !!! overrides b)) "onClick")
  && negb (truthy (spread (props !!! overrides b) !!! "disabled"))
  && negb (truthy (spread (props !!! overrides b) !!! "loading")).

(** ** The visibility machine of the specification *)

(** The popup is hidden or shown.  Either button hides it; the trigger
    shows it when it is hidden and hides it when it is shown, unless the
    popup is disabled. *)
Definition machine (disabled shown : bool) (u : user) : bool :=
  match u with
  | Press _ _ => false
  | Toggle => if disabled then shown else negb shown
  end.

(** The closure a gesture calls, and its arguments, on a popup whose state
    is [v] and whose buttons are those the component made. *)
Definition called (v : value) (u : user) : option (string * list value) :=
  match u with
  | Press b e => if truthy v then Some (handler_name b, [e]) else None
  | Toggle => Some ("onVisibleChange", [VBool (negb (truthy v))])
  end.

(** The state a gesture leaves in the component. *)
Definition state_after (disabled : bool) (v : value) (u : user) : value :=
  match u with
  | Press _ _ => if truthy v then VBool false else v
  | Toggle => if disabled then v else VBool (negb (truthy v))
  end.

(** A popup whose OK button the host has disabled. *)
Definition locked_props : obj :=
  <["okButtonProps":=VObj {[ "disabled" := VBool true ]}]> open_props.

Definition locked : instance :=
  Instance locked_props VNull (committed locked_props (VBool true)).

(** A popup whose host passes [visible={undefined}]. *)
Definition unset_props : obj := <["visible":=VUndef]> uncontrolled_props.

Definition unset : instance * settled :=
  default nowhere (@mount default_config unset_props VNull).

(** Gestures of the examples: the popup is answered twice, opened, and
    dismissed. *)
Definition hasty : list user :=
  [Press ButtonOk (VStr "click"); Press ButtonOk (VStr "click");
   Toggle; Toggle].

(** ** From the screen to the events *)

Section screen.
Context `{!ConfigConsumer, !LocaleReceiver, !HostFunctions}.
Implicit Types (i : instance) (b : button) (u : user) (e v : value).

Lemma Tooltip_shows_shown i :
  Tooltip_shows (shown i) = truthy (visible_of (i_mem i)).
Proof. unfold Tooltip_shows, shown. by rewrite get_tooltip_visible. Qed.

Lemma Tooltip_toggle_shown i :
  Tooltip_toggle (shown i) =
    Some (Invoke "onVisibleChange"
            [VBool (negb (truthy (visible_of (i_mem i))))]).
Proof.
  unfold Tooltip_toggle. rewrite Tooltip_shows_shown. apply request_eq.
Qed.

(** The closure the tooltip calls. *)
Lemma closure_body_request props v :
  closure_body props "onVisibleChange" [v] = onVisibleChange props setVisible v.
Proof. done. Qed.

(** A prop of a button that the component does not set is the one the
    host gave. *)
Lemma get_button_override i b k :
  k ∉ reserved_props → k ≠ "children" →
  k ∉ ["onClick"; "size"; "type"] →
  props_of (button_of b (popup i)) !!! k =
    spread (i_props i !!! overrides b) !!! k.
Proof.
  intros Hr Hc Hk. unfold popup. rewrite rendered_overlay_eq.
  assert (cancel_base !!! k = VUndef ∧ ok_base (i_props i) !!! k = VUndef)
    as [Hcb Hob].
  { rewrite !not_elem_of_cons in Hk. destruct Hk as (? & ? & ? & _).
    unfold cancel_base, ok_base.
    by rewrite !lookup_total_insert_ne, !lookup_total_singleton_ne. }
  destruct b; cbn [button_of overrides];
    rewrite ?get_cancel_button, ?get_ok_button, ?Hcb, ?Hob by done;
    destruct (has_key _ k) eqn:E; by rewrite ?(get_absent _ _ E).
Qed.

(** A click on a button of the popup, from the props of the host: the
    overrides decide whether the button reacts and what it calls. *)
Lemma Button_click_eq i b e :
  Button_click (button_of b (popup i)) e =
    let o := spread (i_props i !!! overrides b) in
    if truthy (o !!! "disabled") || truthy (o !!! "loading") then None
    else if has_key o "onClick" then invoke (o !!! "onClick") [e]
    else Some (Invoke (handler_name b) [e]).
Proof.
  unfold Button_click. rewrite !get_button_override by compute_done.
  fold (click i b e). by rewrite click_eq.
Qed.

(** A click on an intact button is the call of the closure of the
    component. *)
Lemma Button_click_intact i b e :
  intact (i_props i) b = true →
  Button_click (button_of b (popup i)) e = Some (Invoke (handler_name b) [e]).
Proof.
  unfold intact. rewrite !andb_true_iff, !negb_true_iff.
  intros [[Ho Hd] Hl]. rewrite Button_click_eq. cbv zeta. by rewrite Hd, Hl, Ho.
Qed.

(** The event a gesture is, from the props and the state. *)
Lemma user_event_eq i u :
  user_event i u =
    match u with
    | Press b e =>
        let o := spread (i_props i !!! overrides b) in
        if truthy (visible_of (i_mem i))
        then if truthy (o !!! "disabled") || truthy (o !!! "loading") then None
             else if has_key o "onClick" then invoke (o !!! "onClick") [e]
             else Some (Invoke (handler_name b) [e])
        else None
    | Toggle =>
        Some (Invoke "onVisibleChange"
                [VBool (negb (truthy (visible_of (i_mem i))))])
    end.
Proof.
  destruct u as [b e|]; cbn [user_event].
  - by rewrite Tooltip_shows_shown, Button_click_eq.
  - apply Tooltip_toggle_shown.
Qed.

End screen.

(** ** The popup in the hands of the user *)

Section machine.
Context `{!ConfigConsumer, !LocaleReceiver, !HostFunctions}.
Implicit Types (i : instance) (b : button) (u : user) (e v : value).

(** The machine follows the state of the component. *)
Lemma truthy_state_after d v u :
  truthy (state_after d v u) = machine d (truthy v) u.
Proof. destruct u; simpl; [by destruct (truthy v) eqn:E|by destruct d]. Qed.

(** The event of a gesture on buttons the host has left as they were. *)
Lemma user_event_intact i u v :
  i_mem i = committed (i_props i) v →
  (∀ b e, u = Press b e → intact (i_props i) b = true) →
  user_event i u = (λ c, Invoke c.1 c.2) <$> called v u.
Proof.
  intros Hi Hb. destruct u as [b e|]; cbn [user_event called].
  - rewrite Tooltip_shows_shown, Hi, visible_of_committed.
    destruct (truthy v); [|done]. by rewrite Button_click_intact by eauto.
  - by rewrite Tooltip_toggle_shown, Hi, visible_of_committed.
Qed.

(** A gesture on buttons the host has left as they were is the call of
    the closure it reaches, or nothing at all. *)
Lemma act_called i u v :
  i_mem i = committed (i_props i) v →
  (∀ b e, u = Press b e → intact (i_props i) b = true) →
  act i u =
    match called v u with
    | Some (name, args) => step i (Invoke name args)
    | None => Some (i, Settled (i_mem i) [] [] None)
    end.
Proof.
  intros Hi Hb. unfold act. rewrite (user_event_intact i u v Hi Hb).
  by destruct (called v u) as [[??]|].
Qed.

(** The state the closure of a gesture leaves in an uncontrolled popup. *)
Lemma state_after_called props v u name args :
  has_key props "visible" = false → called v u = Some (name, args) →
  last_write v (writes 0 (trace (closure_body props name args))) =
    state_after (truthy (props !!! "disabled")) v u.
Proof.
  intros Hu. rewrite writes_closure_body, Hu, orb_false_r.
  destruct u as [b e|]; cbn [called state_after].
  - destruct (truthy v); [|done]. intros [= <- <-].
    by rewrite decide_True by (destruct b; auto).
  - intros [= <- <-].
    rewrite decide_False, decide_True by (done || by intros [|]).
    by destruct (truthy (props !!! "disabled")).
Qed.

(** A gesture that calls nothing leaves the state as it is. *)
Lemma state_after_idle d v u : called v u = None → state_after d v u = v.
Proof. destruct u; cbn [called state_after]; by destruct (truthy v). Qed.

(** One gesture on an uncontrolled popup, in closed form: the props stay,
    the state is the one the machine predicts. *)
Lemma act_closed i u v :
  i_mem i = committed (i_props i) v →
  has_key (i_props i) "visible" = false →
  (∀ b e, u = Press b e → intact (i_props i) b = true) →
  ∃ s, act i u =
    Some (Instance (i_props i) (i_ref i)
            (committed (i_props i)
               (state_after (truthy (i_props i !!! "disabled")) v u)), s)
    ∧ s_trace s =
        match user_event i u with
        | Some (Invoke name args) => trace (closure_body (i_props i) name args)
        | _ => []
        end.
Proof.
  intros Hi Hu Hb. unfold act. rewrite (user_event_intact i u v Hi Hb).
  destruct (called v u) as [[name args]|] eqn:Hc; cbn [fmap option_fmap
    option_map gesture fst snd].
  - rewrite (step_Invoke _ _ _ _ Hi). cbv zeta.
    rewrite (state_after_called _ _ _ _ _ Hu Hc). by eexists.
  - rewrite (state_after_idle _ _ _ Hc).
    destruct i as [props ref mem]. cbn in Hi. subst mem. by eexists.
Qed.

(** The machine follows the component over a sequence of gestures. *)
Lemma truthy_foldl_state_after d v us :
  truthy (foldl (state_after d) v us) = foldl (machine d) (truthy v) us.
Proof.
  revert v. induction us as [|u us IH]; intros v; [done|].
  cbn [foldl]. by rewrite IH, truthy_state_after.
Qed.

(** A sequence of gestures on an uncontrolled popup, in closed form. *)
Lemma user_run_closed i us v :
  i_mem i = committed (i_props i) v →
  has_key (i_props i) "visible" = false →
  (∀ b, intact (i_props i) b = true) →
  ∃ t, user_run i us =
    Some (Instance (i_props i) (i_ref i)
            (committed (i_props i)
               (foldl (state_after (truthy (i_props i !!! "disabled"))) v us)),
          t).
Proof.
  revert i v.
  induction us as [|u us IH]; intros i v Hi Hu Hb; cbn [user_run foldl].
  - destruct i as [props ref mem]. cbn in Hi. subst mem. by eexists.
  - destruct (act_closed i u v Hi Hu) as (s & -> & _); [by eauto|].
    cbn [mbind option_bind fst snd].
    match goal with |- context [user_run ?j us] =>
      destruct (IH j _ eq_refl Hu Hb) as (t & ->) end.
    by eexists.
Qed.

(** C16.  In the hands of the user the uncontrolled popup is the two-state
    machine of the specification: whatever the user does, the gestures are
    all handled, and the popup is on the screen exactly when the machine
    is in its shown state: hidden by either button, toggled by the trigger
    unless the popup is disabled.  (The buttons are those the component
    made: the host has not replaced their [onClick] nor disabled them.) *)
Theorem user_run_machine i us :
  instance_ok i → has_key (i_props i) "visible" = false →
  (∀ b, intact (i_props i) b = true) →
  ∃ i' t, user_run i us = Some (i', t)
    ∧ i_props i' = i_props i
    ∧ Tooltip_shows (shown i') =
        foldl (machine (truthy (i_props i !!! "disabled")))
          (Tooltip_shows (shown i)) us.
Proof.
  intros [v Hi] Hu Hb. destruct (user_run_closed i us v Hi Hu Hb) as (t & ->).
  eexists _, _. split; [done|]. split; [done|].
  rewrite !Tooltip_shows_shown, Hi. cbn [i_mem].
  by rewrite !visible_of_committed, truthy_foldl_state_after.
Qed.

(** C27.  Opening and dismissing the popup is a round trip: on an
    uncontrolled popup that is not disabled and whose state is a boolean,
    two activations of the trigger bring the instance back to where it
    was, and the host has been told of the change and of the change back,
    in this order. *)
Theorem toggle_twice i (b : bool) :
  i_mem i = committed (i_props i) (VBool b) →
  has_key (i_props i) "visible" = false →
  truthy (i_props i !!! "disabled") = false →
  ∃ i1 s1 s2, act i Toggle = Some (i1, s1) ∧ act i1 Toggle = Some (i, s2)
    ∧ calls (s_trace s1 ++ s_trace s2) =
        notify (i_props i) "onVisibleChange" (VObj (i_props i))
          [VBool (negb b); VUndef]
        ++ notify (i_props i) "onVisibleChange" (VObj (i_props i))
             [VBool b; VUndef].
Proof.
  intros Hi Hu Hd.
  destruct (act_closed i Toggle _ Hi Hu) as (s1 & Hs1 & Ht1); [done|].
  destruct (act_closed
    (Instance (i_props i) (i_ref i) (committed (i_props i) (VBool (negb b))))
    Toggle _ eq_refl Hu) as (s2 & Hs2 & Ht2); [done|].
  cbn [i_props i_ref] in Hs2, Ht2. rewrite Hd in Hs1, Hs2.
  cbn [state_after truthy] in Hs1, Hs2. rewrite negb_involutive, <- Hi in Hs2.
  eexists _, s1, s2. split; [exact Hs1|]. split; [by destruct i|].
  cbn [user_event] in Ht1, Ht2.
  rewrite Ht1, Ht2, !Tooltip_toggle_shown, Hi. cbn [i_mem i_props].
  rewrite !visible_of_committed. cbn [truthy].
  rewrite !closure_body_request, !onVisibleChange_pair, Hd.
  cbn [trace fst]. rewrite negb_involutive.
  by autorewrite with js.
Qed.

(** C32.  The popup has no terminal state: whatever state an uncontrolled
    popup that is not disabled is in, the user can bring it to the screen
    and can take it off the screen, with at most one activation of the
    trigger. *)
Theorem popup_reusable i (target : bool) :
  instance_ok i → has_key (i_props i) "visible" = false →
  truthy (i_props i !!! "disabled") = false →
  ∃ us i' t, user_run i us = Some (i', t)
    ∧ Tooltip_shows (shown i') = target
    ∧ length us ≤ 1.
Proof.
  intros [v Hi] Hu Hd.
  destruct (decide (Tooltip_shows (shown i) = target)) as [Ht|Ht].
  - exists [], i, []. auto.
  - exists [Toggle]. cbn [user_run].
    destruct (act_closed i Toggle v Hi Hu) as (s & -> & _); [done|].
    cbn [mbind option_bind fst snd]. eexists _, _. split; [done|].
    split; [|done]. rewrite Tooltip_shows_shown in *. rewrite Hi in Ht.
    cbn [i_mem]. rewrite visible_of_committed in *. rewrite Hd.
    cbn [state_after truthy]. by destruct (truthy v), target.
Qed.

End machine.

(** ** The gestures on the examples *)

Lemma user_run_machine_witness :
  ∃ i' t,
    @user_run default_config no_locale_provider no_render mounted_open.1 hasty
      = Some (i', t)
    ∧ i_props i' = i_props mounted_open.1
    ∧ Tooltip_shows (@shown default_config i') =
        foldl (machine (truthy (i_props mounted_open.1 !!! "disabled")))
          (Tooltip_shows (@shown default_config mounted_open.1)) hasty.
Proof.
  refine (@user_run_machine default_config no_locale_provider no_render
            mounted_open.1 hasty mounted_open_ok _ _);
    [by vm_compute|by intros []; vm_compute].
Defined.

Lemma popup_reusable_witness :
  ∃ us i' t,
    @user_run default_config no_locale_provider no_render confirmed.1 us
      = Some (i', t)
    ∧ Tooltip_shows (@shown default_config i') = true
    ∧ length us ≤ 1.
Proof.
  refine (@popup_reusable default_config no_locale_provider no_render
            confirmed.1 true _ _ _); [by exists (VBool false)|by vm_compute..].
Defined.

Lemma toggle_twice_witness :
  ∃ i1 s1 s2,
    @act default_config no_locale_provider no_render mounted_open.1 Toggle
      = Some (i1, s1)
    ∧ @act default_config no_locale_provider no_render i1 Toggle
      = Some (mounted_open.1, s2)
    ∧ calls (s_trace s1 ++ s_trace s2) =
        notify (i_props mounted_open.1) "onVisibleChange"
          (VObj (i_props mounted_open.1)) [VBool (negb true); VUndef]
        ++ notify (i_props mounted_open.1) "onVisibleChange"
             (VObj (i_props mounted_open.1)) [VBool true; VUndef].
Proof.
  refine (@toggle_twice default_config no_locale_provider no_render
            mounted_open.1 true _ _ _); by vm_compute.
Defined.

(** The popup is answered once: the second press finds it hidden and
    reaches nobody; then it is opened and dismissed. *)
Example hasty_heard :
  (calls <$> (snd <$> @user_run default_config no_locale_provider no_render
                mounted_open.1 hasty)) =
  Some [Call (VFun (Host 3)) (VObj open_props) [VBool false; VStr "click"];
        Call (VFun (Host 1)) VUndef [VStr "click"];
        Call (VFun (Host 3)) (VObj open_props) [VBool true; VUndef];
        Call (VFun (Host 3)) (VObj open_props) [VBool false; VUndef]].
Proof. by vm_compute. Qed.

(** A disabled OK button cannot be pressed: the popup stays open. *)
Example locked_press :
  @act default_config no_locale_provider no_render locked
    (Press ButtonOk (VStr "click")) =
  Some (locked, Settled (i_mem locked) [] [] None).
Proof. by vm_compute. Qed.

(** A [visible] prop that is present and [undefined] makes the popup
    controlled: the trigger never opens it, and the host is asked to show
    it each time. *)
Example unset_never_opens :
  (λ r, (Tooltip_shows (@shown default_config r.1), calls r.2)) <$>
    @user_run default_config no_locale_provider no_render unset.1
      [Toggle; Toggle] =
  Some (false,
        [Call (VFun (Host 3)) (VObj unset_props) [VBool true; VUndef];
         Call (VFun (Host 3)) (VObj unset_props) [VBool true; VUndef]]).
Proof. by vm_compute. Qed.
