(* ===== verification/System.v ===== *)
(** * The whole system: user, popup and host

    The user acts on what the collaborators show ([User]), the component
    handles the event, and the host reacts and renders the component again
    ([Host]).  This file composes the three and proves the end-to-end
    property of the controlled popup: with a host that echoes
    [onVisibleChange] into [visible], the user cannot tell the controlled
    popup from the uncontrolled one.  It also runs the user against a host
    whose callbacks may throw ([Callbacks]) and proves that the
    uncontrolled popup stays the two-state machine of the specification
    whatever those callbacks do. *)

From S2P Require Import Prelude JsValue Effects React Collaborators.
From S2P Require Import Props Handlers Overlay Popconfirm Lifecycle.
From S2P Require Import Host Callbacks Interaction User.

Section system.
Context `{!ConfigConsumer, !LocaleReceiver, !HostFunctions}.
Context {St : Type} (a : app St).

(** A gesture of the user on the popup of a host. *)
Definition system_act (σ : St * instance) (u : user)
    : option ((St * instance) * list op) :=
  match user_event σ.2 u with
  | Some ev => system_step a σ ev
  | None => Some (σ, [])
  end.

Fixpoint system_user_run (σ : St * instance) (us : list user)
    : option ((St * instance) * list op) :=
  match us with
  | [] => Some (σ, [])
  | u :: us =>
      r ← system_act σ u;
      r' ← system_user_run r.1 us;
      Some (r'.1, r.2 ++ r'.2)
  end.

End system.

Section hosted.
Context `{!ConfigConsumer, !LocaleReceiver, !HostFunctions}.
Context {St : Type} (a : app St) (throws : St → op → option value).

(** A gesture of the user on the popup of a host whose callbacks run: the
    closure the gesture reaches is called against the host.  (The host
    reacts in its own state and does not render the popup again between
    two gestures, so the props of the popup stay; [hosted_step] of
    [Callbacks] is the call followed by a render of the host.) *)
Definition hosted_act (σ : St * instance) (u : user)
    : option ((St * instance) * settled) :=
  match user_event σ.2 u with
  | Some (Invoke name args) => hosted_invoke a throws σ name args
  | _ => Some (σ, Settled (i_mem σ.2) [] [] None)
  end.

(** A sequence of gestures: the host and the popup at the end, what the
    component did, and the exceptions that reached React, in order. *)
Fixpoint hosted_user_run (σ : St * instance) (us : list user)
    : option ((St * instance) * (list op * list error)) :=
  match us with
  | [] => Some (σ, ([], []))
  | u :: us =>
      r ← hosted_act σ u;
      r' ← hosted_user_run r.1 us;
      Some (r'.1, (s_trace r.2 ++ r'.2.1,
                   match s_error r.2 with
                   | Some e => e :: r'.2.2
                   | None => r'.2.2
                   end))
  end.

End hosted.

(** The user opens the popup, answers it, presses again, and opens it
    again. *)
Definition busy : list user :=
  [Toggle; Press ButtonOk (VStr "click"); Press ButtonCancel (VStr "click");
   Toggle].

(** The user answers the popup, opens it again, and cancels. *)
Definition insistent : list user :=
  [Press ButtonOk (VStr "click"); Toggle; Press ButtonCancel (VStr "click")].

(** ** The echoing host and the user *)

Section echo.
Context `{!ConfigConsumer, !LocaleReceiver, !HostFunctions}.
Variable base : obj.
Hypothesis Hu : has_key base "visible" = false.
Hypothesis Hf : is_function (base !!! "onVisibleChange") = true.
Hypothesis Hc : base !!! "onConfirm" ≠ base !!! "onVisibleChange".
Hypothesis Hx : base !!! "onCancel" ≠ base !!! "onVisibleChange".
Implicit Types (v : value) (u : user) (us : list user).

(** The user has the same gestures on the two popups: what is on the
    screen does not depend on who holds the visibility. *)
Lemma user_event_echo ref v u :
  user_event (popup_of (echo base) v ref v).2 u =
  user_event (Instance base ref (committed base v)) u.
Proof.
  rewrite !user_event_eq. cbn [popup_of snd i_props i_mem].
  rewrite !visible_of_committed.
  destruct u as [b e|]; [|done].
  by rewrite (echo_props_ne base v (overrides b)) by (by destruct b).
Qed.

(** The events of the user are calls of closures. *)
Lemma user_event_invoked i u ev : user_event i u = Some ev → invoked ev.
Proof.
  rewrite user_event_eq. destruct u as [b e|]; [|by intros [= <-]].
  cbv zeta. repeat case_bool; try done; [|by intros [= <-]].
  by destruct (_ !!! "onClick") as [| | | | |[]| | |]; intros [= <-].
Qed.

(** C15.  Controlled by a host that echoes [onVisibleChange] into [visible],
    the popup is, for its user and for its host, the uncontrolled popup:
    whatever the user does (presses on the buttons, activations of the
    trigger), both settle, the popup of the host shows the visibility the
    uncontrolled popup has, the host's value and the [visible] prop are that
    visibility, and the host has heard the same callbacks with the same
    arguments.  (The props the host starts from have no [visible], their
    [onVisibleChange] is a function, and neither [onConfirm] nor [onCancel]
    is that same function: the echoing host tells its callbacks apart by
    the function called.) *)
Theorem echo_user_equiv ref v us :
  ∃ i t t',
    user_run (Instance base ref (committed base v)) us = Some (i, t)
    ∧ system_user_run (echo base) (popup_of (echo base) v ref v) us =
        Some (popup_of (echo base) (visible_of (i_mem i)) ref
                (visible_of (i_mem i)), t')
    ∧ heard t' = heard t.
Proof.
  revert v. induction us as [|g us IH]; intros v;
    cbn [user_run system_user_run].
  - by eexists _, _, _.
  - unfold system_act, act. rewrite user_event_echo.
    destruct (user_event _ g) as [ev|] eqn:Hev; cbn [gesture].
    + apply user_event_invoked in Hev. destruct ev as [|name args]; [done|].
      destruct (plain_step base ref v name args) as (s & -> & Hs).
      destruct (echo_step base Hu Hf Hc Hx ref v name args) as (u & -> & Hu1).
      cbn [mbind option_bind fst snd].
      destruct (IH (visible_after base v (Invoke name args)))
        as (i & t & u' & -> & -> & Hu').
      cbn [mbind option_bind fst snd]. eexists _, _, _.
      repeat split. by rewrite !heard_app, Hs, Hu1, Hu'.
    + cbn [mbind option_bind fst snd].
      destruct (IH v) as (i & t & u' & -> & -> & Hu').
      cbn [mbind option_bind fst snd s_trace]. by eexists _, _, _.
Qed.

End echo.

(** ** The user and a host whose callbacks may throw *)

Section robust.
Context `{!ConfigConsumer, !LocaleReceiver, !HostFunctions}.
Context {St : Type} (a : app St) (throws : St → op → option value).
Implicit Types (s : St) (i : instance) (u : user) (us : list user).

(** One gesture, in closed form: the state of the popup does not depend
    on what the callbacks did. *)
Lemma hosted_act_closed s i u v :
  i_mem i = committed (i_props i) v →
  has_key (i_props i) "visible" = false →
  (∀ b e, u = Press b e → intact (i_props i) b = true) →
  ∃ s' r, hosted_act a throws (s, i) u =
    Some ((s', Instance (i_props i) (i_ref i)
                 (committed (i_props i)
                    (state_after (truthy (i_props i !!! "disabled")) v u))), r).
Proof.
  intros Hi Hu Hb. unfold hosted_act. cbn [snd].
  rewrite (user_event_intact i u v Hi Hb).
  destruct (called v u) as [[name args]|] eqn:Hc;
    cbn [fmap option_fmap option_map fst snd].
  - rewrite (hosted_invoke_closed a throws s i name args v Hi). cbv zeta.
    rewrite (state_after_called _ _ _ _ _ Hu Hc). by eexists _, _.
  - rewrite (state_after_idle _ _ _ Hc).
    destruct i as [props ref mem]. cbn in Hi. subst mem. by eexists _, _.
Qed.

(** C17.  Whatever the callbacks of the host do, return or throw, the
    uncontrolled popup in the hands of the user is the two-state machine
    of the specification: every gesture is handled, the props stay, and
    the popup is on the screen exactly when the machine is in its shown
    state.  (The buttons are those the component made.) *)
Theorem hosted_user_machine s i us :
  instance_ok i → has_key (i_props i) "visible" = false →
  (∀ b, intact (i_props i) b = true) →
  ∃ s' i' t, hosted_user_run a throws (s, i) us = Some ((s', i'), t)
    ∧ i_props i' = i_props i
    ∧ Tooltip_shows (shown i') =
        foldl (machine (truthy (i_props i !!! "disabled")))
          (Tooltip_shows (shown i)) us.
Proof.
  intros Hi Hu Hb. revert s i Hi Hu Hb.
  induction us as [|u us IH]; intros s i [v Hi] Hu Hb;
    cbn [hosted_user_run foldl].
  - by eexists _, _, _.
  - destruct (hosted_act_closed s i u v Hi Hu) as (s1 & r & ->); [by eauto|].
    cbn [mbind option_bind fst snd].
    match goal with |- context [hosted_user_run _ _ (?s1, ?j) us] =>
      destruct (IH s1 j) as (s' & i' & t & -> & Hp & Hs);
        [by eexists|done..|] end.
    cbn [mbind option_bind fst snd i_props] in *. eexists _, _, _.
    split; [done|]. split; [done|]. rewrite Hs.
    rewrite !Tooltip_shows_shown, Hi. cbn [i_mem i_props].
    by rewrite !visible_of_committed, truthy_state_after.
Qed.

End robust.

(** ** The system on the examples *)

Lemma hosted_user_machine_witness :
  ∃ s' i' t,
    @hosted_user_run default_config no_locale_provider no_render nat
      counting fussy (0, counted.2) insistent = Some ((s', i'), t)
    ∧ i_props i' = i_props counted.2
    ∧ Tooltip_shows (@shown default_config i') =
        foldl (machine (truthy (i_props counted.2 !!! "disabled")))
          (Tooltip_shows (@shown default_config counted.2)) insistent.
Proof.
  refine (@hosted_user_machine default_config no_locale_provider no_render
            nat counting fussy 0 counted.2 insistent counted_ok _ _);
    [by vm_compute|by intros []; vm_compute].
Defined.

(** The insistent user and the fussy host: every call of
    [onVisibleChange] throws, the popup follows the user all the same, and
    [onConfirm] and [onCancel] are never called. *)
Example insistent_fussy :
  (λ r, (r.1.1, Tooltip_shows (@shown default_config r.1.2),
         heard r.2.1, r.2.2)) <$>
    @hosted_user_run default_config no_locale_provider no_render nat
      counting fussy (0, counted.2) insistent =
  Some (3, false,
        [(VFun (Host 3), [VBool false; VStr "click"]);
         (VFun (Host 3), [VBool true; VUndef]);
         (VFun (Host 3), [VBool false; VStr "click"])],
        [Thrown (VStr "busy"); Thrown (VStr "busy"); Thrown (VStr "busy")]).
Proof. by vm_compute. Qed.

Lemma echo_user_equiv_witness :
  ∃ i t t',
    @user_run default_config no_locale_provider no_render
      (Instance uncontrolled_props VNull
         (committed uncontrolled_props (VBool false))) busy = Some (i, t)
    ∧ @system_user_run default_config no_locale_provider no_render value
        (echo uncontrolled_props)
        (popup_of (echo uncontrolled_props) (VBool false) VNull (VBool false))
        busy =
        Some (popup_of (echo uncontrolled_props) (visible_of (i_mem i)) VNull
                (visible_of (i_mem i)), t')
    ∧ heard t' = heard t.
Proof.
  refine (@echo_user_equiv default_config no_locale_provider no_render
            uncontrolled_props _ _ _ _ VNull (VBool false) busy);
    by vm_compute.
Defined.

(** What the host of the controlled popup hears from the busy user: the
    press on the hidden popup reaches nobody. *)
Example busy_heard :
  (heard <$> (snd <$>
     @system_user_run default_config no_locale_provider no_render value
       (echo uncontrolled_props)
       (popup_of (echo uncontrolled_props) (VBool false) VNull (VBool false))
       busy)) =
  Some [(VFun (Host 3), [VBool true; VUndef]);
        (VFun (Host 3), [VBool false; VStr "click"]);
        (VFun (Host 1), [VStr "click"]);
        (VFun (Host 3), [VBool true; VUndef])].
Proof. by vm_compute. Qed.
