(* ===== verification/Spec.v ===== *)
(** * The specification: a visibility machine

    What the component promises its host, without React: a machine whose
    state is the visibility of the popup and whose configuration is the
    little of the props the visibility depends on.  A click on a button, a
    request of the tooltip and a new configuration are its requests; the
    calls of the host's callbacks are its notifications.  The component is
    proved to refine the machine: every event of an instance is a step of
    the machine on the view of that instance, with the same state after it
    and the same calls, in the same order; when a callback of the host
    throws, the state is still that of the machine and the calls are the
    notifications up to the exception. *)

From S2P Require Import Prelude JsValue Effects React Collaborators.
From S2P Require Import Props Handlers Overlay Popconfirm Lifecycle.
From S2P Require Import Host Callbacks Interaction User.

(** ** The machine *)

(** The configuration: the controlling value ([visible]) and the default
    ([defaultVisible]) if they are given, whether the popup is disabled, and
    which callbacks the host listens with. *)
Record config : Type := Config {
  c_visible : option value;
  c_default : option value;
  c_disabled : bool;
  c_onVisibleChange : bool;
  c_onConfirm : bool;
  c_onCancel : bool;
}.

(** The state: the configuration in force and the visibility. *)
Record popup_state : Type := Popup {
  p_config : config;
  p_visible : value;
}.

Inductive request : Type :=
| Confirm (e : value)
| Cancel (e : value)
| Ask (v : value)
| Configure (c : config)
| Other.

Inductive notification : Type :=
| VisibleChanged (v e : value)
| Confirmed (e : value)
| Cancelled (e : value).

#[global] Instance config_eq_dec : EqDecision config.
Proof. solve_decision. Defined.

#[global] Instance popup_state_eq_dec : EqDecision popup_state.
Proof. solve_decision. Defined.

#[global] Instance notification_eq_dec : EqDecision notification.
Proof. solve_decision. Defined.

(** The controlling value and the default as the component reads them:
    [undefined] when they are not given. *)
Definition controlling (c : config) : value := default VUndef (c_visible c).

Definition defaulting (c : config) : value := default VUndef (c_default c).

(** The popup sets its visibility only when the host does not control
    it. *)
Definition set_visibility (c : config) (current new : value) : value :=
  if c_visible c is Some _ then current else new.

Definition tell (listening : bool) (n : notification) : list notification :=
  if listening then [n] else [].

(** Closing by a button: the visibility is set to [false], the host is
    told of the change and then of the choice. *)
Definition close (a : popup_state) (e : value) (listening : bool)
    (choice : notification) : popup_state * list notification :=
  (Popup (p_config a) (set_visibility (p_config a) (p_visible a) (VBool false)),
   tell (c_onVisibleChange (p_config a)) (VisibleChanged (VBool false) e)
   ++ tell listening choice).

(** A new configuration: a default that is given and has changed replaces
    the visibility; if not, a controlling value that is given and has
    changed does. *)
Definition reconfigure (old new : config) (current : value) : value :=
  if bool_decide (defaulting old ≠ defaulting new)
     && bool_decide (is_Some (c_default new))
  then defaulting new
  else if bool_decide (controlling old ≠ controlling new)
          && bool_decide (is_Some (c_visible new))
  then controlling new
  else current.

Definition spec_init (c : config) : popup_state :=
  Popup c (match c_default c with Some d => d | None => controlling c end).

Definition spec_step (a : popup_state) (r : request)
    : popup_state * list notification :=
  let c := p_config a in
  match r with
  | Confirm e => close a e (c_onConfirm c) (Confirmed e)
  | Cancel e => close a e (c_onCancel c) (Cancelled e)
  | Ask v =>
      if c_disabled c then (a, [])
      else (Popup c (set_visibility c (p_visible a) v),
            tell (c_onVisibleChange c) (VisibleChanged v VUndef))
  | Configure c' => (Popup c' (reconfigure c c' (p_visible a)), [])
  | Other => (a, [])
  end.

(** A run of the machine: the state it ends in and the notifications, in
    order. *)
Fixpoint spec_run (a : popup_state) (rs : list request)
    : popup_state * list notification :=
  match rs with
  | [] => (a, [])
  | r :: rs =>
      let '(a1, ns) := spec_step a r in
      let '(a2, ns') := spec_run a1 rs in
      (a2, ns ++ ns')
  end.

(** ** The component seen as the machine *)

(** The view of the props: what the machine knows of them. *)
Definition view (props : obj) : config :=
  {| c_visible := props !! "visible";
     c_default := props !! "defaultVisible";
     c_disabled := truthy (props !!! "disabled");
     c_onVisibleChange := is_function (props !!! "onVisibleChange");
     c_onConfirm := is_function (props !!! "onConfirm");
     c_onCancel := is_function (props !!! "onCancel") |}.

Definition abs (i : instance) : popup_state :=
  Popup (view (i_props i)) (visible_of (i_mem i)).

Definition request_of (ev : event) : request :=
  match ev with
  | NewProps props _ => Configure (view props)
  | Invoke name args =>
      if decide (name = "onConfirm") then Confirm (args !!! 0%nat)
      else if decide (name = "onCancel") then Cancel (args !!! 0%nat)
      else if decide (name = "onVisibleChange") then Ask (args !!! 0%nat)
      else Other
  end.

(** The call of the host's callback that a notification is. *)
Definition call_of (props : obj) (n : notification) : op :=
  match n with
  | VisibleChanged v e =>
      Call (props !!! "onVisibleChange") (VObj props) [v; e]
  | Confirmed e => Call (props !!! "onConfirm") VUndef [e]
  | Cancelled e => Call (props !!! "onCancel") VUndef [e]
  end.

(** The props in force after an event. *)
Definition props_after (props : obj) (ev : event) : obj :=
  match ev with
  | NewProps props' _ => props'
  | Invoke _ _ => props
  end.

(** The calls the host receives over a sequence of events, according to the
    machine: its notifications, each as the call of the callback of the
    props in force. *)
Fixpoint spec_calls (props : obj) (a : popup_state) (evs : list event)
    : list op :=
  match evs with
  | [] => []
  | ev :: evs =>
      let r := spec_step a (request_of ev) in
      (call_of props <$> r.2) ++ spec_calls (props_after props ev) r.1 evs
  end.

(** The request a gesture of the user is, on a popup that is shown or
    hidden: a button can be pressed only while the popup is shown, and the
    trigger asks for the opposite of what is shown. *)
Definition request_by (shown : bool) (u : user) : request :=
  match u with
  | Press ButtonOk e => if shown then Confirm e else Other
  | Press ButtonCancel e => if shown then Cancel e else Other
  | Toggle => Ask (VBool (negb shown))
  end.

(** The machine in the hands of the user: each gesture is the request it
    is in the state the machine is in. *)
Fixpoint spec_user_run (a : popup_state) (us : list user)
    : popup_state * list notification :=
  match us with
  | [] => (a, [])
  | u :: us =>
      let '(a1, ns) := spec_step a (request_by (truthy (p_visible a)) u) in
      let '(a2, ns') := spec_user_run a1 us in
      (a2, ns ++ ns')
  end.

(** A session of the open popup: OK is clicked, then the trigger. *)
Definition typical_events : list event :=
  [Invoke "onConfirm" [VStr "click"]; Invoke "onVisibleChange" [VBool true]].

Definition typical_session : instance * list op :=
  default (nowhere.1, [])
    (@session default_config open_props VNull typical_events).

(** Props are equivalent when the machine cannot tell them apart. *)
Definition view_equiv (props props' : obj) : Prop := view props = view props'.

(** ** The view *)

Section view.
Implicit Types (props old : obj) (v e : value) (cb : string).

Lemma controlling_view props : controlling (view props) = props !!! "visible".
Proof. unfold controlling. by rewrite lookup_total_alt. Qed.

Lemma defaulting_view props :
  defaulting (view props) = props !!! "defaultVisible".
Proof. unfold defaulting. by rewrite lookup_total_alt. Qed.

Lemma set_visibility_view props v v' :
  set_visibility (view props) v v' = if has_key props "visible" then v else v'.
Proof.
  unfold set_visibility, has_key. simpl.
  destruct (props !! "visible") eqn:E.
  - by rewrite bool_decide_eq_true_2.
  - rewrite bool_decide_eq_false_2; [done|]. by intros [? ?].
Qed.

(** The machine resynchronises as the two effects do. *)
Lemma reconfigure_view old props v :
  reconfigure (view old) (view props) v = synced_visible old props v.
Proof.
  unfold reconfigure, synced_visible.
  by rewrite !controlling_view, !defaulting_view.
Qed.

Lemma spec_init_view props :
  spec_init (view props) = Popup (view props) (initial_visible props).
Proof.
  unfold spec_init, initial_visible, has_key. rewrite controlling_view.
  rewrite (lookup_total_alt props "defaultVisible"). simpl.
  destruct (props !! "defaultVisible") eqn:E.
  - by rewrite bool_decide_eq_true_2.
  - rewrite bool_decide_eq_false_2; [done|]. by intros [? ?].
Qed.

(** A notification is the call of a callback, if the host listens. *)
Lemma call_of_tell props (n : notification) f this args :
  call_of props n = Call f this args →
  call_of props <$> tell (is_function f) n = callback_call f this args.
Proof.
  intros Hn. unfold tell, callback_call.
  destruct (is_function f); simpl; by rewrite ?Hn.
Qed.

End view.

(** ** Props the machine cannot tell apart *)

#[global] Instance view_equiv_equivalence : Equivalence view_equiv.
Proof.
  unfold view_equiv. split; [by intros ?|by intros ? ?|].
  intros ? ? ? ? ?. by etrans.
Qed.

Section equiv.
Implicit Types (props : obj).

Lemma view_equiv_visible props props' :
  view_equiv props props' →
  has_key props "visible" = has_key props' "visible"
  ∧ props !!! "visible" = props' !!! "visible"
  ∧ props !!! "defaultVisible" = props' !!! "defaultVisible"
  ∧ truthy (props !!! "disabled") = truthy (props' !!! "disabled").
Proof.
  intros Hv. rewrite <- !controlling_view, <- !defaulting_view, Hv.
  repeat split; [|by injection Hv].
  unfold has_key. by injection Hv as -> _.
Qed.

(** The state an event leaves depends on the props only through their
    view. *)
#[global] Instance visible_after_proper :
  Proper (view_equiv ==> (=) ==> (=) ==> (=)) visible_after.
Proof.
  intros props props' (Hk & Hv & Hd & Ht)%view_equiv_visible v _ <- ev _ <-.
  destruct ev as [p r|name args]; simpl.
  - unfold synced_visible. by rewrite Hv, Hd.
  - by rewrite !writes_closure_body, Hk, Ht.
Qed.

End equiv.

(** ** Refinement *)

Section refinement.
Context `{!ConfigConsumer}.
Implicit Types (props : obj) (i : instance) (ev : event) (v e : value).

(** Closing by a button, in the component and in the machine. *)
Lemma close_refines props cb e v choice :
  callable_or_falsy (props !!! "onVisibleChange") = true →
  callable_or_falsy (props !!! cb) = true →
  call_of props choice = Call (props !!! cb) VUndef [e] →
  let h := (_ ← settingVisible props setVisible (VBool false) e;
            when (truthy (props !!! cb)) (call (props !!! cb) VUndef [e])) in
  let r := close (Popup (view props) v) e (is_function (props !!! cb)) choice in
  r.1 = Popup (view props) (last_write v (writes 0 (trace h)))
  ∧ call_of props <$> r.2 = calls (trace h)
  ∧ h.2 = Ok ().
Proof.
  intros Hv Hc Hn. cbv zeta. rewrite close_then_cases, Hv.
  unfold close, trace, guarded_outcome. cbn [fst snd p_config p_visible].
  rewrite Hc, set_visibility_view, fmap_app. autorewrite with js.
  change (c_onVisibleChange (view props))
    with (is_function (props !!! "onVisibleChange")).
  rewrite (call_of_tell _ _ _ _ _ Hn),
    (call_of_tell props (VisibleChanged (VBool false) e) _ _ _ eq_refl).
  by destruct (has_key props "visible").
Qed.

Lemma closure_body_refines props name args v :
  PopconfirmProps_ok props = true →
  let h := closure_body props name args in
  let r := spec_step (Popup (view props) v) (request_of (Invoke name args)) in
  r.1 = Popup (view props) (last_write v (writes 0 (trace h)))
  ∧ call_of props <$> r.2 = calls (trace h)
  ∧ h.2 = Ok ().
Proof.
  intros Hty. cbv zeta. unfold closure_body, closure, request_of.
  repeat case_decide.
  - apply close_refines; auto with popconfirm.
  - apply close_refines; auto with popconfirm.
  - rewrite onVisibleChange_pair. cbn [spec_step p_config c_disabled view].
    destruct (truthy (props !!! "disabled")); [done|].
    unfold trace, guarded_outcome. cbn [fst snd p_visible c_onVisibleChange].
    rewrite set_visibility_view. autorewrite with js.
    change (c_onVisibleChange (view props))
      with (is_function (props !!! "onVisibleChange")).
    rewrite (call_of_tell props (VisibleChanged (args !!! 0%nat) VUndef)
      _ _ _ eq_refl).
    rewrite optional_function_callable by auto with popconfirm.
    by destruct (has_key props "visible").
  - done.
Qed.

(** One event: the machine follows, and the invariants of the simulation
    are kept. *)
Lemma step_simulates i ev i' s :
  instance_ok i → PopconfirmProps_ok (i_props i) = true →
  step i ev = Some (i', s) →
  instance_ok i'
  ∧ i_props i' = props_after (i_props i) ev
  ∧ (spec_step (abs i) (request_of ev)).1 = abs i'
  ∧ call_of (i_props i) <$> (spec_step (abs i) (request_of ev)).2 =
      calls (s_trace s)
  ∧ s_error s = None.
Proof.
  intros [v Hi] Hty Hs. unfold abs. rewrite Hi, visible_of_committed.
  destruct ev as [props ref|name args].
  - rewrite (step_NewProps _ _ _ _ Hi) in Hs. injection Hs as <- <-.
    cbn [spec_step request_of props_after p_config p_visible i_props i_mem
         s_trace s_error fst snd].
    rewrite reconfigure_view, calls_fmap_SetState.
    repeat split. by eexists.
  - rewrite (step_Invoke _ _ _ _ Hi) in Hs. injection Hs as <- <-.
    cbn [i_props i_mem s_trace s_error props_after].
    rewrite visible_of_committed.
    destruct (closure_body_refines (i_props i) name args v Hty)
      as (-> & -> & ->).
    repeat split. by eexists.
Qed.

(** Events of a well-typed host keep the props well typed. *)
Lemma props_after_ok props ev :
  PopconfirmProps_ok props = true → event_ok ev →
  PopconfirmProps_ok (props_after props ev) = true.
Proof. by destruct ev. Qed.

(** C11.  Every event of an instance is a step of the machine: the event
    is handled, on the view of the instance the machine reaches the view of
    the instance after the event, its notifications are the calls the host
    receives, in order, and the event does not throw. *)
Theorem step_refines i ev :
  instance_ok i → PopconfirmProps_ok (i_props i) = true →
  ∃ i' s, step i ev = Some (i', s)
    ∧ (spec_step (abs i) (request_of ev)).1 = abs i'
    ∧ call_of (i_props i) <$> (spec_step (abs i) (request_of ev)).2 =
        calls (s_trace s)
    ∧ s_error s = None.
Proof.
  intros Hi Hty. destruct (step_closed i ev Hi) as (s & Hs & _).
  eexists _, s. split; [exact Hs|].
  by destruct (step_simulates i ev _ s Hi Hty Hs) as (_ & _ & ?).
Qed.

(** A sequence of events is a run of the machine. *)
Lemma run_events_refines i evs i' t :
  instance_ok i → PopconfirmProps_ok (i_props i) = true →
  Forall event_ok evs → run_events i evs = Some (i', t) →
  (spec_run (abs i) (request_of <$> evs)).1 = abs i'
  ∧ calls t = spec_calls (i_props i) (abs i) evs.
Proof.
  intros Hi Hty Hevs. revert i t Hi Hty.
  induction Hevs as [|ev evs Hev _ IH]; intros i t Hi Hty; cbn [run_events].
  - by intros [= <- <-].
  - destruct (step i ev) as [[i1 s1]|] eqn:Hs; [|done]. cbn.
    destruct (run_events i1 evs) as [[i2 t2]|] eqn:Hr; [|done]. cbn.
    intros [= <- <-].
    destruct (step_simulates i ev i1 s1 Hi Hty Hs) as (Hi1 & Hp & Ha & Hc & _).
    pose proof (props_after_ok _ _ Hty Hev) as Hty1. rewrite <- Hp in Hty1.
    destruct (IH i1 t2 Hi1 Hty1 Hr) as [IHa IHc].
    rewrite calls_app, IHc, <- Hc, Hp, <- Ha.
    destruct (spec_step (abs i) (request_of ev)) as [a1 ns] eqn:E.
    cbn [fst snd] in *. subst a1. split; [|done].
    rewrite <- IHa. by destruct (spec_run (abs i1) _).
Qed.

(** C23.  A whole session refines a run of the machine: for a well-typed
    host, the component mounted with [props] and taken through a sequence
    of events always settles, in the state the machine reaches from its
    initial state for the view of [props] by the requests the events are,
    and the calls the host has received are the notifications of the
    machine, in order. *)
Theorem session_refines props ref evs :
  PopconfirmProps_ok props = true → Forall event_ok evs →
  ∃ i t, session props ref evs = Some (i, t)
    ∧ (spec_run (spec_init (view props)) (request_of <$> evs)).1 = abs i
    ∧ calls t = spec_calls props (spec_init (view props)) evs.
Proof.
  intros Hty Hevs.
  destruct (session_total props ref evs) as [[i t] Hs].
  exists i, t. split; [done|]. revert Hs.
  unfold session. rewrite mount_closed. cbn.
  destruct (run_events _ evs) as [[i1 t1]|] eqn:Hr; [|done]. cbn.
  intros [= <- <-]. rewrite spec_init_view, calls_app, calls_fmap_SetState.
  by apply (run_events_refines
    (Instance props ref (committed props (initial_visible props))) evs i1 t1);
    [eexists|..].
Qed.

(** The visibility does not depend on the props the machine does not
    see: two instances whose props have the same view (they may differ in
    title, texts, icon, button props, and in which functions the callbacks
    are) and the same state both handle the same event and have the same
    state after it. *)
Theorem view_determines_visible i j ev :
  instance_ok i → instance_ok j →
  view_equiv (i_props i) (i_props j) →
  visible_of (i_mem i) = visible_of (i_mem j) →
  ∃ i' j' s t, step i ev = Some (i', s) ∧ step j ev = Some (j', t)
    ∧ visible_of (i_mem i') = visible_of (i_mem j').
Proof.
  intros Hi Hj Hv Hm.
  destruct (step_closed i ev Hi) as (s & Hs & _).
  destruct (step_closed j ev Hj) as (t & Ht & _).
  eexists _, _, s, t. split; [exact Hs|]. split; [exact Ht|].
  rewrite (step_visible _ _ _ _ Hi Hs), (step_visible _ _ _ _ Hj Ht).
  by rewrite Hv, Hm.
Qed.

End refinement.

(** ** The machine and a host whose callbacks may throw *)

Section hosted.
Context `{!ConfigConsumer} {St : Type}.
Context (a : app St) (throws : St → op → option value).
Implicit Types (s : St) (i : instance) (name : string) (args : list value).

(** C18.  The machine does not depend on what the callbacks do: for
    well-typed props and an instance at rest, whatever the host does when
    it is called, a call of a closure is handled and leaves the popup in
    the state the machine reaches; the calls the host has received are a
    prefix of the notifications of the machine, and all of them if nothing
    was thrown. *)
Theorem hosted_refines s i name args :
  instance_ok i → PopconfirmProps_ok (i_props i) = true →
  let ns := call_of (i_props i) <$>
              (spec_step (abs i) (request_of (Invoke name args))).2 in
  ∃ s' i' r, hosted_invoke a throws (s, i) name args = Some ((s', i'), r)
    ∧ (spec_step (abs i) (request_of (Invoke name args))).1 = abs i'
    ∧ calls (s_trace r) `prefix_of` ns
    ∧ (s_error r = None → calls (s_trace r) = ns).
Proof.
  intros [v Hi] Hty ns. subst ns.
  rewrite (hosted_invoke_closed a throws s i name args v Hi). cbv zeta.
  eexists _, _, _. split; [done|]. unfold abs.
  rewrite Hi, visible_of_committed. cbn [i_props i_mem s_trace s_error].
  rewrite visible_of_committed.
  destruct (closure_body_refines (i_props i) name args v Hty)
    as (-> & -> & _).
  split; [done|]. split; [apply calls_prefix, trace_run_closure_prefix|].
  pose proof (run_closure_returned a throws (i_props i) name args s) as Hr.
  destruct (run_closure a throws (i_props i) name args s).1 as [t [[]|e]];
    [|done].
  intros _. by rewrite <- Hr.
Qed.

End hosted.

(** ** The machine and the user *)

Section user.
Context `{!ConfigConsumer, !LocaleReceiver, !HostFunctions}.
Implicit Types (i : instance) (u : user) (v : value).

(** The request of a gesture is the request of the closure the gesture
    calls. *)
Lemma request_by_called v u :
  request_by (truthy v) u =
    match called v u with
    | Some (name, args) => request_of (Invoke name args)
    | None => Other
    end.
Proof. destruct u as [[] e|]; cbn; by destruct (truthy v). Qed.

(** One gesture: the machine follows, and the invariants of the
    simulation are kept. *)
Lemma act_simulates i u :
  instance_ok i → PopconfirmProps_ok (i_props i) = true →
  (∀ b, intact (i_props i) b = true) →
  let r := spec_step (abs i) (request_by (truthy (visible_of (i_mem i))) u) in
  ∃ i' s, act i u = Some (i', s)
    ∧ instance_ok i' ∧ i_props i' = i_props i
    ∧ r.1 = abs i' ∧ call_of (i_props i) <$> r.2 = calls (s_trace s).
Proof.
  intros Hi Hty Hb. cbv zeta. pose proof Hi as [v Hv].
  assert (visible_of (i_mem i) = v) as ->
    by (by rewrite Hv, visible_of_committed).
  rewrite (act_called i u v Hv), request_by_called by auto.
  destruct (called v u) as [[name args]|].
  - destruct (step_closed i (Invoke name args) Hi) as (s & Hs & _).
    destruct (step_simulates i _ _ s Hi Hty Hs) as (? & ? & ? & ? & _).
    by eexists _, s.
  - by eexists i, _.
Qed.

(** C13.  The popup in the hands of the user refines the machine in the
    hands of the user, in both modes: for a well-typed host that has left
    the buttons as the component made them, every sequence of gestures is
    handled, the popup ends in the state the machine ends in, and the calls
    the host has received are the notifications of the machine, in
    order. *)
Theorem user_refines i us :
  instance_ok i → PopconfirmProps_ok (i_props i) = true →
  (∀ b, intact (i_props i) b = true) →
  ∃ i' t, user_run i us = Some (i', t)
    ∧ (spec_user_run (abs i) us).1 = abs i'
    ∧ calls t = call_of (i_props i) <$> (spec_user_run (abs i) us).2.
Proof.
  intros Hi Hty Hb. revert i Hi Hty Hb.
  induction us as [|u us IH]; intros i Hi Hty Hb; cbn [user_run spec_user_run].
  - by eexists _, _.
  - destruct (act_simulates i u Hi Hty Hb) as (i1 & s & -> & Hi1 & Hp & Ha & Hc).
    cbn [mbind option_bind fst snd p_visible abs] in *.
    destruct (spec_step _ _) as [a1 ns]. cbn [fst snd] in *. subst a1.
    rewrite <- Hp in Hty, Hb.
    destruct (IH i1 Hi1 Hty Hb) as (i2 & t & -> & Ha2 & Hc2).
    cbn [mbind option_bind fst snd]. eexists _, _. split; [done|].
    destruct (spec_user_run (abs i1) us) as [a2 ns']. cbn [fst snd] in *.
    by rewrite calls_app, fmap_app, Hc, Hc2, Hp.
Qed.

End user.

(** ** The refinement on the examples *)

Lemma step_refines_witness :
  ∃ i' s,
    @step default_config mounted_open.1 (Invoke "onConfirm" [VStr "click"]) =
      Some (i', s)
    ∧ (spec_step (abs mounted_open.1)
         (request_of (Invoke "onConfirm" [VStr "click"]))).1 = abs i'
    ∧ call_of (i_props mounted_open.1) <$>
        (spec_step (abs mounted_open.1)
           (request_of (Invoke "onConfirm" [VStr "click"]))).2 =
      calls (s_trace s)
    ∧ s_error s = None.
Proof.
  apply (@step_refines default_config mounted_open.1
           (Invoke "onConfirm" [VStr "click"])).
  - apply mounted_open_ok.
  - by vm_compute.
Defined.

Lemma hosted_refines_witness :
  let ns := call_of (i_props counted.2) <$>
              (spec_step (abs counted.2)
                 (request_of (Invoke "onConfirm" [VStr "click"]))).2 in
  ∃ s' i' r,
    @hosted_invoke nat counting fussy default_config (0, counted.2)
      "onConfirm" [VStr "click"] = Some ((s', i'), r)
    ∧ (spec_step (abs counted.2)
         (request_of (Invoke "onConfirm" [VStr "click"]))).1 = abs i'
    ∧ calls (s_trace r) `prefix_of` ns
    ∧ (s_error r = None → calls (s_trace r) = ns).
Proof.
  refine (@hosted_refines default_config nat counting fussy 0 counted.2
            "onConfirm" [VStr "click"] counted_ok _).
  by vm_compute.
Defined.

Lemma session_refines_witness :
  ∃ i t, @session default_config open_props VNull typical_events = Some (i, t)
    ∧ (spec_run (spec_init (view open_props))
         (request_of <$> typical_events)).1 = abs i
    ∧ calls t =
        spec_calls open_props (spec_init (view open_props)) typical_events.
Proof.
  apply (@session_refines default_config open_props VNull typical_events).
  - by vm_compute.
  - repeat constructor; by intros [=].
Defined.

Lemma view_determines_visible_witness :
  ∃ i' j' s t,
    @step default_config mounted_open.1 (Invoke "onConfirm" [VStr "click"]) =
      Some (i', s)
    ∧ @step default_config retitled.1 (Invoke "onConfirm" [VStr "click"]) =
        Some (j', t)
    ∧ visible_of (i_mem i') = visible_of (i_mem j').
Proof.
  apply (@view_determines_visible default_config mounted_open.1 retitled.1
           (Invoke "onConfirm" [VStr "click"])).
  - apply mounted_open_ok.
  - by exists (VBool true).
  - by vm_compute.
  - by vm_compute.
Defined.

Lemma user_refines_witness :
  ∃ i' t,
    @user_run default_config no_locale_provider no_render controlled_open hasty
      = Some (i', t)
    ∧ (spec_user_run (abs controlled_open) hasty).1 = abs i'
    ∧ calls t =
        call_of (i_props controlled_open) <$>
          (spec_user_run (abs controlled_open) hasty).2.
Proof.
  refine (@user_refines default_config no_locale_provider no_render
            controlled_open hasty _ _ _);
    [by exists (VBool true)|by vm_compute|by intros []; vm_compute].
Defined.

(** The controlled popup stays open under the gestures of [hasty]: the
    machine notifies the host of both presses of OK and of the two requests
    to hide the popup, and never changes its state. *)
Example hasty_controlled :
  spec_user_run (abs controlled_open) hasty =
    (abs controlled_open,
     [VisibleChanged (VBool false) (VStr "click"); Confirmed (VStr "click");
      VisibleChanged (VBool false) (VStr "click"); Confirmed (VStr "click");
      VisibleChanged (VBool false) VUndef;
      VisibleChanged (VBool false) VUndef]).
Proof. by vm_compute. Qed.
