(* ===== verification/Usage.v ===== *)
(** * The component in use

    What the host writes is [<Popconfirm {...config}>{trigger}</Popconfirm>]:
    React makes the element of it ([Popconfirm_element], which resolves the
    default props of lines 127-134 of components/popconfirm/index.tsx),
    renders the component (lines 34-125) with the props and the ref of the
    element, and renders it again with those of the next element the host
    writes at the same place, or mounts it afresh if the key of the element
    has changed.  Between two renders the user acts on what is
    on the screen.  This file composes the parts of the development into
    that, and states what the host gets in terms of what it wrote: the
    [Tooltip] and the popup of the mounted element, and the refinement of
    the visibility machine of [Spec] by a whole usage, from the element to
    the calls of the callbacks. *)

From S2P Require Import Prelude JsValue Effects React Collaborators.
From S2P Require Import Props Handlers Overlay Popconfirm Lifecycle.
From S2P Require Import Host Interaction User Spec.

(** ** From elements to instances *)

(** The element is an element of the component. *)
Definition is_Popconfirm (el : value) : bool :=
  bool_decide (type_of el = Some (Comp "Popconfirm")).

(** What the host does with the popup, and what the user does. *)
Inductive usage_event : Type :=
| Render (config : obj) (children : list value)
| Gesture (u : user).

(** What React keeps at the place of the tree where the host writes the
    popup: the key of the element it last rendered there, and the
    instance. *)
Record placed : Type := Placed {
  key_at : value;
  instance_at : instance;
}.

Section usage.
Context `{!ConfigConsumer}.

(** React mounts an element of the component: the function given to
    [forwardRef] is rendered with the props and the ref of the element. *)
Definition mount_element (el : value) : option (instance * settled) :=
  if is_Popconfirm el then mount (props_of el) (ref_of el) else None.

(** React renders the instance again for an element the host writes at
    its place with the key it had. *)
Definition update_element (i : instance) (el : value)
    : option (instance * settled) :=
  if is_Popconfirm el then step i (NewProps (props_of el) (ref_of el))
  else None.

(** React reconciles the place of the popup with the element the host now
    writes there: an element with the key of the place is rendered by the
    instance that is there; for an element with another key React drops
    that instance (the component registers no cleanup) and mounts a fresh
    one. *)
Definition reconcile (p : placed) (el : value) : option (placed * settled) :=
  r ← (if decide (key_of el = key_at p) then update_element (instance_at p) el
       else mount_element el);
  Some (Placed (key_of el) r.1, r.2).

Context `{!LocaleReceiver, !HostFunctions}.

Definition usage_step (p : placed) (ev : usage_event)
    : option (placed * settled) :=
  match ev with
  | Render config children => reconcile p (Popconfirm_element config children)
  | Gesture u => r ← act (instance_at p) u; Some (Placed (key_at p) r.1, r.2)
  end.

Fixpoint usage_run (p : placed) (evs : list usage_event)
    : option (placed * list op) :=
  match evs with
  | [] => Some (p, [])
  | ev :: evs =>
      r ← usage_step p ev;
      r' ← usage_run r.1 evs;
      Some (r'.1, s_trace r.2 ++ r'.2)
  end.

(** A usage: the host writes the element, then renders and gestures
    follow one another. *)
Definition usage (config : obj) (children : list value)
    (evs : list usage_event) : option (instance * list op) :=
  let el := Popconfirm_element config children in
  r ← mount_element el;
  r' ← usage_run (Placed (key_of el) r.1) evs;
  Some (instance_at r'.1, s_trace r.2 ++ r'.2).

End usage.

(** ** The machine under a usage *)

(** The props in force and the key of the place after an event of a
    usage. *)
Definition usage_props (props : obj) (ev : usage_event) : obj :=
  match ev with
  | Render config children => props_of (Popconfirm_element config children)
  | Gesture _ => props
  end.

Definition usage_key (k : value) (ev : usage_event) : value :=
  match ev with
  | Render config children => key_of (Popconfirm_element config children)
  | Gesture _ => k
  end.

(** The step of the machine an event of a usage is: a render with the key
    of the place configures the machine with the view of what the host
    wrote, a render with another key starts the machine again, and a
    gesture is the request it is in the state of the machine. *)
Definition spec_usage_step (k : value) (a : popup_state) (ev : usage_event)
    : popup_state * list notification :=
  match ev with
  | Render config children =>
      if decide (key_of (Popconfirm_element config children) = k)
      then spec_step a (Configure (view config))
      else (spec_init (view config), [])
  | Gesture u => spec_step a (request_by (truthy (p_visible a)) u)
  end.

(** The run of the machine under a usage: the state it ends in and the
    calls the host receives, each notification the call of the callback
    of the props in force. *)
Fixpoint spec_usage (props : obj) (k : value) (a : popup_state)
    (evs : list usage_event) : popup_state * list op :=
  match evs with
  | [] => (a, [])
  | ev :: evs =>
      let r := spec_usage_step k a ev in
      let r' := spec_usage (usage_props props ev) (usage_key k ev) r.1 evs in
      (r'.1, (call_of props <$> r.2) ++ r'.2)
  end.

(** What a well-typed host writes, with the buttons left as the component
    makes them. *)
Definition config_ok (config : obj) : Prop :=
  PopconfirmProps_ok config = true ∧ ∀ b, intact config b = true.

Definition usage_ok (ev : usage_event) : Prop :=
  match ev with
  | Render config _ => config_ok config
  | Gesture _ => True
  end.

(** The instances a usage goes through: at rest, with the props of a
    well-typed host that has left the buttons as they are. *)
Definition usable (i : instance) : Prop :=
  instance_ok i ∧ config_ok (i_props i).

(** ** Examples *)

(** What the host of the examples writes: a popup that starts open, with
    a title and three callbacks. *)
Definition written : obj :=
  {[ "title" := VStr "Delete the file?";
     "defaultVisible" := VBool true;
     "onConfirm" := VFun (Host 1);
     "onCancel" := VFun (Host 2);
     "onVisibleChange" := VFun (Host 3) ]}.

Definition anchor : value :=
  createElement (Tag "a") ∅ {[ "href" := VStr "#" ]} [VStr "Delete"].

(** The user confirms, opens the popup again; the host disables it; the
    user tries to dismiss it. *)
Definition busy_usage : list usage_event :=
  [ Gesture (Press ButtonOk (VStr "click"));
    Gesture Toggle;
    Render (<["disabled":=VBool true]> written) [anchor];
    Gesture Toggle ].

(** ** The element of the component *)

Section element.
Implicit Types (config : obj) (children : list value) (b : button).

Lemma is_Popconfirm_element config children :
  is_Popconfirm (Popconfirm_element config children) = true.
Proof. done. Qed.

(** The default props are invisible to the machine: the view of the props
    the component is rendered with is the view of what the host wrote. *)
Lemma view_Popconfirm_element config children :
  view (props_of (Popconfirm_element config children)) = view config.
Proof.
  unfold view.
  rewrite (get_Popconfirm_element_default _ _ "disabled" (VBool false)),
    !get_Popconfirm_element_plain, !lookup_Popconfirm_element_plain
    by (compute_done || done).
  by destruct (config !!! "disabled").
Qed.

(** The defaults leave the buttons as the host configured them. *)
Lemma intact_Popconfirm_element config children b :
  intact (props_of (Popconfirm_element config children)) b = intact config b.
Proof.
  unfold intact.
  by destruct b; cbn [overrides];
    rewrite get_Popconfirm_element_plain by (compute_done || done).
Qed.

Lemma config_ok_element config children :
  config_ok config → config_ok (props_of (Popconfirm_element config children)).
Proof.
  intros [Hty Hb]. split; [by apply element_props_ok|].
  intros b. by rewrite intact_Popconfirm_element.
Qed.

(** The state of a popup that mounts, from what the host wrote. *)
Lemma initial_visible_element config children :
  initial_visible (props_of (Popconfirm_element config children)) =
    initial_visible config.
Proof.
  unfold initial_visible.
  by rewrite !get_Popconfirm_element_plain, has_key_Popconfirm_element_plain
    by (compute_done || done).
Qed.

End element.

(** ** What the host gets for what it wrote *)

Section mounted.
Context `{!ConfigConsumer}.
Implicit Types (config : obj) (children : list value) (trigger : value).

(** Mounting the element of the component, in closed form. *)
Lemma mount_element_closed config children :
  let props := props_of (Popconfirm_element config children) in
  let ref := ref_of (Popconfirm_element config children) in
  ∃ s, mount_element (Popconfirm_element config children) =
         Some (Instance props ref (committed props (initial_visible config)), s)
    ∧ calls (s_trace s) = []
    ∧ last (s_frames s) = Some (tooltip props ref (initial_visible config)).
Proof.
  cbv zeta. unfold mount_element.
  rewrite is_Popconfirm_element, mount_closed, initial_visible_element.
  eexists. split; [done|]. cbn [s_trace s_frames].
  split; [apply calls_fmap_SetState|]. by case_decide as E; [rewrite E|].
Qed.

(** C21.  The [Tooltip] of a popup the host has just written, in terms of
    what the host wrote: the element mounts; the [Tooltip] on the screen
    has the ref the host gave, wraps the child the host gave, opens on a
    click, above its anchor and with the zoom transition unless the host
    said otherwise, and shows the popup iff [defaultVisible], or in its
    absence [visible], is truthy. *)
Theorem mount_element_tooltip config trigger :
  let el := Popconfirm_element config [trigger] in
  ∃ i s, mount_element el = Some (i, s)
    ∧ last (s_frames s) = Some (shown i)
    ∧ ref_of (shown i) = ref_of el
    ∧ props_of (shown i) !!! "children" = trigger
    ∧ props_of (shown i) !!! "trigger" =
        or_default (config !!! "trigger") (VStr "click")
    ∧ props_of (shown i) !!! "placement" =
        or_default (config !!! "placement") (VStr "top")
    ∧ props_of (shown i) !!! "transitionName" =
        or_default (config !!! "transitionName") (VStr "zoom-big")
    ∧ props_of (shown i) !!! "visible" =
        (if has_key config "defaultVisible" then config !!! "defaultVisible"
         else config !!! "visible").
Proof.
  cbv zeta. destruct (mount_element_closed config [trigger]) as (s & -> & _ & Hf).
  eexists _, s. split; [done|]. unfold shown. cbn [i_props i_ref i_mem].
  rewrite visible_of_committed. split; [done|].
  rewrite ref_of_tooltip, get_tooltip_visible, get_tooltip_placement,
    !get_tooltip_passed by compute_done.
  rewrite children_Popconfirm_element.
  rewrite (get_Popconfirm_element_default _ _ "trigger" (VStr "click")),
    (get_Popconfirm_element_default _ _ "placement" (VStr "top")),
    (get_Popconfirm_element_default _ _ "transitionName" (VStr "zoom-big"))
    by (compute_done || done).
  repeat split. unfold Popconfirm_element. rewrite ref_of_createElement.
  destruct (is_undefined (config !!! "ref")) eqn:E; [done|by rewrite E].
Qed.

Context `{!LocaleReceiver, !HostFunctions}.

(** C37.  The popup of the element the host has just written: its icon is
    the icon the host gave, the exclamation mark if none; its title is the
    title the host gave, rendered; the OK button has the type the host
    gave as [okType], primary if none, unless [okButtonProps] has a type of
    its own; the buttons read what the host gave as [okText] and
    [cancelText], and the text of the locale where it gave none. *)
Theorem mount_element_popup config children :
  ∃ i s, mount_element (Popconfirm_element config children) = Some (i, s)
    ∧ icon_of (popup i) =
        or_default (config !!! "icon")
          (createElement (Comp "ExclamationCircleFilled") ∅ ∅ [])
    ∧ title_of (popup i) = getRenderPropValue (config !!! "title")
    ∧ props_of (ok_button (popup i)) !!! "type" =
        (if has_key (spread (config !!! "okButtonProps")) "type"
         then spread (config !!! "okButtonProps") !!! "type"
         else or_default (config !!! "okType") (VStr "primary"))
    ∧ label_of (ok_button (popup i)) =
        (config !!! "okText"
         || VStr (okText (getLocale "Popconfirm" defaultLocale_Popconfirm)))%js
    ∧ label_of (cancel_button (popup i)) =
        (config !!! "cancelText"
         || VStr (cancelText (getLocale "Popconfirm" defaultLocale_Popconfirm)))%js.
Proof.
  destruct (mount_element_closed config children) as (s & -> & _).
  eexists _, s. split; [done|]. unfold popup. cbn [i_props].
  destruct (rendered_overlay_labels
    (props_of (Popconfirm_element config children))) as [-> ->].
  rewrite rendered_overlay_eq, get_ok_button by compute_done.
  rewrite icon_of_renderOverlay, title_of_renderOverlay.
  change (ok_base ?p !!! "type") with (p !!! "okType").
  by rewrite (get_Popconfirm_element_default _ _ "okType" (VStr "primary")),
    (get_Popconfirm_element_default _ _ "icon"
       (createElement (Comp "ExclamationCircleFilled") ∅ ∅ [])),
    !get_Popconfirm_element_plain by (compute_done || done).
Qed.

End mounted.

(** ** A usage refines the machine *)

Section refinement.
Context `{!ConfigConsumer, !LocaleReceiver, !HostFunctions}.
Implicit Types (i : instance) (ev : usage_event) (config : obj).

(** The machine starts in the state of the instance that mounts. *)
Lemma abs_mounted config children ref :
  let props := props_of (Popconfirm_element config children) in
  abs (Instance props ref (committed props (initial_visible config))) =
    spec_init (view config).
Proof.
  cbv zeta. unfold abs. cbn [i_props i_mem].
  by rewrite visible_of_committed, view_Popconfirm_element, spec_init_view.
Qed.

(** A render: the instance is rendered again or replaced, as the machine
    is configured or started again. *)
Lemma reconcile_simulates p config children :
  usable (instance_at p) → config_ok config →
  let el := Popconfirm_element config children in
  let r := spec_usage_step (key_at p) (abs (instance_at p))
             (Render config children) in
  ∃ i' s, reconcile p el = Some (Placed (key_of el) i', s)
    ∧ usable i' ∧ i_props i' = props_of el
    ∧ r.1 = abs i'
    ∧ call_of (i_props (instance_at p)) <$> r.2 = calls (s_trace s).
Proof.
  intros [Hi [Hty Hb]] Hc. cbv zeta. unfold reconcile. cbn [spec_usage_step].
  case_decide.
  - unfold update_element. rewrite is_Popconfirm_element.
    destruct (step_closed (instance_at p) (NewProps
      (props_of (Popconfirm_element config children))
      (ref_of (Popconfirm_element config children))) Hi) as (s & Hs & _).
    destruct (step_simulates _ _ _ s Hi Hty Hs) as (? & Hp & Ha & Hn & _).
    cbn [request_of props_after] in *.
    rewrite view_Popconfirm_element in Ha, Hn. rewrite Hs.
    eexists _, s. split; [done|]. split; [|done].
    split; [done|]. by apply config_ok_element.
  - destruct (mount_element_closed config children) as (s & -> & Hs & _).
    eexists _, s. split; [done|]. cbn [fst snd]. rewrite abs_mounted, Hs.
    split; [|done]. split; [by eexists|by apply config_ok_element].
Qed.

(** One event of a usage: the machine follows, and the instance stays
    usable. *)
Lemma usage_step_simulates p ev :
  usable (instance_at p) → usage_ok ev →
  let r := spec_usage_step (key_at p) (abs (instance_at p)) ev in
  ∃ i' s, usage_step p ev = Some (Placed (usage_key (key_at p) ev) i', s)
    ∧ usable i' ∧ i_props i' = usage_props (i_props (instance_at p)) ev
    ∧ r.1 = abs i'
    ∧ call_of (i_props (instance_at p)) <$> r.2 = calls (s_trace s).
Proof.
  intros Hu Hev. destruct ev as [config children|u].
  - by apply reconcile_simulates.
  - destruct Hu as [Hi [Hty Hb]]. cbv zeta. cbn [usage_step spec_usage_step].
    destruct (act_simulates _ u Hi Hty Hb) as (i' & s & -> & ? & Hp & ? & ?).
    cbn [mbind option_bind fst snd]. eexists i', s. split; [done|].
    split; [|done]. split; [done|]. by rewrite Hp.
Qed.

Lemma usage_run_refines p evs :
  usable (instance_at p) → Forall usage_ok evs →
  ∃ p' t, usage_run p evs = Some (p', t)
    ∧ spec_usage (i_props (instance_at p)) (key_at p) (abs (instance_at p)) evs
      = (abs (instance_at p'), calls t).
Proof.
  intros Hi Hevs. revert p Hi.
  induction Hevs as [|ev evs Hev _ IH]; intros p Hi;
    cbn [usage_run spec_usage].
  - by eexists _, _.
  - destruct (usage_step_simulates p ev Hi Hev)
      as (i1 & s & -> & Hi1 & Hp & Ha & Hc).
    cbn [mbind option_bind fst snd].
    destruct (IH (Placed (usage_key (key_at p) ev) i1) Hi1)
      as (p2 & t & -> & Hr).
    cbn [mbind option_bind fst snd key_at instance_at] in *.
    eexists _, _. split; [done|].
    by rewrite Ha, <- Hp, Hr, Hc, calls_app.
Qed.

(** C12.  A whole usage refines the machine, from what the host writes to
    the calls it receives: for a well-typed host that leaves the buttons
    as the component makes them, the element mounts and every render and
    every gesture is handled; the popup ends in the state the machine
    reaches from its initial state for what the host first wrote, each
    render a configuration by what the host then wrote (the default props
    are invisible to the machine) or, under a new key, a new start, and
    each gesture the request it is in the state of the machine; and the
    calls the host has received are the notifications of the machine, in
    order. *)
Theorem usage_refines config children evs :
  config_ok config → Forall usage_ok evs →
  let el := Popconfirm_element config children in
  ∃ i t, usage config children evs = Some (i, t)
    ∧ spec_usage (props_of el) (key_of el) (spec_init (view config)) evs =
        (abs i, calls t).
Proof.
  intros Hc Hevs. cbv zeta. unfold usage.
  destruct (mount_element_closed config children) as (s & -> & Hs & _).
  cbn [mbind option_bind fst snd].
  match goal with |- context [usage_run ?p evs] =>
    destruct (usage_run_refines p evs) as (p' & t & -> & Hr);
      [split; [by eexists|by apply config_ok_element]|done|] end.
  cbn [mbind option_bind fst snd key_at instance_at i_props] in *.
  eexists _, _. split; [done|].
  by rewrite calls_app, Hs, app_nil_l, <- Hr, abs_mounted.
Qed.

End refinement.

(** ** The usage of the examples *)

Lemma written_ok : config_ok written.
Proof. split; [by vm_compute|by intros []; vm_compute]. Qed.

Lemma usage_refines_witness :
  ∃ i t,
    @usage default_config no_locale_provider no_render written [anchor]
      busy_usage = Some (i, t)
    ∧ spec_usage (props_of (Popconfirm_element written [anchor]))
        (key_of (Popconfirm_element written [anchor]))
        (spec_init (view written)) busy_usage = (abs i, calls t).
Proof.
  refine (@usage_refines default_config no_locale_provider no_render
            written [anchor] busy_usage written_ok _).
  repeat constructor; by intros []; vm_compute.
Defined.

(** The scenario of the specification: mounted with [defaultVisible] and
    no [visible], the popup is on the screen; a click on OK hides it and
    calls [onVisibleChange], then [onConfirm], once each. *)
Example open_then_confirmed :
  (Tooltip_shows ∘ @shown default_config ∘ fst <$>
     @mount_element default_config (Popconfirm_element written [anchor]))
    = Some true
  ∧ ((λ r, (Tooltip_shows (@shown default_config r.1), calls r.2)) <$>
       @usage default_config no_locale_provider no_render written [anchor]
         [Gesture (Press ButtonOk (VStr "click"))])
    = Some (false,
            [Call (VFun (Host 3))
               (VObj (props_of (Popconfirm_element written [anchor])))
               [VBool false; VStr "click"];
             Call (VFun (Host 1)) VUndef [VStr "click"]]).
Proof. by vm_compute. Qed.

(** The scenario of the specification: a popup that is disabled ignores
    the trigger; the popup stays as it is and the host is not called. *)
Example disabled_ignores_trigger :
  ((λ r, (Tooltip_shows (@shown default_config r.1), calls r.2)) <$>
     @usage default_config no_locale_provider no_render
       (<["disabled":=VBool true]> written) [anchor]
       [Gesture Toggle; Gesture Toggle])
  = Some (true, []).
Proof. by vm_compute. Qed.

(** The usage of the examples: the popup is confirmed and opened again;
    the host disables it, and the last gesture reaches nobody. *)
Example busy_usage_heard :
  ((λ r, (Tooltip_shows (@shown default_config r.1), heard r.2)) <$>
     @usage default_config no_locale_provider no_render written [anchor]
       busy_usage)
  = Some (true,
          [(VFun (Host 3), [VBool false; VStr "click"]);
           (VFun (Host 1), [VStr "click"]);
           (VFun (Host 3), [VBool true; VUndef])]).
Proof. by vm_compute. Qed.

(** A host that starts passing [visible={undefined}] to an open popup
    takes control of it without giving it a value: the popup stays open
    whatever the user does, and the host is told of each attempt. *)
Example stuck_open :
  ((λ r, (Tooltip_shows (@shown default_config r.1), heard r.2)) <$>
     @usage default_config no_locale_provider no_render written [anchor]
       [ Render (<["visible":=VUndef]> written) [anchor];
         Gesture (Press ButtonOk (VStr "click"));
         Gesture Toggle ])
  = Some (true,
          [(VFun (Host 3), [VBool false; VStr "click"]);
           (VFun (Host 1), [VStr "click"]);
           (VFun (Host 3), [VBool false; VUndef])]).
Proof. by vm_compute. Qed.

(** The popup is confirmed and hidden; written again as it was, it stays
    hidden; written under another key, it is a new popup and starts
    open. *)
Example reset_by_key :
  (Tooltip_shows ∘ @shown default_config ∘ fst <$>
     @usage default_config no_locale_provider no_render written [anchor]
       [ Gesture (Press ButtonOk (VStr "click")); Render written [anchor] ])
    = Some false
  ∧ (Tooltip_shows ∘ @shown default_config ∘ fst <$>
       @usage default_config no_locale_provider no_render written [anchor]
         [ Gesture (Press ButtonOk (VStr "click"));
           Render (<["key":=VStr "again"]> written) [anchor] ])
    = Some true.
Proof. by vm_compute. Qed.

(** The key of an element is a string: the host that wrote the popup
    under the key ["1"] and writes it again under the key [1] writes it at
    the same place, and the popup it confirmed stays hidden. *)
Example number_key_is_string :
  (Tooltip_shows ∘ @shown default_config ∘ fst <$>
     @usage default_config no_locale_provider no_render
       (<["key":=VStr "1"]> written) [anchor]
       [ Gesture (Press ButtonOk (VStr "click"));
         Render (<["key":=VNum 1]> written) [anchor] ])
    = Some false.
Proof. by vm_compute. Qed.

(** Only elements of the component are mounted as the component. *)
Example anchor_is_not_a_popup : @mount_element default_config anchor = None.
Proof. done. Qed.
